(** * Multi-vendor routing and fallback: a shallow embedding

    This development embeds the routing engine of
    [tradingagents/dataflows/interface.py] and the market utilities of
    [tradingagents/dataflows/market_utils.py] and proves the behaviour the
    specification states about them.

    Conventions of the embedding.
    - A Python [str] is a Rocq [string] (a sequence of bytes).  Case mapping,
      whitespace and digit classes are those of ASCII; bytes above 127 (the
      UTF-8 encoding of the Chinese keywords, for instance) are letters
      without case that are neither digits nor spaces.  On ASCII text the
      string functions below compute what the source computes.  Beyond
      ASCII the source knows more: [\d] and [strptime] accept the digits of
      other scripts (the full-width digits, for instance), [str.strip]
      removes blanks such as U+3000, [str.upper] and [str.lower] map
      letters such as U+00DF (to SS) and U+212A (to k), and [len] counts
      characters where [String.length] counts bytes.  The theorems that
      say which symbols the market identifier accepts, or that it reads a
      symbol whatever its case, are stated for ASCII symbols ([isascii]).
    - A Python [dict] read by key only is a [gmap]; a dict whose insertion
      order is observed (the capability catalog) is an association list.
    - An adapter is an opaque callable: its behaviour is a function of the
      call's arguments and of a world state that it may change.
    - [print] appends a line to the standard output, kept as a list of
      structured lines. *)

From Stdlib Require Import Ascii String NArith Bool Arith Lia.
From stdpp Require Import base option list strings gmap.

Local Open Scope bool_scope.

(** ** Python string methods *)

Module PyStr.

Definition in_range (lo hi a : ascii) : bool :=
  ((N_of_ascii lo <=? N_of_ascii a) && (N_of_ascii a <=? N_of_ascii hi))%N.

(** [str.isspace] on one ASCII character: TAB, LF, VT, FF, CR, the four
    separators FS, GS, RS, US, and the space. *)
Definition isspace (a : ascii) : bool :=
  let n := N_of_ascii a in
  (((9 <=? n) && (n <=? 13)) || ((28 <=? n) && (n <=? 32)))%N.

Definition upper_char (a : ascii) : ascii :=
  if in_range "a" "z" a then ascii_of_N (N_of_ascii a - 32) else a.

Definition lower_char (a : ascii) : ascii :=
  if in_range "A" "Z" a then ascii_of_N (N_of_ascii a + 32) else a.

Fixpoint map_chars (f : ascii -> ascii) (s : string) : string :=
  match s with
  | EmptyString => EmptyString
  | String a s' => String (f a) (map_chars f s')
  end.

Definition upper : string -> string := map_chars upper_char.
Definition lower : string -> string := map_chars lower_char.

Fixpoint lstrip (s : string) : string :=
  match s with
  | EmptyString => EmptyString
  | String a s' => if isspace a then lstrip s' else s
  end.

Fixpoint rstrip (s : string) : string :=
  match s with
  | EmptyString => EmptyString
  | String a s' =>
      match rstrip s' with
      | EmptyString => if isspace a then EmptyString else String a EmptyString
      | r => String a r
      end
  end.

Definition strip (s : string) : string := rstrip (lstrip s).

(** [s.split(sep)] for a one-character separator. *)
Fixpoint split (sep : ascii) (s : string) : list string :=
  match s with
  | EmptyString => [EmptyString]
  | String a s' =>
      if Ascii.eqb a sep then EmptyString :: split sep s'
      else match split sep s' with
           | x :: xs => String a x :: xs
           | [] => [String a EmptyString]
           end
  end.

(** [sep.join(parts)] *)
Fixpoint join (sep : string) (parts : list string) : string :=
  match parts with
  | [] => EmptyString
  | [x] => x
  | x :: xs => x +:+ sep +:+ join sep xs
  end.

Definition startswith (p s : string) : bool := String.prefix p s.

Definition endswith (p s : string) : bool :=
  String.prefix (String.rev p) (String.rev s).

(** [needle in hay] *)
Fixpoint contains (needle hay : string) : bool :=
  String.prefix needle hay
  || match hay with
     | EmptyString => false
     | String _ hay' => contains needle hay'
     end.

(** [s.replace(old, new)] for a non-empty [old]: occurrences are replaced
    from left to right and do not overlap; [skip] counts the characters of
    a matched occurrence still to be dropped. *)
Fixpoint replace_from (old new : string) (skip : nat) (s : string) : string :=
  match s with
  | EmptyString => EmptyString
  | String a s' =>
      match skip with
      | S k => replace_from old new k s'
      | O =>
          if String.prefix old s
          then new +:+ replace_from old new (String.length old - 1) s'
          else String a (replace_from old new 0 s')
      end
  end.

Definition replace (old new s : string) : string := replace_from old new 0 s.

Fixpoint zeros (n : nat) : string :=
  match n with
  | O => EmptyString
  | S k => String "0" (zeros k)
  end.

(** [s.zfill(width)]: a leading sign stays in front of the padding. *)
Definition zfill (width : nat) (s : string) : string :=
  let pad := zeros (width - String.length s) in
  match s with
  | String a s' =>
      if Ascii.eqb a "+" || Ascii.eqb a "-" then String a (pad +:+ s')
      else pad +:+ s
  | EmptyString => pad
  end.

(** The line feed, and the one-character string ['\n']. *)
Definition LF : ascii := "010".
Definition newline : string := String LF EmptyString.

(** Truthiness of a string: non-empty. *)
Definition truthy (s : string) : bool :=
  match s with
  | EmptyString => false
  | String _ _ => true
  end.

End PyStr.

(** ** Regular expressions

    The patterns of the source are anchored ([^...$]) and use literals,
    character classes, alternation and bounded repetition only, so matching
    by derivatives decides them. *)

Module Re.

Inductive regex : Type :=
| Never
| Eps
| Rng (lo hi : ascii)
| Cat (r1 r2 : regex)
| Alt (r1 r2 : regex)
| Star (r : regex).

Definition Lit (a : ascii) : regex := Rng a a.

Fixpoint Str (s : string) : regex :=
  match s with
  | EmptyString => Eps
  | String a s' => Cat (Lit a) (Str s')
  end.

(** [\d] and [[A-Z]] *)
Definition digit : regex := Rng "0" "9".
Definition AZ : regex := Rng "A" "Z".

Definition Opt (r : regex) : regex := Alt Eps r.
Definition Plus (r : regex) : regex := Cat r (Star r).

(** [r{n}] and [r{n,n+extra}] *)
Fixpoint Times (n : nat) (r : regex) : regex :=
  match n with
  | O => Eps
  | S k => Cat r (Times k r)
  end.

Fixpoint UpTo (n : nat) (r : regex) : regex :=
  match n with
  | O => Eps
  | S k => Opt (Cat r (UpTo k r))
  end.

Definition Between (n extra : nat) (r : regex) : regex :=
  Cat (Times n r) (UpTo extra r).

Fixpoint alts (rs : list regex) : regex :=
  match rs with
  | [] => Never
  | [r] => r
  | r :: rs' => Alt r (alts rs')
  end.

Fixpoint nullable (r : regex) : bool :=
  match r with
  | Never => false
  | Eps => true
  | Rng _ _ => false
  | Cat r1 r2 => nullable r1 && nullable r2
  | Alt r1 r2 => nullable r1 || nullable r2
  | Star _ => true
  end.

Fixpoint deriv (a : ascii) (r : regex) : regex :=
  match r with
  | Never => Never
  | Eps => Never
  | Rng lo hi => if PyStr.in_range lo hi a then Eps else Never
  | Cat r1 r2 =>
      if nullable r1
      then Alt (Cat (deriv a r1) r2) (deriv a r2)
      else Cat (deriv a r1) r2
  | Alt r1 r2 => Alt (deriv a r1) (deriv a r2)
  | Star r1 => Cat (deriv a r1) (Star r1)
  end.

Fixpoint fullmatch (r : regex) (s : string) : bool :=
  match s with
  | EmptyString => nullable r
  | String a s' => fullmatch (deriv a r) s'
  end.

Fixpoint chop_newline (s : string) : option string :=
  match s with
  | EmptyString => None
  | String a EmptyString => if Ascii.eqb a "010" then Some EmptyString else None
  | String a s' => option_map (String a) (chop_newline s')
  end.

(** [re.match('^' r '$', s)]: [$] matches at the end of the string and
    also just before a newline that ends it. *)
Definition match_anchored (r : regex) (s : string) : bool :=
  fullmatch r s
  || match chop_newline s with
     | Some s' => fullmatch r s'
     | None => false
     end.

End Re.

(** ** market_utils.py *)

Module MarketIdentifier.
Import Re.

Definition A_STOCK_PATTERNS : list regex :=
  [ Cat (alts [Str "000"; Str "002"; Str "003"]) (Times 3 digit);
    Cat (Str "30") (Times 4 digit);
    Cat (Str "60") (Times 4 digit);
    Cat (Str "68") (Times 4 digit);
    Cat (Str "8") (Times 5 digit);
    Cat (Str "4") (Times 5 digit) ].

Definition HK_STOCK_PATTERNS : list regex :=
  [ Cat (Between 4 1 digit) (Str ".HK");
    Between 4 1 digit ].

Definition US_STOCK_PATTERNS : list regex :=
  [ Between 1 4 AZ;
    Cat (Plus AZ) (Cat (Lit ".") (Plus AZ));
    Cat (Plus digit) (Cat (Lit ".") (Plus AZ)) ].

Definition any_match (patterns : list regex) (symbol : string) : bool :=
  existsb (fun pattern => match_anchored pattern symbol) patterns.

Definition identify_market (symbol : string) : string :=
  let symbol := PyStr.strip (PyStr.upper symbol) in
  if any_match A_STOCK_PATTERNS symbol then "A_STOCK"
  else if any_match HK_STOCK_PATTERNS symbol then "HK_STOCK"
  else if any_match US_STOCK_PATTERNS symbol then "US_STOCK"
  else "UNKNOWN".

Definition startswith_any (prefixes : list string) (s : string) : bool :=
  existsb (fun p => PyStr.startswith p s) prefixes.

(** [market = None] is the default of the optional parameter. *)
Definition format_symbol_for_vendor
    (symbol vendor : string) (market : option string) : string :=
  let market :=
    match market with
    | None => identify_market symbol
    | Some m => m
    end in
  let symbol := PyStr.strip (PyStr.upper symbol) in
  if String.eqb vendor "akshare" then
    if String.eqb market "A_STOCK" then
      if startswith_any ["sz"; "sh"] symbol
      then String.substring 2 (String.length symbol - 2) symbol
      else symbol
    else if String.eqb market "HK_STOCK" then
      PyStr.zfill 5 (PyStr.replace ".HK" "" symbol)
    else if String.eqb market "US_STOCK" then symbol
    else symbol
  else if String.eqb vendor "baostock" then
    if String.eqb market "A_STOCK" then
      if startswith_any ["000"; "002"; "003"; "30"] symbol then "sz." +:+ symbol
      else if startswith_any ["60"; "68"] symbol then "sh." +:+ symbol
      else symbol
    else symbol
  else if String.eqb vendor "yfinance" || String.eqb vendor "alpha_vantage" then
    if String.eqb market "A_STOCK" then
      if startswith_any ["000"; "002"; "003"; "30"] symbol then symbol +:+ ".SZ"
      else if startswith_any ["60"; "68"] symbol then symbol +:+ ".SS"
      else symbol
    else if String.eqb market "HK_STOCK" then
      if negb (PyStr.endswith ".HK" symbol)
      then PyStr.zfill 4 symbol +:+ ".HK"
      else symbol
    else if String.eqb market "US_STOCK" then symbol
    else symbol
  else symbol.

Definition get_supported_markets (vendor : string) : list string :=
  if String.eqb vendor "akshare" then ["A_STOCK"; "HK_STOCK"; "US_STOCK"]
  else if String.eqb vendor "baostock" then ["A_STOCK"]
  else if String.eqb vendor "yfinance" then ["A_STOCK"; "HK_STOCK"; "US_STOCK"]
  else if String.eqb vendor "alpha_vantage" then ["US_STOCK"]
  else [].

Definition is_market_supported (symbol vendor : string) : bool :=
  let market := identify_market symbol in
  let supported_markets := get_supported_markets vendor in
  existsb (String.eqb market) supported_markets.

End MarketIdentifier.

Record MarketInfo : Type := {
  mi_symbol : string;
  mi_market : string;
  mi_market_name : string;
  mi_timezone : string;
  mi_currency : string
}.

Definition get_market_info (symbol : string) : MarketInfo :=
  let market := MarketIdentifier.identify_market symbol in
  {| mi_symbol := symbol;
     mi_market := market;
     mi_market_name :=
       if String.eqb market "A_STOCK" then "中国A股"
       else if String.eqb market "HK_STOCK" then "香港股市"
       else if String.eqb market "US_STOCK" then "美国股市"
       else "未知市场";
     mi_timezone :=
       if String.eqb market "A_STOCK" then "Asia/Shanghai"
       else if String.eqb market "HK_STOCK" then "Asia/Hong_Kong"
       else if String.eqb market "US_STOCK" then "America/New_York"
       else "UTC";
     mi_currency :=
       if String.eqb market "A_STOCK" then "CNY"
       else if String.eqb market "HK_STOCK" then "HKD"
       else "USD" |}.

(** ** interface.py: the data-quality gate for indicator results *)

Module Datetime.
Import Re.

(** The regular expression [datetime.strptime] compiles for ['%Y-%m-%d']. *)
Definition ymd_regex : regex :=
  Cat (Times 4 digit)
 (Cat (Lit "-")
 (Cat (alts [Cat (Lit "1") (Rng "0" "2"); Cat (Lit "0") (Rng "1" "9"); Rng "1" "9"])
 (Cat (Lit "-")
      (alts [Cat (Lit "3") (Rng "0" "1"); Cat (Rng "1" "2") digit;
             Cat (Lit "0") (Rng "1" "9"); Rng "1" "9";
             Cat (Lit " ") (Rng "1" "9")])))).

(** [int(s)] for a string of decimal digits with optional blanks around. *)
Fixpoint int_of_digits (acc : N) (s : string) : N :=
  match s with
  | EmptyString => acc
  | String a s' =>
      if PyStr.in_range "0" "9" a
      then int_of_digits (10 * acc + (N_of_ascii a - 48)) s'
      else int_of_digits acc s'
  end.

Definition is_leap (year : N) : bool :=
  ((year mod 4 =? 0) && (negb (year mod 100 =? 0) || (year mod 400 =? 0)))%N.

Definition days_in_month (year month : N) : N :=
  (if month =? 2 then (if is_leap year then 29 else 28)
   else if (month =? 4) || (month =? 6) || (month =? 9) || (month =? 11) then 30
   else 31)%N.

(** [date(year, month, day)] raises [ValueError] outside these bounds. *)
Definition valid_date (year month day : N) : bool :=
  ((1 <=? year) && (year <=? 9999) && (1 <=? month) && (month <=? 12)
   && (1 <=? day) && (day <=? days_in_month year month))%N.

(** [datetime.strptime(s, '%Y-%m-%d')]: [true] when it returns, [false]
    when it raises [ValueError]. *)
Definition strptime_ymd (s : string) : bool :=
  fullmatch ymd_regex s
  && match PyStr.split "-" s with
     | [y; m; d] =>
         valid_date (int_of_digits 0 y) (int_of_digits 0 m) (int_of_digits 0 d)
     | _ => false
     end.

End Datetime.

Module PyFloat.
Import Re.

Definition sign : regex := Alt (Lit "+") (Lit "-").
Definition digitpart : regex := Cat digit (Star (Cat (Opt (Lit "_")) digit)).
Definition number : regex :=
  Alt (Cat (Opt digitpart) (Cat (Lit ".") digitpart))
      (Cat digitpart (Opt (Lit "."))).
Definition exponent : regex := Cat (Lit "e") (Cat (Opt sign) digitpart).
Definition floatvalue : regex :=
  Cat (Opt sign)
      (alts [Cat number (Opt exponent); Str "infinity"; Str "inf"; Str "nan"]).

(** [float(s)]: [true] when it returns, [false] when it raises
    [ValueError].  The grammar is case-insensitive and blanks around the
    number are ignored. *)
Definition parses (s : string) : bool :=
  fullmatch floatvalue (PyStr.lower (PyStr.strip s)).

End PyFloat.

Definition NO_DATA_KEYWORDS : list string :=
  [ "n/a"; "not a trading day"; "weekend"; "holiday"; "invalid";
    "no data"; "error"; "failed"; "无数据"; "节假日"; "非交易日" ].

Record Counts : Type := {
  valid_data_count : nat;
  date_line_count : nat
}.

(** The body of the loop over the lines of [_is_indicator_result_invalid]. *)
Definition scan_line (c : Counts) (line : string) : Counts :=
  let line := PyStr.strip line in
  let head := PyStr.strip (hd EmptyString (PyStr.split ":" line)) in
  if PyStr.contains ":" line && Nat.eqb (String.length head) 10 then
    let date_part := head in
    if Datetime.strptime_ymd date_part then
      let dates := S (date_line_count c) in
      let value_part := PyStr.strip (PyStr.join ":" (tl (PyStr.split ":" line))) in
      if negb (existsb (fun keyword => PyStr.contains keyword (PyStr.lower value_part))
                       NO_DATA_KEYWORDS)
      then
        if PyFloat.parses value_part
        then {| valid_data_count := S (valid_data_count c); date_line_count := dates |}
        else if PyStr.truthy value_part && Nat.ltb 0 (String.length value_part)
        then {| valid_data_count := S (valid_data_count c); date_line_count := dates |}
        else {| valid_data_count := valid_data_count c; date_line_count := dates |}
      else {| valid_data_count := valid_data_count c; date_line_count := dates |}
    else c
  else c.

Definition scan_lines (result_content : string) : Counts :=
  fold_left scan_line (PyStr.split PyStr.LF result_content)
            {| valid_data_count := 0; date_line_count := 0 |}.

(** [valid_ratio < 0.3] is decided on the integers: [10 * valid < 3 * dates].
    The quotient of the source is a double; the two tests agree as long as a
    report has fewer than 10^15 lines. *)
Definition _is_indicator_result_invalid (result_content : string) : bool :=
  if negb (PyStr.truthy result_content) then true
  else
    let c := scan_lines result_content in
    if Nat.eqb (date_line_count c) 0 then true
    else Nat.ltb (10 * valid_data_count c) (3 * date_line_count c).


(** ** interface.py: values, exceptions and the capability catalog *)

(** What an adapter returns: a [str], or any other object, of which the
    router only ever takes [str(...)]. *)
Inductive Value : Type :=
| VStr (s : string)
| VObj (text : string).

Definition py_str (v : Value) : string :=
  match v with
  | VStr s => s
  | VObj text => text
  end.

(** The exception classes the router names, and [OtherException] for every
    other subclass of [Exception]. *)
Inductive ExnClass : Type :=
| AlphaVantageRateLimitError
| ConnectionError
| ConnectionAbortedError
| ConnectionResetError
| TimeoutError
| ValueError
| RuntimeError
| OtherException.

Record Exn : Type := mkExn {
  exn_class : ExnClass;
  exn_msg : string
}.

Inductive Outcome (A : Type) : Type :=
| Return (a : A)
| Raise (e : Exn).
Arguments Return {A} a.
Arguments Raise {A} e.

(** The vendor implementations imported at the top of [interface.py], and
    the seven lambdas of [VENDOR_METHODS]. *)
Inductive Adapter : Type :=
| get_alpha_vantage_stock | get_YFin_data_online | get_akshare_stock_data
| get_baostock_stock_data | get_YFin_data
| get_alpha_vantage_indicator | get_stock_stats_indicators_window
| get_akshare_indicators
| get_alpha_vantage_fundamentals | get_akshare_company_info
| get_baostock_fundamentals | get_fundamentals_openai
| get_alpha_vantage_balance_sheet | get_yfinance_balance_sheet
| lambda_akshare_balance_sheet | lambda_baostock_balance_sheet
| get_simfin_balance_sheet
| get_alpha_vantage_cashflow | get_yfinance_cashflow
| lambda_akshare_cashflow | lambda_baostock_cashflow | get_simfin_cashflow
| get_alpha_vantage_income_statement | get_yfinance_income_statement
| lambda_akshare_income_statement | lambda_baostock_income_statement
| get_simfin_income_statements
| get_akshare_stock_news | get_alpha_vantage_news | get_stock_news_openai
| get_google_news | get_finnhub_news | get_reddit_company_news
| get_akshare_global_news | get_global_news_openai | get_reddit_global_news
| get_akshare_market_sentiment | get_finnhub_company_insider_sentiment
| get_alpha_vantage_insider_transactions | get_yfinance_insider_transactions
| get_finnhub_company_insider_transactions
| get_akshare_realtime_data
| lambda_baostock_dividend_data.

(** A catalog entry is one callable or a list of callables. *)
Inductive VendorImpl : Type :=
| Single (f : Adapter)
| Several (fs : list Adapter).

Record CategoryInfo : Type := {
  description : string;
  tools : list string
}.

Definition TOOLS_CATEGORIES : list (string * CategoryInfo) :=
  [ ("core_stock_apis",
      {| description := "OHLCV stock price data";
         tools := ["get_stock_data"] |});
    ("technical_indicators",
      {| description := "Technical analysis indicators";
         tools := ["get_indicators"] |});
    ("fundamental_data",
      {| description := "Company fundamentals";
         tools := ["get_fundamentals"; "get_balance_sheet"; "get_cashflow";
                   "get_income_statement"] |});
    ("news_data",
      {| description := "News (public/insiders, original/processed)";
         tools := ["get_news"; "get_global_news"; "get_insider_sentiment";
                   "get_insider_transactions"] |});
    ("realtime_data",
      {| description := "Real-time market data";
         tools := ["get_realtime_data"] |});
    ("dividend_data",
      {| description := "Dividend and corporate actions";
         tools := ["get_dividend_data"] |}) ].

Definition VENDOR_METHODS : list (string * list (string * VendorImpl)) :=
  [ ("get_stock_data",
      [ ("alpha_vantage", Single get_alpha_vantage_stock);
        ("yfinance", Single get_YFin_data_online);
        ("akshare", Single get_akshare_stock_data);
        ("baostock", Single get_baostock_stock_data);
        ("local", Single get_YFin_data) ]);
    ("get_indicators",
      [ ("alpha_vantage", Single get_alpha_vantage_indicator);
        ("yfinance", Single get_stock_stats_indicators_window);
        ("akshare", Single get_akshare_indicators);
        ("local", Single get_stock_stats_indicators_window) ]);
    ("get_fundamentals",
      [ ("alpha_vantage", Single get_alpha_vantage_fundamentals);
        ("akshare", Single get_akshare_company_info);
        ("baostock", Single get_baostock_fundamentals);
        ("openai", Single get_fundamentals_openai) ]);
    ("get_balance_sheet",
      [ ("alpha_vantage", Single get_alpha_vantage_balance_sheet);
        ("yfinance", Single get_yfinance_balance_sheet);
        ("akshare", Single lambda_akshare_balance_sheet);
        ("baostock", Single lambda_baostock_balance_sheet);
        ("local", Single get_simfin_balance_sheet) ]);
    ("get_cashflow",
      [ ("alpha_vantage", Single get_alpha_vantage_cashflow);
        ("yfinance", Single get_yfinance_cashflow);
        ("akshare", Single lambda_akshare_cashflow);
        ("baostock", Single lambda_baostock_cashflow);
        ("local", Single get_simfin_cashflow) ]);
    ("get_income_statement",
      [ ("alpha_vantage", Single get_alpha_vantage_income_statement);
        ("yfinance", Single get_yfinance_income_statement);
        ("akshare", Single lambda_akshare_income_statement);
        ("baostock", Single lambda_baostock_income_statement);
        ("local", Single get_simfin_income_statements) ]);
    ("get_news",
      [ ("akshare", Single get_akshare_stock_news);
        ("alpha_vantage", Single get_alpha_vantage_news);
        ("openai", Single get_stock_news_openai);
        ("google", Single get_google_news);
        ("local", Several [get_finnhub_news; get_reddit_company_news;
                           get_google_news]) ]);
    ("get_global_news",
      [ ("akshare", Single get_akshare_global_news);
        ("openai", Single get_global_news_openai);
        ("local", Single get_reddit_global_news) ]);
    ("get_insider_sentiment",
      [ ("akshare", Single get_akshare_market_sentiment);
        ("local", Single get_finnhub_company_insider_sentiment) ]);
    ("get_insider_transactions",
      [ ("alpha_vantage", Single get_alpha_vantage_insider_transactions);
        ("yfinance", Single get_yfinance_insider_transactions);
        ("local", Single get_finnhub_company_insider_transactions) ]);
    ("get_realtime_data",
      [ ("akshare", Single get_akshare_realtime_data) ]);
    ("get_dividend_data",
      [ ("baostock", Single lambda_baostock_dividend_data) ]) ].

(** [d[key]] / [key in d] on a dict kept in insertion order. *)
Fixpoint assoc {A : Type} (key : string) (d : list (string * A)) : option A :=
  match d with
  | [] => None
  | (k, v) :: d' => if String.eqb key k then Some v else assoc key d'
  end.

Definition keys {A : Type} (d : list (string * A)) : list string := map fst d.

(** [x in xs] on a list of strings. *)
Definition py_in (x : string) (xs : list string) : bool :=
  existsb (String.eqb x) xs.

Definition get_category_for_method (method : string) : Outcome string :=
  match find (fun entry => py_in method (tools (snd entry))) TOOLS_CATEGORIES with
  | Some (category, _) => Return category
  | None =>
      Raise (mkExn ValueError ("Method '" +:+ method +:+ "' not found in any category"))
  end.

(** ** interface.py: the configuration resolver *)

(** The dictionary [get_config()] returns.  A key that is absent
    ([config.get(key, {})]) is an empty map. *)
Record Config : Type := {
  data_vendors : gmap string string;
  tool_vendors : gmap string string;
  market_vendors : gmap string (gmap string string)
}.

(** [if symbol:] on the optional symbol. *)
Definition symbol_given (symbol : option string) : bool :=
  match symbol with
  | Some s => PyStr.truthy s
  | None => false
  end.

(** The first block of [get_vendor]: [Some v] when it returns [v], [None]
    when control falls through to the tool-level check. *)
Definition market_layer (config : Config) (symbol : option string) : option string :=
  match symbol with
  | Some s =>
      if PyStr.truthy s then
        let market_info := get_market_info s in
        let market := mi_market market_info in
        match market_vendors config !! market with
        | Some market_config =>
            let primary := default EmptyString (market_config !! "primary") in
            let fallback := default EmptyString (market_config !! "fallback") in
            if PyStr.truthy primary && PyStr.truthy fallback
            then Some (primary +:+ "," +:+ fallback)
            else if PyStr.truthy primary then Some primary
            else if PyStr.truthy fallback then Some fallback
            else None
        | None => None
        end
      else None
  | None => None
  end.

Definition tool_layer (config : Config) (method : string) : option string :=
  if PyStr.truthy method then tool_vendors config !! method else None.

Definition get_vendor
    (config : Config) (category method : string) (symbol : option string) : string :=
  match market_layer config symbol with
  | Some vendors => vendors
  | None =>
      match tool_layer config method with
      | Some vendors => vendors
      | None => default "default" (data_vendors config !! category)
      end
  end.


(** ** interface.py: the fallback executor *)

(** [*args] and [**kwargs] of a call.  Arguments are strings, as the tools
    declare the parameters the router reads. *)
Record CallArgs : Type := {
  args : list string;
  kwargs : gmap string string
}.

(** The symbol the router extracts for smart routing. *)
Definition extract_symbol (a : CallArgs) : option string :=
  match args a with
  | first :: _ => Some first
  | [] =>
      match kwargs a !! "symbol" with
      | Some s => Some s
      | None => kwargs a !! "ticker"
      end
  end.

(** One constructor for each [print] of [route_to_vendor]. *)
Inductive LogLine : Type :=
| INFO_not_supported (vendor method : string)
| SUCCESS_completed (impl_func : Adapter) (vendor_name : string)
| RATE_LIMIT_exceeded
| NETWORK_ERROR_network (impl_func : Adapter) (vendor_name : string) (e : Exn)
| NETWORK_ERROR_connection (impl_func : Adapter) (vendor_name : string) (e : Exn)
| INFO_attempting_fallback
| FAILED_impl (impl_func : Adapter) (vendor_name : string) (e : Exn)
| DATA_QUALITY_invalid (vendor : string)
| INFO_better_quality
| FALLBACK_skipping (vendor : string)
| SUCCESS_vendor (vendor : string) (count : nat)
| FAILED_no_results (vendor : string)
| FAILURE_all (vendor_attempt_count : nat) (method : string)
| FINAL_completed (method : string) (count vendor_attempt_count : nat).

Definition NETWORK_KEYWORDS : list string :=
  ["connection"; "network"; "timeout"; "remote"; "aborted"].

(** How the three [except] clauses sort an exception. *)
Inductive ErrorKind : Type := RateLimit | NetworkFailure | OtherFailure.

Definition classify (e : Exn) : ErrorKind :=
  match exn_class e with
  | AlphaVantageRateLimitError => RateLimit
  | ConnectionError | ConnectionAbortedError | ConnectionResetError
  | TimeoutError => NetworkFailure
  | _ =>
      let error_str := PyStr.lower (exn_msg e) in
      if existsb (fun keyword => PyStr.contains keyword error_str) NETWORK_KEYWORDS
      then NetworkFailure
      else OtherFailure
  end.

Definition SINGLE_RESULT_METHODS : list string := ["get_indicators"; "get_stock_data"].

(** The local variables of [route_to_vendor] that the loop over the vendors
    updates. *)
Record Locals : Type := {
  results : list Value;
  vendor_attempt_count : nat;
  any_primary_vendor_attempted : bool;
  successful_vendor : option string
}.

Definition initial_locals : Locals :=
  {| results := [];
     vendor_attempt_count := 0;
     any_primary_vendor_attempted := false;
     successful_vendor := None |}.

Section Router.

(** The state of everything outside the engine that an adapter reads or
    changes, and what each adapter does on a call. *)
Context {W : Type}.
Variable behaviour : Adapter -> CallArgs -> W -> Outcome Value * W.
Variable config : Config.

(** The observable effects of a run: the world, the printed lines, and
    the adapter invocations in order (the latter for specification only). *)
Record Sys : Type := {
  world : W;
  stdout : list LogLine;
  calls : list (string * Adapter)
}.

Definition start (w : W) : Sys := {| world := w; stdout := []; calls := [] |}.

Definition print (line : LogLine) (s : Sys) : Sys :=
  {| world := world s; stdout := stdout s ++ [line]; calls := calls s |}.

Definition invoke (vendor : string) (impl_func : Adapter) (a : CallArgs) (s : Sys)
    : Outcome Value * Sys :=
  let '(o, w) := behaviour impl_func a (world s) in
  (o, {| world := w; stdout := stdout s; calls := calls s ++ [(vendor, impl_func)] |}).

Definition handle_exception
    (vendor : string) (impl_func : Adapter) (e : Exn) (s : Sys) : Sys :=
  match exn_class e with
  | AlphaVantageRateLimitError =>
      if String.eqb vendor "alpha_vantage" then print RATE_LIMIT_exceeded s else s
  | ConnectionError | ConnectionAbortedError | ConnectionResetError
  | TimeoutError =>
      print INFO_attempting_fallback (print (NETWORK_ERROR_network impl_func vendor e) s)
  | _ =>
      let error_str := PyStr.lower (exn_msg e) in
      if existsb (fun keyword => PyStr.contains keyword error_str) NETWORK_KEYWORDS
      then print INFO_attempting_fallback
             (print (NETWORK_ERROR_connection impl_func vendor e) s)
      else print (FAILED_impl impl_func vendor e) s
  end.

(** [for impl_func, vendor_name in vendor_methods: try ... except ...] *)
Fixpoint run_vendor_methods
    (vendor : string) (vendor_methods : list Adapter) (a : CallArgs)
    (vendor_results : list Value) (s : Sys) : list Value * Sys :=
  match vendor_methods with
  | [] => (vendor_results, s)
  | impl_func :: rest =>
      match invoke vendor impl_func a s with
      | (Return result, s1) =>
          run_vendor_methods vendor rest a (vendor_results ++ [result])
            (print (SUCCESS_completed impl_func vendor) s1)
      | (Raise e, s1) =>
          run_vendor_methods vendor rest a vendor_results
            (handle_exception vendor impl_func e s1)
      end
  end.

Definition vendor_methods_of (vendor_impl : VendorImpl) : list Adapter :=
  match vendor_impl with
  | Several fs => fs
  | Single f => [f]
  end.

(** The quality gate as the loop applies it. *)
Definition should_fallback_due_to_invalid_data
    (method : string) (vendor_results : list Value) : bool :=
  match vendor_results with
  | [result] =>
      String.eqb method "get_indicators"
      && _is_indicator_result_invalid (py_str result)
  | _ => false
  end.

Definition stop_after_first_success
    (method : string) (primary_vendors : list string) : bool :=
  Nat.eqb (length primary_vendors) 1 || py_in method SINGLE_RESULT_METHODS.

(** [for vendor in fallback_vendors: ...] with its [continue]s and its
    [break]. *)
Fixpoint vendor_loop
    (method : string) (impls : list (string * VendorImpl))
    (primary_vendors : list string) (a : CallArgs)
    (fallback_vendors : list string) (l : Locals) (s : Sys) : Locals * Sys :=
  match fallback_vendors with
  | [] => (l, s)
  | vendor :: rest =>
      match assoc vendor impls with
      | None =>
          vendor_loop method impls primary_vendors a rest l
            (if py_in vendor primary_vendors
             then print (INFO_not_supported vendor method) s else s)
      | Some vendor_impl =>
          let is_primary_vendor := py_in vendor primary_vendors in
          let l1 :=
            {| results := results l;
               vendor_attempt_count := S (vendor_attempt_count l);
               any_primary_vendor_attempted :=
                 if is_primary_vendor then true else any_primary_vendor_attempted l;
               successful_vendor := successful_vendor l |} in
          let '(vendor_results, s1) :=
            run_vendor_methods vendor (vendor_methods_of vendor_impl) a [] s in
          match vendor_results with
          | [] =>
              vendor_loop method impls primary_vendors a rest l1
                (print (FAILED_no_results vendor) s1)
          | _ :: _ =>
              if should_fallback_due_to_invalid_data method vendor_results then
                vendor_loop method impls primary_vendors a rest l1
                  (print (FALLBACK_skipping vendor)
                     (print INFO_better_quality
                        (print (DATA_QUALITY_invalid vendor) s1)))
              else
                let l2 :=
                  {| results := results l1 ++ vendor_results;
                     vendor_attempt_count := vendor_attempt_count l1;
                     any_primary_vendor_attempted := any_primary_vendor_attempted l1;
                     successful_vendor := Some vendor |} in
                let s2 := print (SUCCESS_vendor vendor (length vendor_results)) s1 in
                if stop_after_first_success method primary_vendors
                then (l2, s2)
                else vendor_loop method impls primary_vendors a rest l2 s2
          end
      end
  end.

(** [primary_vendors = [v.strip() for v in vendor_config.split(',')]] *)
Definition parse_vendors (vendor_config : string) : list string :=
  map PyStr.strip (PyStr.split "," vendor_config).

(** The test that chooses between the two ways of building
    [fallback_vendors]. *)
Definition is_market_scoped (symbol : option string) : bool :=
  match symbol with
  | Some s =>
      PyStr.truthy s
      && bool_decide (is_Some (market_vendors config !! mi_market (get_market_info s)))
  | None => false
  end.

(** [for vendor in all_available_vendors: if vendor not in fallback_vendors:
    fallback_vendors.append(vendor)] *)
Fixpoint append_missing
    (fallback_vendors all_available_vendors : list string) : list string :=
  match all_available_vendors with
  | [] => fallback_vendors
  | vendor :: rest =>
      if negb (py_in vendor fallback_vendors)
      then append_missing (fallback_vendors ++ [vendor]) rest
      else append_missing fallback_vendors rest
  end.

Definition build_fallback_vendors
    (impls : list (string * VendorImpl)) (symbol : option string)
    (primary_vendors : list string) : list string :=
  if is_market_scoped symbol then primary_vendors
  else append_missing primary_vendors (keys impls).

(** The last lines of [route_to_vendor]: raise, or return the single
    result, or the results joined as text. *)
Definition final_result (method : string) (l : Locals) (s : Sys)
    : Outcome Value * Sys :=
  match results l with
  | [] =>
      (Raise (mkExn RuntimeError
                ("All vendor implementations failed for method '" +:+ method +:+ "'")),
       print (FAILURE_all (vendor_attempt_count l) method) s)
  | [result] =>
      (Return result,
       print (FINAL_completed method (length (results l)) (vendor_attempt_count l)) s)
  | _ =>
      (Return (VStr (PyStr.join PyStr.newline (map py_str (results l)))),
       print (FINAL_completed method (length (results l)) (vendor_attempt_count l)) s)
  end.

(** The state in which the loop over the vendors ends, for a method that
    passed both checks. *)
Definition execute
    (method category : string) (impls : list (string * VendorImpl))
    (a : CallArgs) (s : Sys) : Locals * Sys :=
  let symbol := extract_symbol a in
  let vendor_config := get_vendor config category method symbol in
  let primary_vendors := parse_vendors vendor_config in
  let fallback_vendors := build_fallback_vendors impls symbol primary_vendors in
  vendor_loop method impls primary_vendors a fallback_vendors initial_locals s.

Definition route_to_vendor (method : string) (a : CallArgs) (s : Sys)
    : Outcome Value * Sys :=
  match get_category_for_method method with
  | Raise e => (Raise e, s)
  | Return category =>
      match assoc method VENDOR_METHODS with
      | None =>
          (Raise (mkExn ValueError ("Method '" +:+ method +:+ "' not supported")), s)
      | Some impls =>
          let '(l, s1) := execute method category impls a s in
          final_result method l s1
      end
  end.

End Router.


(** ** akshare_common.py and baostock_common.py: the callers of the market
       utilities *)

(** The exception classes of the two vendor modules are subclasses of
    [Exception] that the router does not name: [OtherException]. *)

Definition AKSHARE_NETWORK_KEYWORDS : list string :=
  ["connection"; "network"; "timeout"; "remote"; "aborted"; "disconnected"].

Definition BAOSTOCK_FALLBACK_KEYWORDS : list string :=
  [ "baostock is not installed"; "no module named"; "connection"; "network";
    "timeout"; "remote"; "aborted"; "disconnected" ].

(** [f" for {symbol}" if symbol else ""] *)
Definition symbol_info_of (symbol : option string) : string :=
  match symbol with
  | Some s => if PyStr.truthy s then " for " +:+ s else EmptyString
  | None => EmptyString
  end.

(** [handle_akshare_exception(e, operation, symbol)], on the text [str(e)]. *)
Definition handle_akshare_exception
    (e : string) (operation : string) (symbol : option string) : Outcome string :=
  let symbol_info := symbol_info_of symbol in
  let error_str := PyStr.lower e in
  if existsb (fun keyword => PyStr.contains keyword error_str) AKSHARE_NETWORK_KEYWORDS
  then Raise (mkExn OtherException
                ("Network error " +:+ operation +:+ symbol_info +:+ ": " +:+ e))
  else Return ("Error " +:+ operation +:+ symbol_info +:+ ": " +:+ e).

(** [handle_baostock_exception(e, operation, symbol)] *)
Definition handle_baostock_exception
    (e : string) (operation : string) (symbol : option string) : Outcome string :=
  let error_str := PyStr.lower e in
  let symbol_info := symbol_info_of symbol in
  if existsb (fun keyword => PyStr.contains keyword error_str) BAOSTOCK_FALLBACK_KEYWORDS
  then Raise (mkExn OtherException
                ("BaoStock error " +:+ operation +:+ symbol_info +:+ ": " +:+ e))
  else Return ("Error " +:+ operation +:+ symbol_info +:+ ": " +:+ e).

(** [create_fallback_response(primary_error, fallback_result)] *)
Definition create_fallback_response
    (primary_error : string) (fallback_result : option string) : string :=
  match fallback_result with
  | Some r =>
      if PyStr.truthy r && negb (PyStr.startswith "Error" r) then r else primary_error
  | None => primary_error
  end.

(** [validate_market_support(symbol, operation)] of [akshare_common.py]. *)
Definition akshare_validate_market_support
    (symbol operation : string) : Outcome (string * MarketInfo) :=
  let market_info := get_market_info symbol in
  let market := mi_market market_info in
  if negb (MarketIdentifier.is_market_supported symbol "akshare")
  then Raise (mkExn OtherException
                ("Market " +:+ market +:+ " is not supported by AKShare for "
                 +:+ operation))
  else Return (market, market_info).

(** [validate_market_support(symbol, operation)] of [baostock_common.py]. *)
Definition baostock_validate_market_support
    (symbol operation : string) : Outcome (string * MarketInfo) :=
  let market_info := get_market_info symbol in
  let market := mi_market market_info in
  if negb (MarketIdentifier.is_market_supported symbol "baostock")
  then Raise (mkExn OtherException
                ("Market " +:+ market +:+ " is not supported by BaoStock for "
                 +:+ operation +:+ " (A-shares only)"))
  else Return (market, market_info).
(** * Vocabulary of the statements *)

Fixpoint nodupb (xs : list string) : bool :=
  match xs with
  | [] => true
  | x :: xs' => negb (py_in x xs') && nodupb xs'
  end.


(** [vendor in VENDOR_METHODS[method]] *)
Definition registered (impls : list (string * VendorImpl)) (vendor : string) : bool :=
  match assoc vendor impls with
  | Some _ => true
  | None => false
  end.

(** The invocations one attempt of a provider makes: each of its adapters,
    once, in catalog order. *)
Definition calls_of (impls : list (string * VendorImpl)) (vendor : string)
    : list (string * Adapter) :=
  match assoc vendor impls with
  | Some vendor_impl => map (pair vendor) (vendor_methods_of vendor_impl)
  | None => []
  end.

(** The text of the terminal failure of [route_to_vendor]. *)
Definition all_failed_message (method : string) : string :=
  "All vendor implementations failed for method '" +:+ method +:+ "'".

(** ** Configurations, calls and adapters used as examples *)

(** The vendor settings of [default_config.py]. *)
Definition DEFAULT_CONFIG : Config :=
  {| data_vendors :=
       {[ "core_stock_apis" := "akshare";
          "technical_indicators" := "akshare";
          "fundamental_data" := "akshare";
          "news_data" := "akshare" ]};
     tool_vendors :=
       {[ "get_stock_data" := "akshare";
          "get_indicators" := "yfinance,akshare";
          "get_global_news" := "openai,akshare";
          "get_news" := "akshare,openai" ]};
     market_vendors :=
       {[ "A_STOCK" := {[ "primary" := "akshare"; "fallback" := "baostock,yfinance" ]};
          "HK_STOCK" := {[ "primary" := "akshare"; "fallback" := "yfinance" ]};
          "US_STOCK" := {[ "primary" := "akshare"; "fallback" := "yfinance,alpha_vantage" ]} ]} |}.

(** A call with one positional argument. *)
Definition call_with (first : string) : CallArgs := {| args := [first]; kwargs := ∅ |}.

(** A world that counts the adapter invocations made so far. *)
Definition every_adapter_fails (f : Adapter) (a : CallArgs) (w : nat)
    : Outcome Value * nat :=
  (Raise (mkExn OtherException "no data"), S w).

(** The US market is configured with a provider that has no stock-data
    adapter. *)
Definition config_us_google : Config :=
  {| data_vendors := ∅;
     tool_vendors := ∅;
     market_vendors := {[ "US_STOCK" := {[ "primary" := "google" ]} ]} |}.

Definition impls_of (method : string) : list (string * VendorImpl) :=
  default [] (assoc method VENDOR_METHODS).

(** The akshare adapters lose their connection; every other adapter
    returns a text that names it. *)
Definition akshare_is_down (f : Adapter) (a : CallArgs) (w : nat)
    : Outcome Value * nat :=
  match f with
  | get_akshare_stock_data | get_akshare_indicators | get_akshare_stock_news
  | get_akshare_global_news =>
      (Raise (mkExn ConnectionError "Connection aborted."), S w)
  | get_YFin_data_online => (Return (VStr "Date,Open,High,Low,Close"), S w)
  | _ => (Return (VObj "<DataFrame>"), S w)
  end.

(** Three news sources that all answer. *)
Definition news_sources_answer (f : Adapter) (a : CallArgs) (w : nat)
    : Outcome Value * nat :=
  match f with
  | get_global_news_openai => (Return (VStr "openai: markets rally"), S w)
  | get_akshare_global_news => (Return (VStr "akshare: rates unchanged"), S w)
  | get_reddit_global_news => (Return (VObj "reddit: 3 posts"), S w)
  | _ => (Raise (mkExn OtherException "not a news source"), S w)
  end.

(** No market-specific entry; stock data is configured at tool level with
    one provider. *)
Definition config_tool_level (vendors : string) : Config :=
  {| data_vendors := {[ "core_stock_apis" := "akshare" ]};
     tool_vendors := {[ "get_stock_data" := vendors ]};
     market_vendors := ∅ |}.

(** The market layer of the resolver as the specification words it:
    [primary] then [fallback], comma-joined, empty parts skipped. *)
Definition concat_skip_empty (primary fallback : string) : string :=
  PyStr.join "," (List.filter PyStr.truthy [primary; fallback]).

(** A market-specific entry answers the call: the symbol is not empty, its
    market has an entry, and the entry names at least one provider. *)
Definition market_entry_applies (config : Config) (symbol : option string) : Prop :=
  exists s market_config,
    symbol = Some s /\ s <> EmptyString
    /\ market_vendors config !! MarketIdentifier.identify_market s = Some market_config
    /\ (default EmptyString (market_config !! "primary") <> EmptyString
        \/ default EmptyString (market_config !! "fallback") <> EmptyString).

(** The US market has an entry that names no provider. *)
Definition config_empty_us_entry : Config :=
  {| data_vendors := {[ "core_stock_apis" := "akshare" ]};
     tool_vendors := {[ "get_stock_data" := "yfinance" ]};
     market_vendors := {[ "US_STOCK" := {[ "primary" := ""; "fallback" := "" ]} ]} |}.

(** The provider and market pairs for which [format_symbol_for_vendor] has
    a branch of its own. *)
Definition has_formatting_rule (vendor market : string) : bool :=
  let regional := py_in market ["A_STOCK"; "HK_STOCK"; "US_STOCK"] in
  (String.eqb vendor "akshare" && regional)
  || (String.eqb vendor "baostock" && String.eqb market "A_STOCK")
  || ((String.eqb vendor "yfinance" || String.eqb vendor "alpha_vantage") && regional).

(** The market [format_symbol_for_vendor] works with. *)
Definition resolved_market (symbol : string) (market : option string) : string :=
  match market with
  | None => MarketIdentifier.identify_market symbol
  | Some m => m
  end.

(** Two indicator reports over ten days: the first has two values and
    eight holidays, the second four values and six holidays. *)
Definition report_2_of_10 : string :=
  PyStr.join PyStr.newline
    [ "## rsi values from 2024-02-08 to 2024-02-17:"; "";
      "2024-02-08: 51.32"; "2024-02-09: 52.10";
      "2024-02-10: N/A: Not a trading day (weekend or holiday)";
      "2024-02-11: holiday"; "2024-02-12: holiday"; "2024-02-13: holiday";
      "2024-02-14: holiday"; "2024-02-15: holiday"; "2024-02-16: holiday";
      "2024-02-17: holiday" ].

Definition report_4_of_10 : string :=
  PyStr.join PyStr.newline
    [ "## rsi values from 2024-02-08 to 2024-02-17:"; "";
      "2024-02-08: 51.32"; "2024-02-09: 52.10";
      "2024-02-10: holiday"; "2024-02-11: holiday";
      "2024-02-12: 49.75"; "2024-02-13: 50.02";
      "2024-02-14: holiday"; "2024-02-15: holiday"; "2024-02-16: holiday";
      "2024-02-17: holiday" ].

(** akshare answers with the first report, the stockstats window with the
    second. *)
Definition akshare_on_holiday (f : Adapter) (a : CallArgs) (w : nat)
    : Outcome Value * nat :=
  match f with
  | get_akshare_indicators => (Return (VStr report_2_of_10), S w)
  | get_stock_stats_indicators_window => (Return (VStr report_4_of_10), S w)
  | _ => (Raise (mkExn OtherException "not an indicator source"), S w)
  end.


(** * Vocabulary of the further properties *)

(** [v] is what an adapter of a registered provider of the plan returned
    when called with the arguments of the call. *)
Definition returned_by_an_adapter
    {W : Type} (behaviour : Adapter -> CallArgs -> W -> Outcome Value * W)
    (impls : list (string * VendorImpl)) (a : CallArgs)
    (fallback_vendors : list string) (v : Value) : Prop :=
  exists vendor vendor_impl f w w',
    In vendor fallback_vendors
    /\ assoc vendor impls = Some vendor_impl
    /\ In f (vendor_methods_of vendor_impl)
    /\ behaviour f a w = (Return v, w').

(** Two behaviours that differ only in the exceptions the adapters raise:
    an adapter returns in one exactly when it returns in the other, with
    the same value, and leaves the same world in both. *)
Definition same_up_to_exceptions
    {W : Type} (b1 b2 : Adapter -> CallArgs -> W -> Outcome Value * W) : Prop :=
  forall f a w,
    match b1 f a w, b2 f a w with
    | (Return v1, w1), (Return v2, w2) => v1 = v2 /\ w1 = w2
    | (Raise _, w1), (Raise _, w2) => w1 = w2
    | _, _ => False
    end.

(** As [akshare_is_down], with a rate limit in place of the lost
    connection. *)
Definition akshare_is_rate_limited (f : Adapter) (a : CallArgs) (w : nat)
    : Outcome Value * nat :=
  match f with
  | get_akshare_stock_data | get_akshare_indicators | get_akshare_stock_news
  | get_akshare_global_news =>
      (Raise (mkExn AlphaVantageRateLimitError "rate limit exceeded"), S w)
  | get_YFin_data_online => (Return (VStr "Date,Open,High,Low,Close"), S w)
  | _ => (Return (VObj "<DataFrame>"), S w)
  end.

(** Two states of a run that differ in the printed lines only. *)
Definition same_effects {W : Type} (s1 s2 : @Sys W) : Prop :=
  world s1 = world s2 /\ calls s1 = calls s2.

(** The providers a market entry names: those of [primary], then those of
    [fallback]; an empty part names none. *)
Definition providers_of_entry (primary fallback : string) : list string :=
  (if PyStr.truthy primary then parse_vendors primary else [])
  ++ (if PyStr.truthy fallback then parse_vendors fallback else []).

(** Sum of two pairs of counts. *)
Definition add_counts (c1 c2 : Counts) : Counts :=
  {| valid_data_count := valid_data_count c1 + valid_data_count c2;
     date_line_count := date_line_count c1 + date_line_count c2 |}.

(** The verdict of the gate as a function of the counts, for a non-empty
    text. *)
Definition rejects (c : Counts) : bool :=
  Nat.eqb (date_line_count c) 0
  || Nat.ltb (10 * valid_data_count c) (3 * date_line_count c).

Definition no_counts : Counts := {| valid_data_count := 0; date_line_count := 0 |}.

(** The parts of a line that [_is_indicator_result_invalid] looks at. *)
Definition line_head (line : string) : string :=
  PyStr.strip (hd EmptyString (PyStr.split ":" (PyStr.strip line))).

Definition line_value (line : string) : string :=
  PyStr.strip (PyStr.join ":" (tl (PyStr.split ":" (PyStr.strip line)))).

Definition is_date_line (line : string) : bool :=
  PyStr.contains ":" (PyStr.strip line)
  && Nat.eqb (String.length (line_head line)) 10
  && Datetime.strptime_ymd (line_head line).

Definition has_no_data_keyword (value : string) : bool :=
  existsb (fun keyword => PyStr.contains keyword (PyStr.lower value)) NO_DATA_KEYWORDS.

(** Every character of [s] lies between [lo] and [hi]. *)
Fixpoint all_in (lo hi : ascii) (s : string) : bool :=
  match s with
  | EmptyString => true
  | String a s' => PyStr.in_range lo hi a && all_in lo hi s'
  end.

Definition all_digits : string -> bool := all_in "0" "9".
Definition all_capitals : string -> bool := all_in "A" "Z".

(** The symbol as the market identifier reads it. *)
Definition normalised (symbol : string) : string := PyStr.strip (PyStr.upper symbol).

(** The leading digits of the A-share codes, by exchange. *)
Definition SHENZHEN_PREFIXES : list string := ["000"; "002"; "003"; "30"].
Definition SHANGHAI_PREFIXES : list string := ["60"; "68"].
Definition OTHER_A_PREFIXES : list string := ["8"; "4"].

(** Every character of [s] satisfies [P]. *)
Fixpoint forall_chars (P : ascii -> bool) (s : string) : bool :=
  match s with
  | EmptyString => true
  | String a s' => P a && forall_chars P s'
  end.

(** [str.isascii]: the text is made of the 128 ASCII characters.  On such
    text [str.upper], [str.lower], [str.strip] and the class [\d] of the
    source are what [PyStr] and the patterns of [Re] compute; beyond it the
    source also knows the letters, digits and blanks of the other
    scripts. *)
Definition isascii (s : string) : bool :=
  forall_chars (fun a => (N_of_ascii a <? 128)%N) s.

Definition capital_or_dot (a : ascii) : bool :=
  PyStr.in_range "A" "Z" a || Ascii.eqb a ".".

(** The characters a string accepted by [strptime(.., '%Y-%m-%d')] is made
    of. *)
Definition date_char (a : ascii) : bool :=
  PyStr.in_range "0" "9" a || Ascii.eqb a "-" || Ascii.eqb a " ".
(** * Properties *)

(** ** The market identifier on examples *)

Example identify_examples :
  map MarketIdentifier.identify_market
      ["600000"; "0700.HK"; "0700"; "aapl"; " brk.b "; "106.TTE"; "2024-01-01"; ""; "000001"]
  = ["A_STOCK"; "HK_STOCK"; "HK_STOCK"; "US_STOCK"; "US_STOCK"; "US_STOCK"; "UNKNOWN"; "UNKNOWN"; "A_STOCK"].
Proof. vm_compute. reflexivity. Qed.

Example format_examples :
  [ MarketIdentifier.format_symbol_for_vendor "700.hk" "akshare" (Some "HK_STOCK");
    MarketIdentifier.format_symbol_for_vendor "0700" "yfinance" None;
    MarketIdentifier.format_symbol_for_vendor "600000" "baostock" None;
    MarketIdentifier.format_symbol_for_vendor "000001" "alpha_vantage" None;
    MarketIdentifier.format_symbol_for_vendor " aapl" "google" None ]
  = ["00700"; "0700.HK"; "sh.600000"; "000001.SZ"; "AAPL"].
Proof. vm_compute. reflexivity. Qed.


(** ** Lists of strings and dictionaries in insertion order *)

Lemma py_in_In (x : string) (xs : list string) : py_in x xs = true <-> In x xs.
Proof.
  unfold py_in. rewrite existsb_exists. split.
  - intros (y & Hy & Heq). apply String.eqb_eq in Heq. now subst.
  - intros H. exists x. split; [assumption | apply String.eqb_refl].
Qed.

Lemma py_in_false (x : string) (xs : list string) : py_in x xs = false <-> ~ In x xs.
Proof.
  rewrite <- py_in_In. destruct (py_in x xs); split; congruence.
Qed.

Lemma py_in_app (x : string) (xs ys : list string) :
  py_in x (xs ++ ys) = py_in x xs || py_in x ys.
Proof. unfold py_in. apply existsb_app. Qed.

Lemma assoc_In {A : Type} (key : string) (d : list (string * A)) (v : A) :
  assoc key d = Some v -> In (key, v) d.
Proof.
  induction d as [| [k x] d IH]; simpl; [discriminate |].
  destruct (String.eqb key k) eqn:E.
  - apply String.eqb_eq in E. intros [= ->]. subst. now left.
  - intros H. right. now apply IH.
Qed.

Lemma assoc_None {A : Type} (key : string) (d : list (string * A)) :
  assoc key d = None <-> ~ In key (keys d).
Proof.
  induction d as [| [k x] d IH]; simpl.
  - tauto.
  - destruct (String.eqb key k) eqn:E.
    + apply String.eqb_eq in E. subst. split; [discriminate | tauto].
    + apply String.eqb_neq in E. rewrite IH. split; [intros H [? | ?] | ]; try tauto.
      congruence.
Qed.

(** ** The fallback plan *)

Lemma append_missing_filter (all_available_vendors fallback_vendors : list string) :
  List.NoDup all_available_vendors ->
  append_missing fallback_vendors all_available_vendors
  = fallback_vendors
    ++ List.filter (fun vendor => negb (py_in vendor fallback_vendors))
         all_available_vendors.
Proof.
  revert fallback_vendors.
  induction all_available_vendors as [| vendor rest IH]; intros fb Hnd; simpl.
  - now rewrite app_nil_r.
  - inversion Hnd as [| ? ? Hnotin Hnd']; subst.
    destruct (py_in vendor fb) eqn:E; simpl.
    + now apply IH.
    + rewrite IH by assumption. rewrite <- app_assoc. simpl. do 2 f_equal.
      apply List.filter_ext_in. intros x Hx. rewrite py_in_app. simpl.
      destruct (String.eqb x vendor) eqn:Ex.
      * apply String.eqb_eq in Ex. subst. contradiction.
      * now rewrite !orb_false_r.
Qed.

Lemma nodupb_NoDup (xs : list string) : nodupb xs = true -> List.NoDup xs.
Proof.
  induction xs as [| x xs IH]; simpl; intros H; constructor.
  - apply andb_prop in H as [H _]. apply negb_true_iff in H. now apply py_in_false.
  - apply andb_prop in H as [_ H]. now apply IH.
Qed.

Lemma VENDOR_METHODS_keys_NoDup (method : string) (impls : list (string * VendorImpl)) :
  assoc method VENDOR_METHODS = Some impls -> List.NoDup (keys impls).
Proof.
  intros H. apply assoc_In in H.
  assert (Hall : forallb (fun entry => nodupb (keys (snd entry))) VENDOR_METHODS = true)
    by (vm_compute; reflexivity).
  rewrite forallb_forall in Hall. apply nodupb_NoDup. exact (Hall _ H).
Qed.

Lemma is_market_scoped_iff (config : Config) (symbol : option string) :
  is_market_scoped config symbol = true
  <-> exists s, symbol = Some s /\ s <> EmptyString
                /\ is_Some (market_vendors config !! MarketIdentifier.identify_market s).
Proof.
  unfold is_market_scoped. destruct symbol as [s |].
  - rewrite andb_true_iff, bool_decide_eq_true. simpl. split.
    + intros [Ht Hs]. exists s. repeat split; [| assumption].
      intros ->. discriminate.
    + intros (s' & [= <-] & Hne & Hs). split; [| assumption].
      destruct s; [contradiction | reflexivity].
  - split; [discriminate | intros (s & [=] & _)].
Qed.

Lemma market_layer_scoped (config : Config) (symbol : option string) (vendors : string) :
  market_layer config symbol = Some vendors -> is_market_scoped config symbol = true.
Proof.
  unfold market_layer, is_market_scoped. destruct symbol as [s |]; [| discriminate].
  destruct (PyStr.truthy s); [| discriminate]. simpl.
  destruct (market_vendors config !! _) as [mc |]; [| discriminate].
  intros _. apply bool_decide_eq_true. eauto.
Qed.

Lemma market_layer_unscoped (config : Config) (symbol : option string) :
  is_market_scoped config symbol = false -> market_layer config symbol = None.
Proof.
  intros H. destruct (market_layer config symbol) eqn:E; [| reflexivity].
  apply market_layer_scoped in E. congruence.
Qed.

(** The list the executor iterates over, as [route_to_vendor] builds it.
    On a registered method it is the list of configured providers in their
    order; the providers the catalog registers for the method and that are
    not among them follow, in catalog order, exactly when the test of
    [interface.py:304] fails, and nothing follows when it holds.  The test
    holds when the call has a non-empty symbol whose market has an entry in
    [market_vendors]: it looks at the presence of the entry, not at the
    layer [get_vendor] answered from.  When it fails, the configured
    providers are those of the tool or category level. *)
Theorem fallback_plan_as_built
    (config : Config) (method category : string)
    (impls : list (string * VendorImpl)) (a : CallArgs) :
  get_category_for_method method = Return category ->
  assoc method VENDOR_METHODS = Some impls ->
  let symbol := extract_symbol a in
  let primary_vendors := parse_vendors (get_vendor config category method symbol) in
  build_fallback_vendors config impls symbol primary_vendors
  = (if is_market_scoped config symbol
     then primary_vendors
     else primary_vendors
          ++ List.filter (fun vendor => negb (py_in vendor primary_vendors)) (keys impls))
  /\ (is_market_scoped config symbol = true
      <-> exists s, symbol = Some s /\ s <> EmptyString
            /\ is_Some (market_vendors config !! MarketIdentifier.identify_market s))
  /\ (is_market_scoped config symbol = false ->
      get_vendor config category method symbol
      = match tool_layer config method with
        | Some vendors => vendors
        | None => default "default" (data_vendors config !! category)
        end).
Proof.
  intros _ Himpls symbol primary_vendors. split; [| split].
  - unfold build_fallback_vendors. destruct (is_market_scoped config symbol); [reflexivity |].
    apply append_missing_filter. eapply VENDOR_METHODS_keys_NoDup; eassumption.
  - apply is_market_scoped_iff.
  - intros H. unfold get_vendor. now rewrite (market_layer_unscoped _ _ H).
Qed.


(** ** The executor: what a run invokes *)

Section Loop.

Context {W : Type}.
Variable behaviour : Adapter -> CallArgs -> W -> Outcome Value * W.

Lemma calls_print (line : LogLine) (s : @Sys W) : calls (print line s) = calls s.
Proof. reflexivity. Qed.

Lemma world_print (line : LogLine) (s : @Sys W) : world (print line s) = world s.
Proof. reflexivity. Qed.

Lemma calls_handle_exception (vendor : string) (f : Adapter) (e : Exn) (s : @Sys W) :
  calls (handle_exception vendor f e s) = calls s.
Proof.
  unfold handle_exception.
  destruct (exn_class e); repeat match goal with |- context [if ?b then _ else _] => destruct b end;
    reflexivity.
Qed.

Lemma world_handle_exception (vendor : string) (f : Adapter) (e : Exn) (s : @Sys W) :
  world (handle_exception vendor f e s) = world s.
Proof.
  unfold handle_exception.
  destruct (exn_class e); repeat match goal with |- context [if ?b then _ else _] => destruct b end;
    reflexivity.
Qed.

Lemma invoke_calls (vendor : string) (f : Adapter) (a : CallArgs) (s s1 : Sys)
    (o : Outcome Value) :
  invoke behaviour vendor f a s = (o, s1) ->
  calls s1 = calls s ++ [(vendor, f)] /\ behaviour f a (world s) = (o, world s1).
Proof.
  unfold invoke. destruct (behaviour f a (world s)) as [o' w]. intros [= <- <-].
  split; reflexivity.
Qed.

(** Every adapter of the provider is invoked, whatever the others did. *)
Lemma run_vendor_methods_calls
    (vendor : string) (fs : list Adapter) (a : CallArgs)
    (vendor_results vendor_results' : list Value) (s s' : Sys) :
  run_vendor_methods behaviour vendor fs a vendor_results s = (vendor_results', s') ->
  calls s' = calls s ++ map (pair vendor) fs.
Proof.
  revert vendor_results s.
  induction fs as [| f fs IH]; simpl; intros vr s H.
  - injection H as _ <-. now rewrite app_nil_r.
  - destruct (invoke behaviour vendor f a s) as [o s1] eqn:E.
    apply invoke_calls in E as [E _].
    destruct o as [result | e]; apply IH in H; rewrite H.
    + rewrite calls_print, E, <- app_assoc. reflexivity.
    + rewrite calls_handle_exception, E, <- app_assoc. reflexivity.
Qed.

Lemma run_vendor_methods_single_return
    (vendor : string) (f : Adapter) (a : CallArgs) (s : Sys) (v : Value) (w : W) :
  behaviour f a (world s) = (Return v, w) ->
  run_vendor_methods behaviour vendor [f] a [] s
  = ([v], print (SUCCESS_completed f vendor)
            {| world := w; stdout := stdout s; calls := calls s ++ [(vendor, f)] |}).
Proof. intros H. simpl. unfold invoke. rewrite H. reflexivity. Qed.

Lemma run_vendor_methods_single_raise
    (vendor : string) (f : Adapter) (a : CallArgs) (s : Sys) (e : Exn) (w : W) :
  behaviour f a (world s) = (Raise e, w) ->
  run_vendor_methods behaviour vendor [f] a [] s
  = ([], handle_exception vendor f e
           {| world := w; stdout := stdout s; calls := calls s ++ [(vendor, f)] |}).
Proof. intros H. simpl. unfold invoke. rewrite H. reflexivity. Qed.

(** The shape of every run of the loop: the providers attempted are the
    registered providers of the plan, in plan order, up to the point where
    the loop ends; each attempt invokes the adapters of its provider. *)
Lemma vendor_loop_trace
    (method : string) (impls : list (string * VendorImpl))
    (primary_vendors : list string) (a : CallArgs)
    (fallback_vendors : list string) (l l' : Locals) (s s' : Sys) :
  vendor_loop behaviour method impls primary_vendors a fallback_vendors l s = (l', s') ->
  exists attempted rest,
    List.filter (registered impls) fallback_vendors = attempted ++ rest
    /\ calls s' = calls s ++ flat_map (calls_of impls) attempted
    /\ vendor_attempt_count l' = vendor_attempt_count l + length attempted
    /\ (attempted = [] -> rest = []).
Proof.
  revert l s.
  induction fallback_vendors as [| vendor plan IH]; simpl; intros l s H.
  - injection H as <- <-. exists [], []. simpl. rewrite app_nil_r. auto.
  - unfold registered at 1. unfold calls_of.
    destruct (assoc vendor impls) as [vendor_impl |] eqn:Ea.
    + destruct (run_vendor_methods behaviour vendor (vendor_methods_of vendor_impl) a [] s)
        as [vr s1] eqn:Er.
      apply run_vendor_methods_calls in Er.
      assert (Hcont : forall l1 s2, calls s2 = calls s1 ->
                vendor_attempt_count l1 = S (vendor_attempt_count l) ->
                vendor_loop behaviour method impls primary_vendors a plan l1 s2 = (l', s') ->
                exists attempted rest,
                  vendor :: List.filter (registered impls) plan = attempted ++ rest
                  /\ calls s' = calls s
                       ++ flat_map (fun v => match assoc v impls with
                                             | Some vi => map (pair v) (vendor_methods_of vi)
                                             | None => []
                                             end) attempted
                  /\ vendor_attempt_count l' = vendor_attempt_count l + length attempted
                  /\ (attempted = [] -> rest = [])).
      { intros l1 s2 Hc Hn Hl. apply IH in Hl as (att & rest & Hf & Hcalls & Hcount & _).
        exists (vendor :: att), rest. simpl. rewrite Ea, Hf. split; [reflexivity |].
        split; [| split; [| discriminate]].
        - rewrite Hcalls, Hc, Er, <- app_assoc. reflexivity.
        - rewrite Hcount, Hn. lia. }
      destruct vr as [| r vr].
      * eapply Hcont; [| | exact H]; reflexivity.
      * destruct (should_fallback_due_to_invalid_data method (r :: vr)).
        -- eapply Hcont; [| | exact H]; reflexivity.
        -- destruct (stop_after_first_success method primary_vendors).
           ++ injection H as <- <-. exists [vendor], (List.filter (registered impls) plan).
              simpl. rewrite Ea, app_nil_r, Er. split; [reflexivity |].
              split; [reflexivity |]. split; [lia | discriminate].
           ++ eapply Hcont; [| | exact H]; reflexivity.
    + apply IH in H as (att & rest & Hf & Hcalls & Hcount & Hnil).
      exists att, rest. split; [assumption |]. split; [| split; assumption].
      rewrite Hcalls. unfold calls_of. destruct (py_in vendor primary_vendors); reflexivity.
Qed.

(** With [stop_after_first_success] the loop ends at the first provider
    it accepts: either no provider of the plan is accepted and every
    registered one was attempted, or the plan splits around the accepted
    provider and nothing after it is invoked. *)
Lemma vendor_loop_stop
    (method : string) (impls : list (string * VendorImpl))
    (primary_vendors : list string) (a : CallArgs)
    (fallback_vendors : list string) (l l' : Locals) (s s' : Sys) :
  stop_after_first_success method primary_vendors = true ->
  vendor_loop behaviour method impls primary_vendors a fallback_vendors l s = (l', s') ->
  (results l' = results l
   /\ successful_vendor l' = successful_vendor l
   /\ calls s' = calls s
        ++ flat_map (calls_of impls) (List.filter (registered impls) fallback_vendors))
  \/ (exists before accepted after vendor_results,
        fallback_vendors = before ++ accepted :: after
        /\ registered impls accepted = true
        /\ successful_vendor l' = Some accepted
        /\ results l' = results l ++ vendor_results
        /\ vendor_results <> []
        /\ calls s' = calls s
             ++ flat_map (calls_of impls) (List.filter (registered impls) before)
             ++ calls_of impls accepted).
Proof.
  intros Hstop. revert l s.
  induction fallback_vendors as [| vendor plan IH]; simpl; intros l s H.
  - injection H as <- <-. left. simpl. rewrite app_nil_r. auto.
  - unfold registered at 1.
    destruct (assoc vendor impls) as [vendor_impl |] eqn:Ea.
    + destruct (run_vendor_methods behaviour vendor (vendor_methods_of vendor_impl) a [] s)
        as [vr s1] eqn:Er.
      apply run_vendor_methods_calls in Er.
      assert (Hcalls_of : calls_of impls vendor = map (pair vendor) (vendor_methods_of vendor_impl))
        by (unfold calls_of; now rewrite Ea).
      assert (Hcont : forall l1 s2, calls s2 = calls s1 ->
                results l1 = results l -> successful_vendor l1 = successful_vendor l ->
                vendor_loop behaviour method impls primary_vendors a plan l1 s2 = (l', s') ->
                (results l' = results l
                 /\ successful_vendor l' = successful_vendor l
                 /\ calls s' = calls s
                      ++ flat_map (calls_of impls) (vendor :: List.filter (registered impls) plan))
                \/ (exists before accepted after vendor_results,
                      vendor :: plan = before ++ accepted :: after
                      /\ registered impls accepted = true
                      /\ successful_vendor l' = Some accepted
                      /\ results l' = results l ++ vendor_results
                      /\ vendor_results <> []
                      /\ calls s' = calls s
                           ++ flat_map (calls_of impls) (List.filter (registered impls) before)
                           ++ calls_of impls accepted)).
      { intros l1 s2 Hc Hr Hsv Hl.
        apply IH in Hl as [(Hres & Hsucc & Hcalls) | (bef & acc & aft & vs & Hp & Hreg & Hsucc & Hres & Hne & Hcalls)].
        - left. split; [congruence |]. split; [congruence |].
          simpl. rewrite Hcalls, Hc, Er, Hcalls_of, <- app_assoc. reflexivity.
        - right. exists (vendor :: bef), acc, aft, vs. subst plan.
          split; [reflexivity |]. split; [assumption |]. split; [assumption |].
          split; [congruence |]. split; [assumption |].
          simpl. unfold registered at 1. rewrite Ea. simpl.
          rewrite Hcalls, Hc, Er, Hcalls_of, <- !app_assoc. reflexivity. }
      destruct vr as [| r vr].
      * eapply Hcont; [| | | exact H]; reflexivity.
      * destruct (should_fallback_due_to_invalid_data method (r :: vr)).
        -- eapply Hcont; [| | | exact H]; reflexivity.
        -- rewrite Hstop in H. injection H as <- <-. right.
           exists [], vendor, plan, (r :: vr). simpl.
           split; [reflexivity |]. split; [unfold registered; now rewrite Ea |].
           split; [reflexivity |]. split; [reflexivity |]. split; [discriminate |].
           now rewrite Er, Hcalls_of.
    + assert (Hs : forall s2 : @Sys W, calls s2 = calls s ->
                vendor_loop behaviour method impls primary_vendors a plan l s2 = (l', s') ->
                (results l' = results l
                 /\ successful_vendor l' = successful_vendor l
                 /\ calls s' = calls s
                      ++ flat_map (calls_of impls) (List.filter (registered impls) plan))
                \/ (exists before accepted after vendor_results,
                      vendor :: plan = before ++ accepted :: after
                      /\ registered impls accepted = true
                      /\ successful_vendor l' = Some accepted
                      /\ results l' = results l ++ vendor_results
                      /\ vendor_results <> []
                      /\ calls s' = calls s
                           ++ flat_map (calls_of impls) (List.filter (registered impls) before)
                           ++ calls_of impls accepted)).
      { intros s2 Hc Hl.
        apply IH in Hl as [(Hres & Hsucc & Hcalls) | (bef & acc & aft & vs & Hp & Hreg & Hsucc & Hres & Hne & Hcalls)].
        - left. rewrite Hcalls, Hc. auto.
        - right. exists (vendor :: bef), acc, aft, vs. subst plan.
          split; [reflexivity |]. split; [assumption |]. split; [assumption |].
          split; [assumption |]. split; [assumption |].
          simpl. unfold registered at 1. rewrite Ea. rewrite Hcalls, Hc. reflexivity. }
      eapply Hs; [| exact H]. destruct (py_in vendor primary_vendors); reflexivity.
Qed.

(** The invocations of a run, exactly: the loop walks an initial segment
    of the plan and invokes the adapters of the registered providers of
    that segment, in plan order, and nothing else.  The segment is the
    whole plan unless the loop ends, under [stop_after_first_success], at
    a provider it accepted: then that provider is the last of the
    segment. *)
Lemma vendor_loop_segment
    (method : string) (impls : list (string * VendorImpl))
    (primary_vendors : list string) (a : CallArgs)
    (fallback_vendors : list string) (l l' : Locals) (s s' : Sys) :
  vendor_loop behaviour method impls primary_vendors a fallback_vendors l s = (l', s') ->
  exists walked left_out,
    fallback_vendors = walked ++ left_out
    /\ calls s' = calls s ++ flat_map (calls_of impls) (List.filter (registered impls) walked)
    /\ (left_out = []
        \/ (stop_after_first_success method primary_vendors = true
            /\ exists front accepted,
                 walked = front ++ [accepted]
                 /\ registered impls accepted = true
                 /\ successful_vendor l' = Some accepted)).
Proof.
  revert l s.
  induction fallback_vendors as [| vendor plan IH]; simpl; intros l s H.
  - injection H as <- <-. exists [], []. simpl. rewrite app_nil_r. auto.
  - destruct (assoc vendor impls) as [vendor_impl |] eqn:Ea.
    + assert (Hreg : registered impls vendor = true) by (unfold registered; now rewrite Ea).
      assert (Hcalls_of : calls_of impls vendor = map (pair vendor) (vendor_methods_of vendor_impl))
        by (unfold calls_of; now rewrite Ea).
      destruct (run_vendor_methods behaviour vendor (vendor_methods_of vendor_impl) a [] s)
        as [vr s1] eqn:Er.
      apply run_vendor_methods_calls in Er.
      assert (Hcont : forall l1 s2, calls s2 = calls s1 ->
                vendor_loop behaviour method impls primary_vendors a plan l1 s2 = (l', s') ->
                exists walked left_out,
                  vendor :: plan = walked ++ left_out
                  /\ calls s' = calls s
                       ++ flat_map (calls_of impls) (List.filter (registered impls) walked)
                  /\ (left_out = []
                      \/ (stop_after_first_success method primary_vendors = true
                          /\ exists front accepted,
                               walked = front ++ [accepted]
                               /\ registered impls accepted = true
                               /\ successful_vendor l' = Some accepted))).
      { intros l1 s2 Hc Hl. apply IH in Hl as (walked & left_out & Hp & Hcalls & Hend).
        exists (vendor :: walked), left_out. split; [simpl; now rewrite Hp |].
        split.
        - simpl. rewrite Hreg. simpl.
          rewrite Hcalls, Hc, Er, Hcalls_of, <- app_assoc. reflexivity.
        - destruct Hend as [-> | (Hstop & front & accepted & -> & Hacc & Hsucc)]; [now left |].
          right. split; [assumption |]. exists (vendor :: front), accepted. auto. }
      destruct vr as [| r vr].
      * eapply Hcont; [| exact H]; reflexivity.
      * destruct (should_fallback_due_to_invalid_data method (r :: vr)).
        -- eapply Hcont; [| exact H]; reflexivity.
        -- destruct (stop_after_first_success method primary_vendors) eqn:Hstop.
           ++ injection H as <- <-. exists [vendor], plan. split; [reflexivity |].
              split.
              ** simpl. rewrite Hreg. simpl. rewrite app_nil_r, Er, Hcalls_of. reflexivity.
              ** right. split; [reflexivity |]. exists [], vendor. auto.
           ++ eapply Hcont; [| exact H]; reflexivity.
    + assert (Hreg : registered impls vendor = false) by (unfold registered; now rewrite Ea).
      apply IH in H as (walked & left_out & Hp & Hcalls & Hend).
      exists (vendor :: walked), left_out. split; [simpl; now rewrite Hp |].
      split.
      * simpl. rewrite Hreg. rewrite Hcalls.
        destruct (py_in vendor primary_vendors); reflexivity.
      * destruct Hend as [-> | (Hstop & front & accepted & -> & Hacc & Hsucc)]; [now left |].
        right. split; [assumption |]. exists (vendor :: front), accepted. auto.
Qed.

(** A registered provider of the plan has its adapters invoked, all of
    them and next to each other, unless the loop has ended, under
    [stop_after_first_success], at a provider it accepted earlier in the
    plan.  Nothing else keeps a registered provider from being attempted. *)
Lemma vendor_loop_reaches
    (method : string) (impls : list (string * VendorImpl))
    (primary_vendors : list string) (a : CallArgs)
    (before : list string) (vendor : string) (after : list string)
    (l l' : Locals) (s s' : Sys) :
  registered impls vendor = true ->
  vendor_loop behaviour method impls primary_vendors a (before ++ vendor :: after) l s
  = (l', s') ->
  (exists earlier later, calls s' = calls s ++ earlier ++ calls_of impls vendor ++ later)
  \/ (stop_after_first_success method primary_vendors = true
      /\ exists accepted,
           In accepted before
           /\ registered impls accepted = true
           /\ successful_vendor l' = Some accepted).
Proof.
  intros Hreg. revert l s.
  induction before as [| b before IH]; simpl; intros l s H.
  - left. exists []. simpl. unfold registered in Hreg. unfold calls_of.
    destruct (assoc vendor impls) as [vendor_impl |] eqn:Ea; [| discriminate].
    destruct (run_vendor_methods behaviour vendor (vendor_methods_of vendor_impl) a [] s)
      as [vr s1] eqn:Er.
    apply run_vendor_methods_calls in Er.
    assert (Hcont : forall l1 s2, calls s2 = calls s1 ->
              vendor_loop behaviour method impls primary_vendors a after l1 s2 = (l', s') ->
              exists later,
                calls s' = calls s ++ map (pair vendor) (vendor_methods_of vendor_impl) ++ later).
    { intros l1 s2 Hc Hl. apply vendor_loop_trace in Hl as (att & _ & _ & Hcalls & _).
      exists (flat_map (calls_of impls) att). rewrite Hcalls, Hc, Er, <- app_assoc.
      reflexivity. }
    destruct vr as [| r vr].
    + eapply Hcont; [| exact H]; reflexivity.
    + destruct (should_fallback_due_to_invalid_data method (r :: vr)).
      * eapply Hcont; [| exact H]; reflexivity.
      * destruct (stop_after_first_success method primary_vendors).
        -- injection H as <- <-. exists []. rewrite app_nil_r. exact Er.
        -- eapply Hcont; [| exact H]; reflexivity.
  - destruct (assoc b impls) as [b_impl |] eqn:Eb.
    + destruct (run_vendor_methods behaviour b (vendor_methods_of b_impl) a [] s)
        as [vr s1] eqn:Er.
      apply run_vendor_methods_calls in Er.
      assert (Hcont : forall l1 s2, calls s2 = calls s1 ->
                vendor_loop behaviour method impls primary_vendors a
                  (before ++ vendor :: after) l1 s2 = (l', s') ->
                (exists earlier later,
                    calls s' = calls s ++ earlier ++ calls_of impls vendor ++ later)
                \/ (stop_after_first_success method primary_vendors = true
                    /\ exists accepted,
                         (b = accepted \/ In accepted before)
                         /\ registered impls accepted = true
                         /\ successful_vendor l' = Some accepted)).
      { intros l1 s2 Hc Hl.
        apply IH in Hl as [(earlier & later & Hcalls) | (Hstop & accepted & Hin & Hacc & Hsucc)].
        - left. exists (map (pair b) (vendor_methods_of b_impl) ++ earlier), later.
          rewrite Hcalls, Hc, Er, <- !app_assoc. reflexivity.
        - right. split; [assumption |]. exists accepted. auto. }
      destruct vr as [| r vr].
      * eapply Hcont; [| exact H]; reflexivity.
      * destruct (should_fallback_due_to_invalid_data method (r :: vr)).
        -- eapply Hcont; [| exact H]; reflexivity.
        -- destruct (stop_after_first_success method primary_vendors) eqn:Hstop.
           ++ injection H as <- <-. right. split; [reflexivity |]. exists b.
              split; [now left |]. split; [unfold registered; now rewrite Eb | reflexivity].
           ++ eapply Hcont; [| exact H]; reflexivity.
    + apply IH in H as [(earlier & later & Hcalls) | (Hstop & accepted & Hin & Hacc & Hsucc)].
      * left. exists earlier, later. rewrite Hcalls.
        destruct (py_in b primary_vendors); reflexivity.
      * right. split; [assumption |]. exists accepted. auto.
Qed.

(** What the loop has accepted is what it has recorded a successful
    provider for. *)
Lemma vendor_loop_accepted
    (method : string) (impls : list (string * VendorImpl))
    (primary_vendors : list string) (a : CallArgs)
    (fallback_vendors : list string) (l l' : Locals) (s s' : Sys) :
  (results l = [] <-> successful_vendor l = None) ->
  vendor_loop behaviour method impls primary_vendors a fallback_vendors l s = (l', s') ->
  (results l' = [] <-> successful_vendor l' = None).
Proof.
  revert l s.
  induction fallback_vendors as [| vendor plan IH]; simpl; intros l s Hinv H.
  - now injection H as <- <-.
  - destruct (assoc vendor impls) as [vendor_impl |].
    + destruct (run_vendor_methods behaviour vendor (vendor_methods_of vendor_impl) a [] s)
        as [vr s1].
      destruct vr as [| r vr]; [eapply IH; [| exact H]; exact Hinv |].
      destruct (should_fallback_due_to_invalid_data method (r :: vr));
        [eapply IH; [| exact H]; exact Hinv |].
      assert (Hacc : forall rs : list Value, rs ++ r :: vr = [] <-> Some vendor = None).
      { intros rs. split; [| discriminate]. destruct rs; discriminate. }
      destruct (stop_after_first_success method primary_vendors).
      * injection H as <- <-. apply Hacc.
      * eapply IH; [| exact H]. apply Hacc.
    + eapply IH; [| exact H]. exact Hinv.
Qed.

(** One turn of the loop on a registered provider with a single adapter. *)
Lemma vendor_loop_single_raise
    (method : string) (impls : list (string * VendorImpl))
    (primary_vendors : list string) (a : CallArgs)
    (vendor : string) (rest : list string) (f : Adapter) (e : Exn) (w : W)
    (l : Locals) (s : Sys) :
  assoc vendor impls = Some (Single f) ->
  behaviour f a (world s) = (Raise e, w) ->
  vendor_loop behaviour method impls primary_vendors a (vendor :: rest) l s
  = vendor_loop behaviour method impls primary_vendors a rest
      {| results := results l;
         vendor_attempt_count := S (vendor_attempt_count l);
         any_primary_vendor_attempted :=
           if py_in vendor primary_vendors then true else any_primary_vendor_attempted l;
         successful_vendor := successful_vendor l |}
      (print (FAILED_no_results vendor)
         (handle_exception vendor f e
            {| world := w; stdout := stdout s; calls := calls s ++ [(vendor, f)] |})).
Proof.
  intros Ha Hb. cbn [vendor_loop]. rewrite Ha. cbn [vendor_methods_of].
  rewrite (run_vendor_methods_single_raise _ _ _ _ _ _ Hb). reflexivity.
Qed.

Lemma vendor_loop_single_return
    (method : string) (impls : list (string * VendorImpl))
    (primary_vendors : list string) (a : CallArgs)
    (vendor : string) (rest : list string) (f : Adapter) (v : Value) (w : W)
    (l : Locals) (s : Sys) :
  assoc vendor impls = Some (Single f) ->
  behaviour f a (world s) = (Return v, w) ->
  should_fallback_due_to_invalid_data method [v] = false ->
  let l2 :=
    {| results := results l ++ [v];
       vendor_attempt_count := S (vendor_attempt_count l);
       any_primary_vendor_attempted :=
         if py_in vendor primary_vendors then true else any_primary_vendor_attempted l;
       successful_vendor := Some vendor |} in
  let s2 :=
    print (SUCCESS_vendor vendor 1)
      (print (SUCCESS_completed f vendor)
         {| world := w; stdout := stdout s; calls := calls s ++ [(vendor, f)] |}) in
  vendor_loop behaviour method impls primary_vendors a (vendor :: rest) l s
  = if stop_after_first_success method primary_vendors
    then (l2, s2)
    else vendor_loop behaviour method impls primary_vendors a rest l2 s2.
Proof.
  intros Ha Hb Hgate. cbn [vendor_loop]. rewrite Ha. cbn [vendor_methods_of].
  rewrite (run_vendor_methods_single_return _ _ _ _ _ _ Hb). rewrite Hgate. reflexivity.
Qed.

(** A result the quality gate rejects is dropped and the loop goes on
    with the next provider. *)
Lemma vendor_loop_rejected
    (method : string) (impls : list (string * VendorImpl))
    (primary_vendors : list string) (a : CallArgs)
    (vendor : string) (rest : list string) (vendor_impl : VendorImpl)
    (vendor_results : list Value) (l : Locals) (s s1 : Sys) :
  assoc vendor impls = Some vendor_impl ->
  run_vendor_methods behaviour vendor (vendor_methods_of vendor_impl) a [] s
  = (vendor_results, s1) ->
  should_fallback_due_to_invalid_data method vendor_results = true ->
  vendor_loop behaviour method impls primary_vendors a (vendor :: rest) l s
  = vendor_loop behaviour method impls primary_vendors a rest
      {| results := results l;
         vendor_attempt_count := S (vendor_attempt_count l);
         any_primary_vendor_attempted :=
           if py_in vendor primary_vendors then true else any_primary_vendor_attempted l;
         successful_vendor := successful_vendor l |}
      (print (FALLBACK_skipping vendor)
         (print INFO_better_quality (print (DATA_QUALITY_invalid vendor) s1))).
Proof.
  intros Ha Hr Hgate. cbn [vendor_loop]. rewrite Ha, Hr, Hgate.
  destruct vendor_results; [discriminate | reflexivity].
Qed.

End Loop.

(** ** The outcome of a call *)

Lemma prefix_app (s t : string) : String.prefix s (s +:+ t) = true.
Proof.
  induction s as [| c s IH]; simpl.
  - destruct t; reflexivity.
  - destruct (ascii_dec c c); [assumption | contradiction].
Qed.

Lemma contains_prefix (needle hay : string) :
  String.prefix needle hay = true -> PyStr.contains needle hay = true.
Proof. intros H. destruct hay; cbn [PyStr.contains]; rewrite H; reflexivity. Qed.

Lemma contains_app (needle before after : string) :
  PyStr.contains needle (before +:+ needle +:+ after) = true.
Proof.
  induction before as [| c before IH].
  - apply contains_prefix. exact (prefix_app needle after).
  - change (PyStr.contains needle (String c (before +:+ needle +:+ after)) = true).
    cbn [PyStr.contains]. rewrite IH. apply orb_true_r.
Qed.

Lemma get_category_none (method : string) :
  (forall category info, In (category, info) TOOLS_CATEGORIES -> ~ In method (tools info)) ->
  find (fun entry => py_in method (tools (snd entry))) TOOLS_CATEGORIES = None.
Proof.
  intros H.
  destruct (find _ TOOLS_CATEGORIES) as [[category info] |] eqn:E; [| reflexivity].
  apply find_some in E as [Hin Hp]. simpl in Hp. apply py_in_In in Hp.
  exfalso. exact (H _ _ Hin Hp).
Qed.

Lemma registered_method_has_category
    (method : string) (impls : list (string * VendorImpl)) :
  assoc method VENDOR_METHODS = Some impls ->
  exists category, get_category_for_method method = Return category.
Proof.
  intros H. apply assoc_In in H. simpl in H.
  repeat (destruct H as [[= <- <-] | H]; [eexists; vm_compute; reflexivity |]).
  contradiction.
Qed.

(** C10.  A method that no category of [TOOLS_CATEGORIES] lists makes
    [route_to_vendor] raise [ValueError] at once: no adapter is invoked,
    nothing is printed and the world is as it was.  The caller can
    therefore see an exception that is not the terminal failure of the
    fallback. *)
Theorem C10_unknown_method_raises_ValueError
    {W : Type} (behaviour : Adapter -> CallArgs -> W -> Outcome Value * W)
    (config : Config) (method : string) (a : CallArgs) (s : Sys) :
  (forall category info, In (category, info) TOOLS_CATEGORIES -> ~ In method (tools info)) ->
  route_to_vendor behaviour config method a s
  = (Raise (mkExn ValueError ("Method '" +:+ method +:+ "' not found in any category")), s)
  /\ calls (snd (route_to_vendor behaviour config method a s)) = calls s
  /\ exn_class (mkExn ValueError ("Method '" +:+ method +:+ "' not found in any category"))
     <> exn_class (mkExn RuntimeError (all_failed_message method)).
Proof.
  intros H. unfold route_to_vendor, get_category_for_method.
  rewrite (get_category_none _ H). simpl. repeat split. discriminate.
Qed.

Lemma C10_witness :
  route_to_vendor every_adapter_fails DEFAULT_CONFIG "get_prices" (call_with "AAPL") (start 0)
  = (Raise (mkExn ValueError "Method 'get_prices' not found in any category"), start 0).
Proof.
  refine (proj1 (C10_unknown_method_raises_ValueError every_adapter_fails DEFAULT_CONFIG
                   "get_prices" (call_with "AAPL") (start 0) _)).
  intros category info Hin Hm. simpl in Hin.
  repeat (destruct Hin as [[= <- <-] | Hin];
          [simpl in Hm; repeat (destruct Hm as [[=] | Hm]); contradiction |]).
  contradiction.
Defined.

(** C2.  On a registered method, whatever each adapter does (return a
    value, or raise an exception of any class and message), the call raises
    exactly when the loop accepted no value, which is when it recorded no
    successful provider; the exception it then raises is the router's own
    [RuntimeError] built from the method name, and otherwise it returns. *)
Theorem C2_raises_only_on_exhaustion
    {W : Type} (behaviour : Adapter -> CallArgs -> W -> Outcome Value * W)
    (config : Config) (method category : string)
    (impls : list (string * VendorImpl)) (a : CallArgs) (s : Sys) :
  get_category_for_method method = Return category ->
  assoc method VENDOR_METHODS = Some impls ->
  let run := execute behaviour config method category impls a s in
  let outcome := fst (route_to_vendor behaviour config method a s) in
  (results (fst run) = [] <-> successful_vendor (fst run) = None)
  /\ ((exists e, outcome = Raise e) <-> results (fst run) = [])
  /\ (forall e, outcome = Raise e -> e = mkExn RuntimeError (all_failed_message method))
  /\ (results (fst run) <> [] -> exists v, outcome = Return v).
Proof.
  intros Hc Hi run outcome. subst outcome. unfold route_to_vendor. rewrite Hc, Hi.
  fold run. destruct run as [l s1] eqn:Erun. cbn [fst].
  assert (Hacc : results l = [] <-> successful_vendor l = None).
  { unfold execute in Erun. eapply vendor_loop_accepted; [| exact Erun]. simpl. tauto. }
  split; [exact Hacc |].
  unfold final_result. destruct (results l) as [| r [| r' rs]]; cbn [fst].
  - split; [split; eauto |]. split; [| congruence].
    intros e [= <-]. reflexivity.
  - split; [split; [intros [e [=]] | discriminate] |]. split; [discriminate | eauto].
  - split; [split; [intros [e [=]] | discriminate] |]. split; [discriminate | eauto].
Qed.

(** C7, as the code has it.  When no value was accepted the call raises a
    [RuntimeError] whose message names the requested method and nothing
    else of the run; the number of provider attempts is printed in the
    [FAILURE] line that precedes the raise and is not part of the
    exception. *)
Theorem C7_failure_names_method_only
    {W : Type} (behaviour : Adapter -> CallArgs -> W -> Outcome Value * W)
    (config : Config) (method category : string)
    (impls : list (string * VendorImpl)) (a : CallArgs) (s : Sys) :
  get_category_for_method method = Return category ->
  assoc method VENDOR_METHODS = Some impls ->
  let run := execute behaviour config method category impls a s in
  results (fst run) = [] ->
  route_to_vendor behaviour config method a s
  = (Raise (mkExn RuntimeError (all_failed_message method)),
     print (FAILURE_all (vendor_attempt_count (fst run)) method) (snd run))
  /\ PyStr.contains method (all_failed_message method) = true.
Proof.
  intros Hc Hi run Hres. split.
  - unfold route_to_vendor. rewrite Hc, Hi. fold run.
    destruct run as [l s1]. cbn [fst snd] in *. unfold final_result. rewrite Hres. reflexivity.
  - apply contains_app.
Qed.

Lemma C2_witness :
  (exists e, fst (route_to_vendor every_adapter_fails DEFAULT_CONFIG "get_stock_data"
                    (call_with "AAPL") (start 0)) = Raise e)
  <-> results (fst (execute every_adapter_fails DEFAULT_CONFIG "get_stock_data"
                      "core_stock_apis" (impls_of "get_stock_data")
                      (call_with "AAPL") (start 0))) = [].
Proof.
  exact (proj1 (proj2 (C2_raises_only_on_exhaustion every_adapter_fails DEFAULT_CONFIG
                         "get_stock_data" "core_stock_apis" (impls_of "get_stock_data")
                         (call_with "AAPL") (start 0) eq_refl eq_refl))).
Defined.

Lemma C7_witness :
  route_to_vendor every_adapter_fails DEFAULT_CONFIG "get_stock_data"
    (call_with "AAPL") (start 0)
  = (Raise (mkExn RuntimeError
              "All vendor implementations failed for method 'get_stock_data'"),
     print (FAILURE_all 3 "get_stock_data")
       (snd (execute every_adapter_fails DEFAULT_CONFIG "get_stock_data"
               "core_stock_apis" (impls_of "get_stock_data")
               (call_with "AAPL") (start 0)))).
Proof.
  exact (proj1 (C7_failure_names_method_only every_adapter_fails DEFAULT_CONFIG
                  "get_stock_data" "core_stock_apis" (impls_of "get_stock_data")
                  (call_with "AAPL") (start 0) eq_refl eq_refl eq_refl)).
Defined.

(** The claim C7 as the specification words it fails: two failing calls
    for the same method raise the same exception after zero and after three
    provider attempts, so no reading of the exception gives the number of
    attempts. *)
Lemma C7_counterexample :
  ~ exists attempts_of : Exn -> nat,
      forall (config : Config) (e : Exn),
        fst (route_to_vendor every_adapter_fails config "get_stock_data"
               (call_with "AAPL") (start 0)) = Raise e ->
        attempts_of e
        = vendor_attempt_count
            (fst (execute every_adapter_fails config "get_stock_data" "core_stock_apis"
                    (impls_of "get_stock_data") (call_with "AAPL") (start 0))).
Proof.
  intros [attempts_of H].
  pose proof (H config_us_google _ eq_refl) as H0.
  pose proof (H DEFAULT_CONFIG _ eq_refl) as H3.
  vm_compute in H0, H3. congruence.
Qed.

(** ** Order of the attempts and the end of the loop *)

Lemma stop_excludes_gate (method : string) (primary_vendors : list string) (v : Value) :
  stop_after_first_success method primary_vendors = false ->
  should_fallback_due_to_invalid_data method [v] = false.
Proof.
  unfold stop_after_first_success, should_fallback_due_to_invalid_data.
  intros H. apply orb_false_elim in H as [_ H]. unfold py_in in H. simpl in H.
  destruct (String.eqb method "get_indicators"); [discriminate | reflexivity].
Qed.

(** C4.  The providers attempted are the registered providers of the plan,
    in plan order, up to the point where the loop ends.  When a single
    primary provider is configured or the method is [get_stock_data] or
    [get_indicators], the loop ends at the first provider it accepts: either
    none is accepted, or the plan splits around the accepted provider and
    no adapter of a later provider is invoked.  In particular, on a plan
    [A; B; C] of registered providers where the adapter of [A] raises an
    error classified as a network failure and the adapter of [B] returns a
    value the quality gate lets through, [B] is the successful vendor, its
    value is the only result, two attempts were made and [C] was not
    invoked. *)
Theorem C4_stops_at_first_accepted
    {W : Type} (behaviour : Adapter -> CallArgs -> W -> Outcome Value * W)
    (method : string) (impls : list (string * VendorImpl))
    (primary_vendors : list string) (a : CallArgs) :
  (forall fallback_vendors l s l' s',
      vendor_loop behaviour method impls primary_vendors a fallback_vendors l s = (l', s') ->
      exists attempted rest,
        List.filter (registered impls) fallback_vendors = attempted ++ rest
        /\ calls s' = calls s ++ flat_map (calls_of impls) attempted
        /\ vendor_attempt_count l' = vendor_attempt_count l + length attempted)
  /\ (stop_after_first_success method primary_vendors = true ->
      forall fallback_vendors l s l' s',
        vendor_loop behaviour method impls primary_vendors a fallback_vendors l s = (l', s') ->
        (results l' = results l
         /\ successful_vendor l' = successful_vendor l
         /\ calls s' = calls s
              ++ flat_map (calls_of impls) (List.filter (registered impls) fallback_vendors))
        \/ (exists before accepted after vendor_results,
              fallback_vendors = before ++ accepted :: after
              /\ registered impls accepted = true
              /\ successful_vendor l' = Some accepted
              /\ results l' = results l ++ vendor_results
              /\ vendor_results <> []
              /\ calls s' = calls s
                   ++ flat_map (calls_of impls) (List.filter (registered impls) before)
                   ++ calls_of impls accepted))
  /\ (stop_after_first_success method primary_vendors = true ->
      forall (A B C : string) (fA fB : Adapter) (e : Exn) (v : Value) (wA wB : W) (s : Sys),
        assoc A impls = Some (Single fA) ->
        assoc B impls = Some (Single fB) ->
        registered impls C = true ->
        behaviour fA a (world s) = (Raise e, wA) ->
        classify e = NetworkFailure ->
        behaviour fB a wA = (Return v, wB) ->
        should_fallback_due_to_invalid_data method [v] = false ->
        exists l' s',
          vendor_loop behaviour method impls primary_vendors a [A; B; C] initial_locals s
          = (l', s')
          /\ successful_vendor l' = Some B
          /\ results l' = [v]
          /\ vendor_attempt_count l' = 2
          /\ calls s' = calls s ++ [(A, fA); (B, fB)]
          /\ world s' = wB).
Proof.
  split; [| split].
  - intros plan l s l' s' H.
    apply vendor_loop_trace in H as (att & rest & Hf & Hc & Hn & _). eauto.
  - intros Hstop plan l s l' s' H. eapply vendor_loop_stop; eassumption.
  - intros Hstop A B C fA fB e v wA wB s HA HB _ HbA _ HbB Hgate.
    rewrite (vendor_loop_single_raise _ _ _ _ _ _ _ _ _ _ _ _ HA HbA).
    erewrite vendor_loop_single_return;
      [| exact HB | rewrite world_print, world_handle_exception; exact HbB | exact Hgate].
    rewrite Hstop. eexists _, _. split; [reflexivity |]. cbn.
    rewrite calls_handle_exception. cbn. rewrite <- app_assoc. auto.
Qed.

Lemma C4_witness :
  exists l' s',
    vendor_loop akshare_is_down "get_stock_data" (impls_of "get_stock_data")
      ["akshare"; "yfinance"; "alpha_vantage"] (call_with "AAPL")
      ["akshare"; "yfinance"; "alpha_vantage"] initial_locals (start 0) = (l', s')
    /\ successful_vendor l' = Some "yfinance"
    /\ results l' = [VStr "Date,Open,High,Low,Close"]
    /\ vendor_attempt_count l' = 2
    /\ calls s' = [("akshare", get_akshare_stock_data); ("yfinance", get_YFin_data_online)]
    /\ world s' = 2.
Proof.
  exact (proj2 (proj2 (C4_stops_at_first_accepted akshare_is_down "get_stock_data"
                         (impls_of "get_stock_data")
                         ["akshare"; "yfinance"; "alpha_vantage"] (call_with "AAPL")))
           eq_refl "akshare" "yfinance" "alpha_vantage"
           get_akshare_stock_data get_YFin_data_online
           (mkExn ConnectionError "Connection aborted.") (VStr "Date,Open,High,Low,Close")
           1 2 (start 0) eq_refl eq_refl eq_refl eq_refl eq_refl eq_refl eq_refl).
Defined.

(** C8, as the code has it.  The executor never consults
    [is_market_supported]: what it invokes is decided by the catalog and
    by where the loop ends, whatever markets a provider supports.
    - Every invocation a run adds is an adapter of a provider of the plan
      that is registered for the method: a provider that is not
      registered is never invoked.
    - The first registered provider of the plan is always invoked.
    - The invocations are exactly the adapters of the registered
      providers of an initial segment of the plan, in plan order; the
      segment is the whole plan unless the loop ends, under
      [stop_after_first_success], at a provider it accepted, which is
      then the last of the segment.
    - So a registered provider of the plan has all its adapters invoked
      unless the loop has ended at a provider accepted earlier in the
      plan. *)
Theorem C8_skips_unregistered_providers_only
    {W : Type} (behaviour : Adapter -> CallArgs -> W -> Outcome Value * W)
    (config : Config) (method category : string)
    (impls : list (string * VendorImpl)) (a : CallArgs) (s : Sys) :
  get_category_for_method method = Return category ->
  assoc method VENDOR_METHODS = Some impls ->
  let symbol := extract_symbol a in
  let primary_vendors := parse_vendors (get_vendor config category method symbol) in
  let fallback_vendors := build_fallback_vendors config impls symbol primary_vendors in
  let l' := fst (execute behaviour config method category impls a s) in
  let s' := snd (execute behaviour config method category impls a s) in
  (forall vendor f,
      In (vendor, f) (calls s') ->
      In (vendor, f) (calls s)
      \/ (In vendor fallback_vendors /\ registered impls vendor = true
          /\ In (vendor, f) (calls_of impls vendor)))
  /\ (forall vendor rest f,
         List.filter (registered impls) fallback_vendors = vendor :: rest ->
         In (vendor, f) (calls_of impls vendor) ->
         In (vendor, f) (calls s'))
  /\ (exists walked left_out,
         fallback_vendors = walked ++ left_out
         /\ calls s'
            = calls s ++ flat_map (calls_of impls) (List.filter (registered impls) walked)
         /\ (left_out = []
             \/ (stop_after_first_success method primary_vendors = true
                 /\ exists front accepted,
                      walked = front ++ [accepted]
                      /\ registered impls accepted = true
                      /\ successful_vendor l' = Some accepted)))
  /\ (forall before vendor after,
         fallback_vendors = before ++ vendor :: after ->
         registered impls vendor = true ->
         (exists earlier later,
             calls s' = calls s ++ earlier ++ calls_of impls vendor ++ later)
         \/ (stop_after_first_success method primary_vendors = true
             /\ exists accepted,
                  In accepted before
                  /\ registered impls accepted = true
                  /\ successful_vendor l' = Some accepted)).
Proof.
  intros _ _ symbol primary_vendors fallback_vendors l' s'.
  subst l' s'. unfold execute. fold symbol. fold primary_vendors. fold fallback_vendors.
  destruct (vendor_loop behaviour method impls primary_vendors a fallback_vendors
              initial_locals s) as [l' s'] eqn:E.
  pose proof (vendor_loop_trace _ _ _ _ _ _ _ _ _ _ E) as (att & rest & Hf & Hc & _ & Hnil).
  cbn [fst snd]. split; [| split; [| split]].
  - intros vendor f Hin. rewrite Hc in Hin. apply in_app_or in Hin as [Hin | Hin]; [now left |].
    right. apply in_flat_map in Hin as (v & Hv & Hin).
    assert (Hvf : In v (List.filter (registered impls) fallback_vendors))
      by (rewrite Hf; apply in_or_app; now left).
    apply List.filter_In in Hvf as [Hplan Hreg].
    assert (v = vendor) as ->.
    { unfold calls_of in Hin. destruct (assoc v impls); [| contradiction].
      apply in_map_iff in Hin as (f' & [= -> _] & _). reflexivity. }
    auto.
  - intros vendor rest' f Hfilter Hin. rewrite Hc. apply in_or_app. right.
    destruct att as [| v att].
    + rewrite (Hnil eq_refl) in Hf. rewrite Hfilter in Hf. discriminate.
    + rewrite Hfilter in Hf. injection Hf as -> _. simpl. apply in_or_app. now left.
  - exact (vendor_loop_segment _ _ _ _ _ _ _ _ _ _ E).
  - intros before vendor after Hplan Hreg. rewrite Hplan in E.
    exact (vendor_loop_reaches _ _ _ _ _ _ _ _ _ _ _ _ Hreg E).
Qed.

(** The claim C8 as the specification words it fails: for the Hong Kong
    symbol [0700.HK] and stock data configured with [baostock], which
    supports the A-share market only, the adapter of [baostock] is
    invoked. *)
Lemma C8_counterexample :
  let run := route_to_vendor every_adapter_fails (config_tool_level "baostock")
               "get_stock_data" (call_with "0700.HK") (start 0) in
  extract_symbol (call_with "0700.HK") = Some "0700.HK"
  /\ MarketIdentifier.identify_market "0700.HK" = "HK_STOCK"
  /\ MarketIdentifier.get_supported_markets "baostock" = ["A_STOCK"]
  /\ MarketIdentifier.is_market_supported "0700.HK" "baostock" = false
  /\ hd_error (calls (snd run)) = Some ("baostock", get_baostock_stock_data).
Proof. vm_compute. repeat split. Qed.

Lemma C8_witness :
  MarketIdentifier.is_market_supported "0700.HK" "alpha_vantage" = false
  /\ In ("alpha_vantage", get_alpha_vantage_stock)
       (calls (snd (execute every_adapter_fails (config_tool_level "baostock")
                      "get_stock_data" "core_stock_apis" (impls_of "get_stock_data")
                      (call_with "0700.HK") (start 0)))).
Proof.
  split; [reflexivity |].
  destruct (proj2 (proj2 (proj2 (C8_skips_unregistered_providers_only every_adapter_fails
                                   (config_tool_level "baostock") "get_stock_data"
                                   "core_stock_apis" (impls_of "get_stock_data")
                                   (call_with "0700.HK") (start 0) eq_refl eq_refl)))
              ["baostock"] "alpha_vantage" ["yfinance"; "akshare"; "local"]
              eq_refl eq_refl)
    as [(earlier & later & Hcalls) | (_ & accepted & _ & _ & Hsucc)].
  - rewrite Hcalls. apply in_or_app. right. apply in_or_app. right.
    apply in_or_app. left. left. reflexivity.
  - vm_compute in Hsucc. discriminate.
Defined.

(** ** The value returned *)

(** C9.  A call that accepted exactly one value returns that very value;
    a call that accepted several returns the string made of their texts
    joined by newlines, in the order of acceptance.  In particular, when
    the plan is three providers, the loop does not stop at the first
    success and the three adapters return, the result is the three texts
    joined by newlines in the order of the attempts. *)
Theorem C9_single_value_or_joined_text
    {W : Type} (behaviour : Adapter -> CallArgs -> W -> Outcome Value * W)
    (config : Config) (method category : string)
    (impls : list (string * VendorImpl)) (a : CallArgs) (s : Sys) :
  get_category_for_method method = Return category ->
  assoc method VENDOR_METHODS = Some impls ->
  let run := execute behaviour config method category impls a s in
  let outcome := fst (route_to_vendor behaviour config method a s) in
  let primary_vendors :=
    parse_vendors (get_vendor config category method (extract_symbol a)) in
  (forall v, results (fst run) = [v] -> outcome = Return v)
  /\ (forall v1 v2 vs,
         results (fst run) = v1 :: v2 :: vs ->
         outcome = Return (VStr (PyStr.join PyStr.newline (map py_str (v1 :: v2 :: vs)))))
  /\ (forall (A B C : string) (fA fB fC : Adapter) (vA vB vC : Value) (wA wB wC : W),
         build_fallback_vendors config impls (extract_symbol a) primary_vendors = [A; B; C] ->
         stop_after_first_success method primary_vendors = false ->
         assoc A impls = Some (Single fA) ->
         assoc B impls = Some (Single fB) ->
         assoc C impls = Some (Single fC) ->
         behaviour fA a (world s) = (Return vA, wA) ->
         behaviour fB a wA = (Return vB, wB) ->
         behaviour fC a wB = (Return vC, wC) ->
         outcome
         = Return (VStr (py_str vA +:+ PyStr.newline +:+ py_str vB
                         +:+ PyStr.newline +:+ py_str vC))).
Proof.
  intros Hc Hi run outcome primary_vendors.
  assert (Hout : outcome = fst (final_result method (fst run) (snd run))).
  { subst outcome. unfold route_to_vendor. rewrite Hc, Hi. fold run.
    destruct run; reflexivity. }
  split; [| split].
  - intros v Hres. rewrite Hout. unfold final_result. rewrite Hres. reflexivity.
  - intros v1 v2 vs Hres. rewrite Hout. unfold final_result. rewrite Hres. reflexivity.
  - intros A B C fA fB fC vA vB vC wA wB wC Hplan Hstop HA HB HC HbA HbB HbC.
    rewrite Hout. subst run. unfold execute. fold primary_vendors. rewrite Hplan.
    pose proof (stop_excludes_gate method primary_vendors) as Hgate.
    erewrite vendor_loop_single_return; [| exact HA | exact HbA | now apply Hgate].
    rewrite Hstop.
    erewrite vendor_loop_single_return; [| exact HB | exact HbB | now apply Hgate].
    rewrite Hstop.
    erewrite vendor_loop_single_return; [| exact HC | exact HbC | now apply Hgate].
    rewrite Hstop. reflexivity.
Qed.

Lemma C9_witness :
  fst (route_to_vendor news_sources_answer DEFAULT_CONFIG "get_global_news"
         (call_with "2024-05-10") (start 0))
  = Return (VStr ("openai: markets rally" +:+ PyStr.newline
                  +:+ "akshare: rates unchanged" +:+ PyStr.newline
                  +:+ "reddit: 3 posts")).
Proof.
  exact (proj2 (proj2 (C9_single_value_or_joined_text news_sources_answer DEFAULT_CONFIG
                         "get_global_news" "news_data" (impls_of "get_global_news")
                         (call_with "2024-05-10") (start 0) eq_refl eq_refl))
           "openai" "akshare" "local"
           get_global_news_openai get_akshare_global_news get_reddit_global_news
           (VStr "openai: markets rally") (VStr "akshare: rates unchanged")
           (VObj "reddit: 3 posts") 1 2 3
           eq_refl eq_refl eq_refl eq_refl eq_refl eq_refl eq_refl eq_refl).
Defined.

(** C1 fails on the code.  In [config_empty_us_entry] the market of [AAPL]
    has an entry in [market_vendors] that names no provider, so
    [get_vendor] passes over the market layer and answers from
    [tool_vendors]: the configuration layer used is the tool level.  The
    comments of [interface.py:301-308] and C1 both ask for the registered
    providers to be appended in that case, which would give the plan
    [yfinance, alpha_vantage, akshare, baostock, local]; the test of
    [interface.py:304] looks only at the presence of the entry, and the
    plan is [yfinance] alone.  With every adapter failing, the call gives
    up after the single attempt on [yfinance]. *)
Theorem C1_empty_market_entry_gets_no_safety_net :
  let symbol := extract_symbol (call_with "AAPL") in
  let vendor_config :=
    get_vendor config_empty_us_entry "core_stock_apis" "get_stock_data" symbol in
  let primary_vendors := parse_vendors vendor_config in
  let run := route_to_vendor every_adapter_fails config_empty_us_entry
               "get_stock_data" (call_with "AAPL") (start 0) in
  symbol = Some "AAPL"
  /\ market_layer config_empty_us_entry symbol = None
  /\ tool_layer config_empty_us_entry "get_stock_data" = Some "yfinance"
  /\ vendor_config = "yfinance"
  /\ keys (impls_of "get_stock_data")
     = ["alpha_vantage"; "yfinance"; "akshare"; "baostock"; "local"]
  /\ primary_vendors
       ++ List.filter (fun vendor => negb (py_in vendor primary_vendors))
            (keys (impls_of "get_stock_data"))
     = ["yfinance"; "alpha_vantage"; "akshare"; "baostock"; "local"]
  /\ build_fallback_vendors config_empty_us_entry (impls_of "get_stock_data")
       symbol primary_vendors
     = ["yfinance"]
  /\ calls (snd run) = [("yfinance", get_YFin_data_online)]
  /\ fst run = Raise (mkExn RuntimeError (all_failed_message "get_stock_data")).
Proof. vm_compute. repeat split. Qed.

Lemma fallback_plan_as_built_witness :
  build_fallback_vendors (config_tool_level "google") (impls_of "get_stock_data")
    (Some "AAPL") ["google"]
  = ["google"; "alpha_vantage"; "yfinance"; "akshare"; "baostock"; "local"].
Proof.
  exact (proj1 (fallback_plan_as_built (config_tool_level "google") "get_stock_data"
                  "core_stock_apis" (impls_of "get_stock_data") (call_with "AAPL")
                  eq_refl eq_refl)).
Defined.

(** ** The data-quality gate *)

Lemma float_needs_text (s : string) : PyFloat.parses s = true -> s <> EmptyString.
Proof. intros H ->. vm_compute in H. discriminate. Qed.

(** A line counts as valid data exactly when it is a date line whose value
    is not empty and holds none of the no-data keywords: whether the value
    parses as a number does not change the count. *)
Lemma scan_line_counts (c : Counts) (line : string) :
  let stripped := PyStr.strip line in
  let head := PyStr.strip (hd EmptyString (PyStr.split ":" stripped)) in
  let value_part := PyStr.strip (PyStr.join ":" (tl (PyStr.split ":" stripped))) in
  let is_date_line :=
    PyStr.contains ":" stripped && Nat.eqb (String.length head) 10
    && Datetime.strptime_ymd head in
  let is_valid :=
    is_date_line
    && negb (existsb (fun keyword => PyStr.contains keyword (PyStr.lower value_part))
               NO_DATA_KEYWORDS)
    && PyStr.truthy value_part in
  scan_line c line
  = {| valid_data_count := valid_data_count c + (if is_valid then 1 else 0);
       date_line_count := date_line_count c + (if is_date_line then 1 else 0) |}.
Proof.
  intros stripped head value_part is_date_line is_valid.
  subst is_valid is_date_line. unfold scan_line.
  fold stripped. fold head. fold value_part.
  destruct c as [v d]. cbn [valid_data_count date_line_count].
  destruct (PyStr.contains ":" stripped && Nat.eqb (String.length head) 10);
    cbn [andb]; [| f_equal; lia].
  destruct (Datetime.strptime_ymd head); cbn [andb]; [| f_equal; lia].
  destruct (existsb _ NO_DATA_KEYWORDS); cbn [negb andb]; [f_equal; lia |].
  destruct (PyFloat.parses value_part) eqn:Ef.
  - apply float_needs_text in Ef. destruct value_part; [contradiction |].
    cbn [PyStr.truthy]. f_equal; lia.
  - destruct value_part; cbn [PyStr.truthy andb]; f_equal; cbn; lia.
Qed.

Lemma scan_lines_valid_le_dates (result_content : string) :
  valid_data_count (scan_lines result_content)
  <= date_line_count (scan_lines result_content).
Proof.
  unfold scan_lines.
  assert (H : forall lines c, valid_data_count c <= date_line_count c ->
            valid_data_count (fold_left scan_line lines c)
            <= date_line_count (fold_left scan_line lines c)).
  { induction lines as [| line lines IH]; intros c Hc; [exact Hc |].
    cbn [fold_left]. apply IH. rewrite scan_line_counts.
    cbn [valid_data_count date_line_count].
    match goal with
    | |- context [if ?d && ?k && ?t then _ else _] =>
        destruct d; cbn [andb]; [destruct (k && t) |]; lia
    end. }
  apply H. cbn. lia.
Qed.

(** C5.  The gate rejects a text exactly when it has no date line or when
    fewer than three in ten of its date lines carry valid data.  A report
    of ten date lines with two values and eight holidays is rejected, one
    with four values is accepted.  When the single result of a provider of
    [get_indicators] is rejected, the loop drops it: it goes on with the
    next provider of the plan, with the results and the successful vendor
    it had before. *)
Theorem C5_quality_gate
    {W : Type} (behaviour : Adapter -> CallArgs -> W -> Outcome Value * W) :
  (forall result_content,
      _is_indicator_result_invalid result_content = true
      <-> date_line_count (scan_lines result_content) = 0
          \/ 10 * valid_data_count (scan_lines result_content)
             < 3 * date_line_count (scan_lines result_content))
  /\ (scan_lines report_2_of_10 = {| valid_data_count := 2; date_line_count := 10 |}
      /\ _is_indicator_result_invalid report_2_of_10 = true)
  /\ (scan_lines report_4_of_10 = {| valid_data_count := 4; date_line_count := 10 |}
      /\ _is_indicator_result_invalid report_4_of_10 = false)
  /\ (forall (impls : list (string * VendorImpl)) (primary_vendors : list string)
             (a : CallArgs) (vendor : string) (rest : list string)
             (vendor_impl : VendorImpl) (result : Value) (l : Locals) (s s1 : Sys),
         assoc vendor impls = Some vendor_impl ->
         run_vendor_methods behaviour vendor (vendor_methods_of vendor_impl) a [] s
         = ([result], s1) ->
         _is_indicator_result_invalid (py_str result) = true ->
         vendor_loop behaviour "get_indicators" impls primary_vendors a (vendor :: rest) l s
         = vendor_loop behaviour "get_indicators" impls primary_vendors a rest
             {| results := results l;
                vendor_attempt_count := S (vendor_attempt_count l);
                any_primary_vendor_attempted :=
                  if py_in vendor primary_vendors then true
                  else any_primary_vendor_attempted l;
                successful_vendor := successful_vendor l |}
             (print (FALLBACK_skipping vendor)
                (print INFO_better_quality (print (DATA_QUALITY_invalid vendor) s1)))).
Proof.
  split; [| split; [| split]].
  - intros result_content. unfold _is_indicator_result_invalid.
    destruct result_content as [| c rest]; cbn [PyStr.truthy negb].
    + split; [intros _; left; reflexivity | reflexivity].
    + destruct (Nat.eqb_spec (date_line_count (scan_lines (String c rest))) 0) as [E | E].
      * split; [intros _; now left | reflexivity].
      * rewrite Nat.ltb_lt. split; [intros H; now right | intros [H | H]; [contradiction | assumption]].
  - split; vm_compute; reflexivity.
  - split; vm_compute; reflexivity.
  - intros impls primary_vendors a vendor rest vendor_impl result l s s1 Ha Hr Hinv.
    eapply vendor_loop_rejected; [exact Ha | exact Hr |].
    unfold should_fallback_due_to_invalid_data. rewrite Hinv. reflexivity.
Qed.

Lemma C5_witness :
  vendor_loop akshare_on_holiday "get_indicators" (impls_of "get_indicators")
    ["akshare"; "yfinance"; "alpha_vantage"] (call_with "AAPL")
    ["akshare"; "yfinance"; "alpha_vantage"] initial_locals (start 0)
  = vendor_loop akshare_on_holiday "get_indicators" (impls_of "get_indicators")
      ["akshare"; "yfinance"; "alpha_vantage"] (call_with "AAPL")
      ["yfinance"; "alpha_vantage"]
      {| results := [];
         vendor_attempt_count := 1;
         any_primary_vendor_attempted := true;
         successful_vendor := None |}
      {| world := 1;
         stdout := [ SUCCESS_completed get_akshare_indicators "akshare";
                     DATA_QUALITY_invalid "akshare"; INFO_better_quality;
                     FALLBACK_skipping "akshare" ];
         calls := [("akshare", get_akshare_indicators)] |}.
Proof.
  exact (proj2 (proj2 (proj2 (C5_quality_gate akshare_on_holiday)))
           (impls_of "get_indicators") ["akshare"; "yfinance"; "alpha_vantage"]
           (call_with "AAPL") "akshare" ["yfinance"; "alpha_vantage"]
           (Single get_akshare_indicators) (VStr report_2_of_10) initial_locals (start 0)
           {| world := 1;
              stdout := [SUCCESS_completed get_akshare_indicators "akshare"];
              calls := [("akshare", get_akshare_indicators)] |}
           eq_refl eq_refl eq_refl).
Defined.

(** ** Symbol formatting *)

(** C6, as the code has it.  [format_symbol_for_vendor] is a total
    function of its three arguments, and for every provider and market pair
    without a branch of its own (an unknown provider, a market outside the
    three regional ones, [baostock] outside the A-share market) it returns
    the symbol upper-cased and stripped of surrounding blanks; the result
    is the input itself when the input is already in that form. *)
Theorem C6_no_rule_returns_normalised_symbol
    (symbol vendor : string) (market : option string) :
  has_formatting_rule vendor (resolved_market symbol market) = false ->
  MarketIdentifier.format_symbol_for_vendor symbol vendor market
  = PyStr.strip (PyStr.upper symbol)
  /\ (PyStr.strip (PyStr.upper symbol) = symbol ->
      MarketIdentifier.format_symbol_for_vendor symbol vendor market = symbol).
Proof.
  intros H.
  assert (E : MarketIdentifier.format_symbol_for_vendor symbol vendor market
              = PyStr.strip (PyStr.upper symbol)).
  { unfold MarketIdentifier.format_symbol_for_vendor.
    unfold has_formatting_rule, resolved_market, py_in in H. cbn [existsb] in H.
    set (m := match market with
              | Some m => m
              | None => MarketIdentifier.identify_market symbol
              end) in *.
    destruct (String.eqb vendor "akshare"), (String.eqb vendor "baostock"),
      (String.eqb vendor "yfinance"), (String.eqb vendor "alpha_vantage"),
      (String.eqb m "A_STOCK"), (String.eqb m "HK_STOCK"), (String.eqb m "US_STOCK");
      cbn in H; try discriminate; reflexivity. }
  split; [exact E | intros Hn; now rewrite E].
Qed.

Lemma C6_witness :
  MarketIdentifier.format_symbol_for_vendor " brk.b" "tushare" None = "BRK.B".
Proof.
  exact (proj1 (C6_no_rule_returns_normalised_symbol " brk.b" "tushare" None eq_refl)).
Defined.

(** The claim C6 as the specification words it fails: for a provider
    without any formatting rule the lower-case symbol [aapl] does not come
    back unchanged. *)
Lemma C6_counterexample :
  has_formatting_rule "tushare" (resolved_market "aapl" None) = false
  /\ MarketIdentifier.format_symbol_for_vendor "aapl" "tushare" None = "AAPL"
  /\ MarketIdentifier.format_symbol_for_vendor "aapl" "tushare" None <> "aapl".
Proof. vm_compute. repeat split. discriminate. Qed.

(** ** The configuration resolver *)

Lemma truthy_iff (s : string) : PyStr.truthy s = true <-> s <> EmptyString.
Proof. destruct s; simpl; split; congruence. Qed.

Lemma market_layer_None (config : Config) (symbol : option string) :
  market_layer config symbol = None <-> ~ market_entry_applies config symbol.
Proof.
  unfold market_layer, market_entry_applies. destruct symbol as [s |].
  - destruct (PyStr.truthy s) eqn:Es.
    + cbn zeta.
      change (mi_market (get_market_info s)) with (MarketIdentifier.identify_market s).
      destruct (market_vendors config !! _) as [mc |] eqn:Em.
      * destruct (default EmptyString (mc !! "primary")) as [| c1 p] eqn:Ep;
          destruct (default EmptyString (mc !! "fallback")) as [| c2 f] eqn:Ef;
          cbn [PyStr.truthy andb]; split; intros H; try discriminate; try reflexivity.
        -- intros (s' & mc' & [= <-] & _ & Hm & [Hp | Hf]); rewrite Em in Hm;
             injection Hm as <-; congruence.
        -- exfalso. apply H. exists s, mc. rewrite Ep, Ef.
           repeat split; [now apply truthy_iff | assumption | right; discriminate].
        -- exfalso. apply H. exists s, mc. rewrite Ep, Ef.
           repeat split; [now apply truthy_iff | assumption | left; discriminate].
        -- exfalso. apply H. exists s, mc. rewrite Ep, Ef.
           repeat split; [now apply truthy_iff | assumption | left; discriminate].
      * split; [| reflexivity]. intros _ (s' & mc & [= <-] & _ & Hm & _). congruence.
    + split; [| reflexivity]. intros _ (s' & mc & [= <-] & Hne & _).
      apply truthy_iff in Hne. congruence.
  - split; [| reflexivity]. intros _ (s' & mc & [=] & _).
Qed.

(** C3, as the code has it.  [get_vendor] resolves the providers by three
    layers, the first that answers wins.  A market-specific entry answers
    when the symbol is not empty, its market has an entry in
    [market_vendors] and the entry names a provider: the answer is [primary]
    then [fallback], comma-joined, empty parts skipped, and the call is
    market-scoped.  When no entry answers (no symbol, no entry for the
    market, or an entry whose [primary] and [fallback] are both empty) the
    answer is [tool_vendors] for a non-empty method that has an entry there,
    and otherwise [data_vendors] for the category, or the string ["default"]
    when the category has none. *)
Theorem C3_get_vendor_precedence
    (config : Config) (category method : string) (symbol : option string) :
  (forall s market_config,
      symbol = Some s ->
      s <> EmptyString ->
      market_vendors config !! MarketIdentifier.identify_market s = Some market_config ->
      let primary := default EmptyString (market_config !! "primary") in
      let fallback := default EmptyString (market_config !! "fallback") in
      primary <> EmptyString \/ fallback <> EmptyString ->
      get_vendor config category method symbol = concat_skip_empty primary fallback
      /\ is_market_scoped config symbol = true)
  /\ (forall vendors,
         ~ market_entry_applies config symbol ->
         method <> EmptyString ->
         tool_vendors config !! method = Some vendors ->
         get_vendor config category method symbol = vendors)
  /\ (~ market_entry_applies config symbol ->
      method = EmptyString \/ tool_vendors config !! method = None ->
      get_vendor config category method symbol
      = default "default" (data_vendors config !! category)).
Proof.
  split; [| split].
  - intros s mc -> Hs Hm primary fallback Hpf.
    assert (Hl : market_layer config (Some s) = Some (concat_skip_empty primary fallback)).
    { unfold market_layer. apply truthy_iff in Hs. rewrite Hs. cbn zeta.
      change (mi_market (get_market_info s)) with (MarketIdentifier.identify_market s).
      rewrite Hm.
      fold primary. fold fallback. unfold concat_skip_empty.
      destruct primary as [| c1 p], fallback as [| c2 f]; cbn; try reflexivity.
      destruct Hpf; contradiction. }
    split.
    + unfold get_vendor. now rewrite Hl.
    + eapply market_layer_scoped. exact Hl.
  - intros vendors Hna Hm Ht. apply market_layer_None in Hna.
    unfold get_vendor, tool_layer. rewrite Hna. apply truthy_iff in Hm. now rewrite Hm, Ht.
  - intros Hna Hm. apply market_layer_None in Hna.
    unfold get_vendor, tool_layer. rewrite Hna. destruct Hm as [-> | Ht]; [reflexivity |].
    rewrite Ht. now destruct (PyStr.truthy method).
Qed.

Lemma C3_witness :
  get_vendor DEFAULT_CONFIG "core_stock_apis" "get_stock_data" (Some "600000")
  = "akshare,baostock,yfinance"
  /\ is_market_scoped DEFAULT_CONFIG (Some "600000") = true.
Proof.
  refine (proj1 (C3_get_vendor_precedence DEFAULT_CONFIG "core_stock_apis"
                   "get_stock_data" (Some "600000"))
            "600000" {[ "primary" := "akshare"; "fallback" := "baostock,yfinance" ]}
            eq_refl _ eq_refl _).
  - discriminate.
  - left. vm_compute. discriminate.
Defined.

(** The claim C3 as the specification words it fails: the market of
    [AAPL] has an entry in [market_vendors], its [primary] and [fallback]
    are empty, and [get_vendor] answers with the tool-level providers, not
    with the empty concatenation of the entry. *)
Lemma C3_counterexample :
  market_vendors config_empty_us_entry !! MarketIdentifier.identify_market "AAPL"
  = Some {[ "primary" := ""; "fallback" := "" ]}
  /\ concat_skip_empty "" "" = ""
  /\ get_vendor config_empty_us_entry "core_stock_apis" "get_stock_data" (Some "AAPL")
     = "yfinance"
  /\ get_vendor config_empty_us_entry "core_stock_apis" "get_stock_data" (Some "AAPL")
     <> concat_skip_empty "" "".
Proof. vm_compute. repeat split. discriminate. Qed.

(** * Further properties of the engine *)

(** ** Which exceptions a call can raise *)

Lemma categorised_method_is_registered (method category : string) :
  get_category_for_method method = Return category ->
  exists impls, assoc method VENDOR_METHODS = Some impls.
Proof.
  unfold get_category_for_method.
  destruct (find _ TOOLS_CATEGORIES) as [[c info] |] eqn:E; [| discriminate].
  intros _. apply find_some in E as [Hin Hp]. cbn [snd] in Hp. apply py_in_In in Hp.
  simpl in Hin.
  repeat (destruct Hin as [[= <- <-] | Hin];
          [simpl in Hp;
           repeat (destruct Hp as [<- | Hp]; [eexists; vm_compute; reflexivity |]);
           contradiction |]).
  contradiction.
Qed.

(** X1.  The check [method not in VENDOR_METHODS] never fires: every tool a
    category lists has a catalog entry.  A call therefore returns, or raises
    the [ValueError] of [get_category_for_method], or raises the terminal
    [RuntimeError]; it raises the former exactly for a method no category
    lists. *)
Theorem route_to_vendor_exceptions
    {W : Type} (behaviour : Adapter -> CallArgs -> W -> Outcome Value * W)
    (config : Config) (method : string) (a : CallArgs) (s : Sys) (e : Exn) :
  fst (route_to_vendor behaviour config method a s) = Raise e ->
  (e = mkExn ValueError ("Method '" +:+ method +:+ "' not found in any category")
   /\ get_category_for_method method = Raise e)
  \/ (e = mkExn RuntimeError (all_failed_message method)
      /\ exists category, get_category_for_method method = Return category).
Proof.
  unfold route_to_vendor.
  destruct (get_category_for_method method) as [category | e0] eqn:Ec.
  - destruct (categorised_method_is_registered _ _ Ec) as [impls Hi]. rewrite Hi.
    destruct (execute behaviour config method category impls a s) as [l s1].
    unfold final_result. destruct (results l) as [| r [| r' rs]]; cbn [fst]; intros [= <-].
    right. eauto.
  - cbn [fst]. intros [= ->]. left. split; [| reflexivity].
    unfold get_category_for_method in Ec.
    destruct (find _ TOOLS_CATEGORIES) as [[c info] |]; congruence.
Qed.

Lemma route_to_vendor_exceptions_witness :
  (mkExn RuntimeError "All vendor implementations failed for method 'get_stock_data'"
   = mkExn ValueError "Method 'get_stock_data' not found in any category"
   /\ get_category_for_method "get_stock_data"
      = Raise (mkExn RuntimeError
                 "All vendor implementations failed for method 'get_stock_data'"))
  \/ (mkExn RuntimeError "All vendor implementations failed for method 'get_stock_data'"
      = mkExn RuntimeError (all_failed_message "get_stock_data")
      /\ exists category, get_category_for_method "get_stock_data" = Return category).
Proof.
  exact (route_to_vendor_exceptions every_adapter_fails DEFAULT_CONFIG "get_stock_data"
           (call_with "AAPL") (start 0) _ eq_refl).
Defined.

(** ** What a failed call has tried *)

Section Exhaustion.

Context {W : Type}.
Variable behaviour : Adapter -> CallArgs -> W -> Outcome Value * W.

Lemma run_vendor_methods_results
    (vendor : string) (fs : list Adapter) (a : CallArgs)
    (vendor_results vendor_results' : list Value) (s s' : Sys) :
  run_vendor_methods behaviour vendor fs a vendor_results s = (vendor_results', s') ->
  exists more, vendor_results' = vendor_results ++ more /\ length more <= length fs.
Proof.
  revert vendor_results s.
  induction fs as [| f fs IH]; simpl; intros vr s H.
  - injection H as <- _. exists []. rewrite app_nil_r. auto.
  - destruct (invoke behaviour vendor f a s) as [[result | e] s1].
    + apply IH in H as (more & -> & Hlen). exists (result :: more).
      rewrite <- app_assoc. simpl. split; [reflexivity | lia].
    + apply IH in H as (more & -> & Hlen). exists more. split; [reflexivity | lia].
Qed.

(** The results only grow. *)
Lemma vendor_loop_results_grow
    (method : string) (impls : list (string * VendorImpl))
    (primary_vendors : list string) (a : CallArgs)
    (fallback_vendors : list string) (l l' : Locals) (s s' : Sys) :
  vendor_loop behaviour method impls primary_vendors a fallback_vendors l s = (l', s') ->
  exists more, results l' = results l ++ more.
Proof.
  revert l s.
  induction fallback_vendors as [| vendor plan IH]; simpl; intros l s H.
  - injection H as <- _. exists []. now rewrite app_nil_r.
  - destruct (assoc vendor impls) as [vendor_impl |]; [| now apply IH in H].
    destruct (run_vendor_methods behaviour vendor (vendor_methods_of vendor_impl) a [] s)
      as [vr s1].
    destruct vr as [| r vr]; [now apply IH in H |].
    destruct (should_fallback_due_to_invalid_data method (r :: vr)); [now apply IH in H |].
    destruct (stop_after_first_success method primary_vendors).
    + injection H as <- _. eexists. reflexivity.
    + apply IH in H as (more & Hm). cbn [results] in Hm. rewrite <- app_assoc in Hm. eauto.
Qed.

(** A run that accepts nothing has attempted every registered provider of
    the plan, in plan order. *)
Lemma vendor_loop_nothing_accepted
    (method : string) (impls : list (string * VendorImpl))
    (primary_vendors : list string) (a : CallArgs)
    (fallback_vendors : list string) (l l' : Locals) (s s' : Sys) :
  vendor_loop behaviour method impls primary_vendors a fallback_vendors l s = (l', s') ->
  results l' = results l ->
  calls s' = calls s
       ++ flat_map (calls_of impls) (List.filter (registered impls) fallback_vendors)
  /\ vendor_attempt_count l'
     = vendor_attempt_count l + length (List.filter (registered impls) fallback_vendors).
Proof.
  revert l s.
  induction fallback_vendors as [| vendor plan IH]; intros l s H Hres.
  - cbn in H. injection H as <- <-. cbn. rewrite app_nil_r. split; [reflexivity | lia].
  - cbn [vendor_loop] in H. cbn [List.filter].
    destruct (assoc vendor impls) as [vendor_impl |] eqn:Ea.
    + assert (Hreg : registered impls vendor = true) by (unfold registered; now rewrite Ea).
      assert (Hcalls_of : calls_of impls vendor
                          = map (pair vendor) (vendor_methods_of vendor_impl))
        by (unfold calls_of; now rewrite Ea).
      rewrite Hreg. cbn [flat_map length]. rewrite Hcalls_of.
      destruct (run_vendor_methods behaviour vendor (vendor_methods_of vendor_impl) a [] s)
        as [vr s1] eqn:Er.
      apply run_vendor_methods_calls in Er.
      assert (Hcont : forall l1 s2,
                 calls s2 = calls s1 -> results l1 = results l ->
                 vendor_attempt_count l1 = S (vendor_attempt_count l) ->
                 vendor_loop behaviour method impls primary_vendors a plan l1 s2 = (l', s') ->
                 calls s' = calls s
                   ++ map (pair vendor) (vendor_methods_of vendor_impl)
                   ++ flat_map (calls_of impls) (List.filter (registered impls) plan)
                 /\ vendor_attempt_count l'
                    = vendor_attempt_count l
                      + S (length (List.filter (registered impls) plan))).
      { intros l1 s2 Hc Hr Hn Hl. apply IH in Hl as [Hcalls Hcount]; [| congruence].
        split.
        - rewrite Hcalls, Hc, Er. now rewrite <- app_assoc.
        - rewrite Hcount, Hn. lia. }
      assert (Hno : forall (r : Value) vr0 more,
                 results l' = (results l ++ r :: vr0) ++ more -> False).
      { intros r vr0 more Hm. rewrite Hres in Hm. apply (f_equal (@length Value)) in Hm.
        rewrite !length_app in Hm. cbn [length] in Hm. lia. }
      destruct vr as [| r vr].
      * eapply Hcont; [| | | exact H]; reflexivity.
      * destruct (should_fallback_due_to_invalid_data method (r :: vr)).
        -- eapply Hcont; [| | | exact H]; reflexivity.
        -- exfalso. destruct (stop_after_first_success method primary_vendors).
           ++ injection H as <- _. cbn [results] in Hres.
              apply (Hno r vr []). now rewrite app_nil_r.
           ++ apply vendor_loop_results_grow in H as (more & Hm). cbn [results] in Hm.
              exact (Hno _ _ _ Hm).
    + assert (Hreg : registered impls vendor = false) by (unfold registered; now rewrite Ea).
      rewrite Hreg. apply IH in H; [| assumption]. destruct H as [Hcalls Hcount].
      split; [| assumption].
      rewrite Hcalls. destruct (py_in vendor primary_vendors); reflexivity.
Qed.

End Exhaustion.

Lemma In_append_missing (vendor : string) (fallback_vendors all_available_vendors : list string) :
  In vendor (append_missing fallback_vendors all_available_vendors)
  <-> In vendor fallback_vendors \/ In vendor all_available_vendors.
Proof.
  revert fallback_vendors.
  induction all_available_vendors as [| x rest IH]; intros fb; simpl.
  - tauto.
  - destruct (py_in x fb) eqn:E; simpl; rewrite IH.
    + apply py_in_In in E. split; [tauto |]. intros [? | [<- | ?]]; tauto.
    + rewrite in_app_iff. simpl. tauto.
Qed.

Lemma assoc_Some_In_keys {A : Type} (key : string) (d : list (string * A)) (v : A) :
  assoc key d = Some v -> In key (keys d).
Proof.
  intros H. destruct (assoc_None key d) as [_ Hn].
  destruct (in_dec string_dec key (keys d)) as [Hin | Hnin]; [assumption |].
  rewrite (Hn Hnin) in H. discriminate.
Qed.

(** X2.  A call that raises the terminal failure has invoked every adapter
    of every registered provider of its plan, in plan order, and counted one
    attempt for each; when the call is not market-scoped these are all the
    adapters the catalog registers for the method. *)
Theorem failed_call_tried_every_provider
    {W : Type} (behaviour : Adapter -> CallArgs -> W -> Outcome Value * W)
    (config : Config) (method category : string)
    (impls : list (string * VendorImpl)) (a : CallArgs) (s : Sys) :
  get_category_for_method method = Return category ->
  assoc method VENDOR_METHODS = Some impls ->
  let symbol := extract_symbol a in
  let primary_vendors := parse_vendors (get_vendor config category method symbol) in
  let fallback_vendors := build_fallback_vendors config impls symbol primary_vendors in
  fst (route_to_vendor behaviour config method a s)
  = Raise (mkExn RuntimeError (all_failed_message method)) ->
  let run := execute behaviour config method category impls a s in
  calls (snd run)
  = calls s ++ flat_map (calls_of impls) (List.filter (registered impls) fallback_vendors)
  /\ vendor_attempt_count (fst run)
     = length (List.filter (registered impls) fallback_vendors)
  /\ (is_market_scoped config symbol = false ->
      forall vendor vendor_impl f,
        assoc vendor impls = Some vendor_impl ->
        In f (vendor_methods_of vendor_impl) ->
        In (vendor, f) (calls (snd run))).
Proof.
  intros Hc Hi symbol primary_vendors fallback_vendors Hraise run.
  assert (Hres : results (fst run) = []).
  { unfold route_to_vendor in Hraise. rewrite Hc, Hi in Hraise. fold run in Hraise.
    destruct run as [l s1]. cbn [fst]. unfold final_result in Hraise.
    destruct (results l) as [| r [| r' rs]]; [reflexivity | discriminate | discriminate]. }
  assert (Hrun : run = vendor_loop behaviour method impls primary_vendors a
                         fallback_vendors initial_locals s) by reflexivity.
  destruct run as [l s1]. cbn [fst snd] in *. symmetry in Hrun.
  apply vendor_loop_nothing_accepted in Hrun as [Hcalls Hcount]; [| exact Hres].
  split; [exact Hcalls |]. split; [exact Hcount |].
  intros Hns vendor vendor_impl f Ha Hf. rewrite Hcalls. apply in_or_app. right.
  apply in_flat_map. exists vendor. split.
  - apply List.filter_In. split.
    + subst fallback_vendors. unfold build_fallback_vendors. fold symbol. rewrite Hns.
      apply In_append_missing. right. eapply assoc_Some_In_keys; eassumption.
    + unfold registered. now rewrite Ha.
  - unfold calls_of. rewrite Ha. now apply in_map.
Qed.

Lemma failed_call_tried_every_provider_witness :
  calls (snd (execute every_adapter_fails (config_tool_level "baostock") "get_stock_data"
                "core_stock_apis" (impls_of "get_stock_data") (call_with "0700.HK")
                (start 0)))
  = [ ("baostock", get_baostock_stock_data); ("alpha_vantage", get_alpha_vantage_stock);
      ("yfinance", get_YFin_data_online); ("akshare", get_akshare_stock_data);
      ("local", get_YFin_data) ].
Proof.
  exact (proj1 (failed_call_tried_every_provider every_adapter_fails
                  (config_tool_level "baostock") "get_stock_data" "core_stock_apis"
                  (impls_of "get_stock_data") (call_with "0700.HK") (start 0)
                  eq_refl eq_refl eq_refl)).
Defined.

Section Unregistered.

Context {W : Type}.
Variable behaviour : Adapter -> CallArgs -> W -> Outcome Value * W.

Lemma vendor_loop_unregistered
    (method : string) (impls : list (string * VendorImpl))
    (primary_vendors : list string) (a : CallArgs)
    (fallback_vendors : list string) (l : Locals) (s : Sys) :
  (forall vendor, In vendor fallback_vendors -> registered impls vendor = false) ->
  exists s',
    vendor_loop behaviour method impls primary_vendors a fallback_vendors l s = (l, s')
    /\ calls s' = calls s /\ world s' = world s.
Proof.
  revert s.
  induction fallback_vendors as [| vendor plan IH]; intros s Hun.
  - exists s. auto.
  - cbn [vendor_loop]. pose proof (Hun vendor (or_introl eq_refl)) as Hv.
    unfold registered in Hv. destruct (assoc vendor impls); [discriminate |].
    destruct (IH (if py_in vendor primary_vendors
                  then print (INFO_not_supported vendor method) s else s))
      as (s' & Hl & Hc & Hw); [intros v Hin; apply Hun; now right |].
    exists s'. split; [exact Hl |].
    destruct (py_in vendor primary_vendors); auto.
Qed.

End Unregistered.

(** X3.  A market-scoped call none of whose configured providers is
    registered for the method raises the terminal failure without invoking
    any adapter: the world is as it was. *)
Theorem market_scoped_call_without_registered_provider
    {W : Type} (behaviour : Adapter -> CallArgs -> W -> Outcome Value * W)
    (config : Config) (method category : string)
    (impls : list (string * VendorImpl)) (a : CallArgs) (s : Sys) :
  get_category_for_method method = Return category ->
  assoc method VENDOR_METHODS = Some impls ->
  is_market_scoped config (extract_symbol a) = true ->
  (forall vendor,
      In vendor (parse_vendors (get_vendor config category method (extract_symbol a))) ->
      registered impls vendor = false) ->
  let run := route_to_vendor behaviour config method a s in
  fst run = Raise (mkExn RuntimeError (all_failed_message method))
  /\ calls (snd run) = calls s
  /\ world (snd run) = world s
  /\ last (stdout (snd run)) = Some (FAILURE_all 0 method).
Proof.
  intros Hc Hi Hscoped Hun run. subst run.
  unfold route_to_vendor. rewrite Hc, Hi. unfold execute, build_fallback_vendors.
  rewrite Hscoped.
  destruct (vendor_loop_unregistered behaviour method impls
              (parse_vendors (get_vendor config category method (extract_symbol a))) a
              (parse_vendors (get_vendor config category method (extract_symbol a)))
              initial_locals s Hun) as (s' & Hl & Hcalls & Hworld).
  rewrite Hl. cbn. repeat split; try assumption. apply last_snoc.
Qed.

Lemma market_scoped_call_without_registered_provider_witness :
  let run := route_to_vendor every_adapter_fails config_us_google "get_stock_data"
               (call_with "AAPL") (start 0) in
  fst run = Raise (mkExn RuntimeError (all_failed_message "get_stock_data"))
  /\ calls (snd run) = []
  /\ world (snd run) = 0
  /\ last (stdout (snd run)) = Some (FAILURE_all 0 "get_stock_data").
Proof.
  refine (market_scoped_call_without_registered_provider every_adapter_fails
            config_us_google "get_stock_data" "core_stock_apis"
            (impls_of "get_stock_data") (call_with "AAPL") (start 0)
            eq_refl eq_refl eq_refl _).
  intros vendor Hin. vm_compute in Hin. destruct Hin as [<- | []]. reflexivity.
Defined.

(** ** Where the returned value comes from *)

Section Values.

Context {W : Type}.
Variable behaviour : Adapter -> CallArgs -> W -> Outcome Value * W.

Lemma run_vendor_methods_values
    (vendor : string) (fs : list Adapter) (a : CallArgs)
    (vendor_results vendor_results' : list Value) (s s' : Sys) :
  run_vendor_methods behaviour vendor fs a vendor_results s = (vendor_results', s') ->
  exists more,
    vendor_results' = vendor_results ++ more
    /\ length more <= length fs
    /\ Forall (fun v => exists f w w', In f fs /\ behaviour f a w = (Return v, w')) more.
Proof.
  revert vendor_results s.
  induction fs as [| f fs IH]; simpl; intros vr s H.
  - injection H as <- _. exists []. rewrite app_nil_r. auto.
  - destruct (invoke behaviour vendor f a s) as [o s1] eqn:Ei.
    apply invoke_calls in Ei as [_ Hb].
    assert (Hweaken : forall more,
               Forall (fun v => exists f0 w w', In f0 fs /\ behaviour f0 a w = (Return v, w')) more ->
               Forall (fun v => exists f0 w w', (f = f0 \/ In f0 fs)
                                                /\ behaviour f0 a w = (Return v, w')) more).
    { intros more Hm. eapply List.Forall_impl; [| exact Hm].
      intros v (f0 & w & w' & Hin & Hv). eauto 8. }
    destruct o as [result | e].
    + apply IH in H as (more & -> & Hlen & Hall). exists (result :: more).
      rewrite <- app_assoc. split; [reflexivity |]. split; [simpl; lia |].
      constructor; [eauto 8 | now apply Hweaken].
    + apply IH in H as (more & -> & Hlen & Hall). exists more.
      split; [reflexivity |]. split; [lia | now apply Hweaken].
Qed.

Lemma returned_by_an_adapter_cons
    (impls : list (string * VendorImpl)) (a : CallArgs) (vendor : string)
    (plan : list string) (more : list Value) :
  Forall (returned_by_an_adapter behaviour impls a plan) more ->
  Forall (returned_by_an_adapter behaviour impls a (vendor :: plan)) more.
Proof.
  intros H. eapply List.Forall_impl; [| exact H].
  intros v (v0 & vi & f & w & w' & Hin & Hrest). exists v0, vi, f, w, w'.
  split; [now right | exact Hrest].
Qed.

(** Whatever the loop adds to the results was returned by an adapter of a
    registered provider of the plan; when the loop stops after the first
    success, what it adds comes from one provider. *)
Lemma vendor_loop_values
    (method : string) (impls : list (string * VendorImpl))
    (primary_vendors : list string) (a : CallArgs)
    (fallback_vendors : list string) (l l' : Locals) (s s' : Sys) :
  vendor_loop behaviour method impls primary_vendors a fallback_vendors l s = (l', s') ->
  exists more,
    results l' = results l ++ more
    /\ Forall (returned_by_an_adapter behaviour impls a fallback_vendors) more
    /\ (stop_after_first_success method primary_vendors = true ->
        more = []
        \/ exists vendor vendor_impl,
             assoc vendor impls = Some vendor_impl
             /\ length more <= length (vendor_methods_of vendor_impl)).
Proof.
  revert l s.
  induction fallback_vendors as [| vendor plan IH]; intros l s H.
  - cbn in H. injection H as <- _. exists []. rewrite app_nil_r. auto.
  - cbn [vendor_loop] in H.
    assert (Hskip : forall l1 s1,
               results l1 = results l ->
               vendor_loop behaviour method impls primary_vendors a plan l1 s1 = (l', s') ->
               exists more,
                 results l' = results l ++ more
                 /\ Forall (returned_by_an_adapter behaviour impls a (vendor :: plan)) more
                 /\ (stop_after_first_success method primary_vendors = true ->
                     more = []
                     \/ exists vendor0 vendor_impl,
                          assoc vendor0 impls = Some vendor_impl
                          /\ length more <= length (vendor_methods_of vendor_impl))).
    { intros l1 s1 Hr Hl. apply IH in Hl as (more & Hm & Hall & Hstop).
      exists more. rewrite <- Hr. split; [exact Hm |].
      split; [now apply returned_by_an_adapter_cons | exact Hstop]. }
    destruct (assoc vendor impls) as [vendor_impl |] eqn:Ea;
      [| eapply Hskip; [| exact H]; reflexivity].
    destruct (run_vendor_methods behaviour vendor (vendor_methods_of vendor_impl) a [] s)
      as [vr s1] eqn:Er.
    apply run_vendor_methods_values in Er as (vr' & -> & Hlen & Hvals). cbn [app] in *.
    destruct vr' as [| r vr]; [eapply Hskip; [| exact H]; reflexivity |].
    destruct (should_fallback_due_to_invalid_data method (r :: vr));
      [eapply Hskip; [| exact H]; reflexivity |].
    assert (Hmine : Forall (returned_by_an_adapter behaviour impls a (vendor :: plan))
                      (r :: vr)).
    { eapply List.Forall_impl; [| exact Hvals].
      intros v (f & w & w' & Hf & Hv). exists vendor, vendor_impl, f, w, w'.
      split; [now left | auto]. }
    destruct (stop_after_first_success method primary_vendors) eqn:Estop.
    + injection H as <- _. exists (r :: vr). split; [reflexivity |].
      split; [exact Hmine |]. intros _. right. eauto.
    + apply IH in H as (more & Hm & Hall & _). cbn [results] in Hm.
      exists ((r :: vr) ++ more). split; [now rewrite app_assoc |].
      split; [| discriminate].
      apply Forall_app. split; [exact Hmine | now apply returned_by_an_adapter_cons].
Qed.

End Values.

(** X4.  A call never invents a value: when it returns, it returns either
    the one value it accepted, which an adapter of a registered provider of
    the plan returned for the arguments of the call, or the text that joins
    with newlines the texts of two or more such values. *)
Theorem returned_value_comes_from_adapters
    {W : Type} (behaviour : Adapter -> CallArgs -> W -> Outcome Value * W)
    (config : Config) (method category : string)
    (impls : list (string * VendorImpl)) (a : CallArgs) (s : Sys) (v : Value) :
  get_category_for_method method = Return category ->
  assoc method VENDOR_METHODS = Some impls ->
  let symbol := extract_symbol a in
  let primary_vendors := parse_vendors (get_vendor config category method symbol) in
  let fallback_vendors := build_fallback_vendors config impls symbol primary_vendors in
  fst (route_to_vendor behaviour config method a s) = Return v ->
  returned_by_an_adapter behaviour impls a fallback_vendors v
  \/ exists accepted,
       2 <= length accepted
       /\ Forall (returned_by_an_adapter behaviour impls a fallback_vendors) accepted
       /\ v = VStr (PyStr.join PyStr.newline (map py_str accepted)).
Proof.
  intros Hc Hi symbol primary_vendors fallback_vendors.
  unfold route_to_vendor. rewrite Hc, Hi. unfold execute.
  fold symbol. fold primary_vendors. fold fallback_vendors.
  destruct (vendor_loop behaviour method impls primary_vendors a fallback_vendors
              initial_locals s) as [l s1] eqn:El.
  apply vendor_loop_values in El as (more & Hm & Hall & _). cbn in Hm. subst more.
  unfold final_result. destruct (results l) as [| r [| r' rs]] eqn:Er; cbn [fst].
  - discriminate.
  - intros [= <-]. left. now inversion Hall.
  - intros [= <-]. right. exists (r :: r' :: rs). split; [simpl; lia |]. split; [exact Hall |].
    reflexivity.
Qed.

Lemma returned_value_comes_from_adapters_witness :
  returned_by_an_adapter akshare_is_down (impls_of "get_stock_data") (call_with "AAPL")
    ["akshare"; "yfinance"; "alpha_vantage"] (VStr "Date,Open,High,Low,Close")
  \/ exists accepted,
       2 <= length accepted
       /\ Forall (returned_by_an_adapter akshare_is_down (impls_of "get_stock_data")
                    (call_with "AAPL") ["akshare"; "yfinance"; "alpha_vantage"]) accepted
       /\ VStr "Date,Open,High,Low,Close"
          = VStr (PyStr.join PyStr.newline (map py_str accepted)).
Proof.
  exact (returned_value_comes_from_adapters akshare_is_down DEFAULT_CONFIG
           "get_stock_data" "core_stock_apis" (impls_of "get_stock_data")
           (call_with "AAPL") (start 0) (VStr "Date,Open,High,Low,Close")
           eq_refl eq_refl eq_refl).
Defined.

Lemma single_result_impls (method : string) (impls : list (string * VendorImpl)) :
  py_in method SINGLE_RESULT_METHODS = true ->
  assoc method VENDOR_METHODS = Some impls ->
  forall vendor vendor_impl,
    assoc vendor impls = Some vendor_impl -> length (vendor_methods_of vendor_impl) = 1.
Proof.
  intros Hm Hi vendor vendor_impl Ha. apply py_in_In in Hm. apply assoc_In in Ha.
  destruct Hm as [<- | [<- | []]]; vm_compute in Hi; injection Hi as <-;
    simpl in Ha; repeat (destruct Ha as [[= <- <-] | Ha]; [reflexivity |]); contradiction.
Qed.

(** X5.  For [get_stock_data] and [get_indicators] a call accepts at most
    one value, so what it returns is never a concatenation: it is the very
    value one adapter returned. *)
Theorem single_result_methods_return_one_adapter_value
    {W : Type} (behaviour : Adapter -> CallArgs -> W -> Outcome Value * W)
    (config : Config) (method category : string)
    (impls : list (string * VendorImpl)) (a : CallArgs) (s : Sys) :
  py_in method SINGLE_RESULT_METHODS = true ->
  get_category_for_method method = Return category ->
  assoc method VENDOR_METHODS = Some impls ->
  let symbol := extract_symbol a in
  let primary_vendors := parse_vendors (get_vendor config category method symbol) in
  let fallback_vendors := build_fallback_vendors config impls symbol primary_vendors in
  let run := execute behaviour config method category impls a s in
  length (results (fst run)) <= 1
  /\ (forall v,
         fst (route_to_vendor behaviour config method a s) = Return v ->
         results (fst run) = [v]
         /\ returned_by_an_adapter behaviour impls a fallback_vendors v).
Proof.
  intros Hm Hc Hi symbol primary_vendors fallback_vendors run.
  assert (Hrun : run = vendor_loop behaviour method impls primary_vendors a
                         fallback_vendors initial_locals s) by reflexivity.
  assert (Hout : fst (route_to_vendor behaviour config method a s)
                 = fst (final_result method (fst run) (snd run))).
  { unfold route_to_vendor. rewrite Hc, Hi. fold run. now destruct run. }
  destruct run as [l s1]. cbn [fst snd] in *. symmetry in Hrun.
  apply vendor_loop_values in Hrun as (more & Hmore & Hall & Hstop). cbn in Hmore.
  subst more.
  assert (Hlen : length (results l) <= 1).
  { destruct Hstop as [-> | (vendor & vendor_impl & Ha & Hl)].
    - unfold stop_after_first_success. rewrite Hm. apply orb_true_r.
    - simpl. lia.
    - rewrite (single_result_impls _ _ Hm Hi _ _ Ha) in Hl. exact Hl. }
  split; [exact Hlen |].
  intros v. rewrite Hout. unfold final_result.
  destruct (results l) as [| r [| r' rs]]; cbn [fst].
  - discriminate.
  - intros [= <-]. split; [reflexivity | now inversion Hall].
  - simpl in Hlen. lia.
Qed.

Lemma single_result_methods_return_one_adapter_value_witness :
  length (results (fst (execute akshare_on_holiday DEFAULT_CONFIG "get_indicators"
                          "technical_indicators" (impls_of "get_indicators")
                          (call_with "AAPL") (start 0)))) <= 1.
Proof.
  exact (proj1 (single_result_methods_return_one_adapter_value akshare_on_holiday
                  DEFAULT_CONFIG "get_indicators" "technical_indicators"
                  (impls_of "get_indicators") (call_with "AAPL") (start 0)
                  eq_refl eq_refl eq_refl)).
Defined.

(** ** The class of an exception only shows in the log *)

Section Simulation.

Context {W : Type}.
Variables b1 b2 : Adapter -> CallArgs -> W -> Outcome Value * W.
Hypothesis Hsame : same_up_to_exceptions b1 b2.

Lemma same_effects_print (line1 line2 : LogLine) (s1 s2 : @Sys W) :
  same_effects s1 s2 -> same_effects (print line1 s1) (print line2 s2).
Proof. intros [Hw Hc]. split; assumption. Qed.

Lemma same_effects_print_l (line : LogLine) (s1 s2 : @Sys W) :
  same_effects s1 s2 -> same_effects (print line s1) s2.
Proof. intros [Hw Hc]. split; assumption. Qed.

Lemma same_effects_print_r (line : LogLine) (s1 s2 : @Sys W) :
  same_effects s1 s2 -> same_effects s1 (print line s2).
Proof. intros [Hw Hc]. split; assumption. Qed.

Lemma same_effects_handle
    (vendor : string) (f : Adapter) (e1 e2 : Exn) (s1 s2 : @Sys W) :
  same_effects s1 s2 ->
  same_effects (handle_exception vendor f e1 s1) (handle_exception vendor f e2 s2).
Proof.
  intros [Hw Hc]. split.
  - now rewrite !world_handle_exception.
  - now rewrite !calls_handle_exception.
Qed.

Lemma run_vendor_methods_sim
    (vendor : string) (fs : list Adapter) (a : CallArgs) (vr : list Value)
    (s1 s2 : Sys) :
  same_effects s1 s2 ->
  fst (run_vendor_methods b1 vendor fs a vr s1)
  = fst (run_vendor_methods b2 vendor fs a vr s2)
  /\ same_effects (snd (run_vendor_methods b1 vendor fs a vr s1))
                  (snd (run_vendor_methods b2 vendor fs a vr s2)).
Proof.
  revert vr s1 s2.
  induction fs as [| f fs IH]; intros vr s1 s2 Hs; cbn [run_vendor_methods].
  - split; [reflexivity | exact Hs].
  - unfold invoke. destruct Hs as [Hw Hc]. rewrite Hw, Hc.
    pose proof (Hsame f a (world s2)) as Hf.
    destruct (b1 f a (world s2)) as [[v1 | e1] w1], (b2 f a (world s2)) as [[v2 | e2] w2];
      try contradiction.
    + destruct Hf as [-> ->]. apply IH. split; reflexivity.
    + subst w2. apply IH. apply same_effects_handle. split; reflexivity.
Qed.

Lemma vendor_loop_sim
    (method : string) (impls : list (string * VendorImpl))
    (primary_vendors : list string) (a : CallArgs)
    (fallback_vendors : list string) (l : Locals) (s1 s2 : Sys) :
  same_effects s1 s2 ->
  fst (vendor_loop b1 method impls primary_vendors a fallback_vendors l s1)
  = fst (vendor_loop b2 method impls primary_vendors a fallback_vendors l s2)
  /\ same_effects (snd (vendor_loop b1 method impls primary_vendors a fallback_vendors l s1))
                  (snd (vendor_loop b2 method impls primary_vendors a fallback_vendors l s2)).
Proof.
  revert l s1 s2.
  induction fallback_vendors as [| vendor plan IH]; intros l s1 s2 Hs; cbn [vendor_loop].
  - split; [reflexivity | exact Hs].
  - destruct (assoc vendor impls) as [vendor_impl |].
    + destruct (run_vendor_methods_sim vendor (vendor_methods_of vendor_impl) a [] s1 s2 Hs)
        as [Hvr Hs'].
      destruct (run_vendor_methods b1 vendor (vendor_methods_of vendor_impl) a [] s1)
        as [vr1 s1'].
      destruct (run_vendor_methods b2 vendor (vendor_methods_of vendor_impl) a [] s2)
        as [vr2 s2'].
      cbn [fst snd] in Hvr, Hs'. subst vr2.
      destruct vr1 as [| r vr]; [apply IH; now apply same_effects_print |].
      destruct (should_fallback_due_to_invalid_data method (r :: vr));
        [apply IH; now repeat apply same_effects_print |].
      destruct (stop_after_first_success method primary_vendors).
      * split; [reflexivity | now apply same_effects_print].
      * apply IH. now apply same_effects_print.
    + apply IH. destruct (py_in vendor primary_vendors); [| exact Hs].
      now apply same_effects_print.
Qed.

End Simulation.

(** X6.  Which exception an adapter raises (its class, its message, and so
    whether it counts as a rate limit, a network failure or another
    failure) changes nothing but the lines printed: two runs in which the
    adapters fail at the same calls, with whatever exceptions, end with the
    same outcome, the same world and the same adapter invocations. *)
Theorem exception_class_only_changes_the_log
    {W : Type} (b1 b2 : Adapter -> CallArgs -> W -> Outcome Value * W)
    (config : Config) (method : string) (a : CallArgs) (s : Sys) :
  same_up_to_exceptions b1 b2 ->
  let run1 := route_to_vendor b1 config method a s in
  let run2 := route_to_vendor b2 config method a s in
  fst run1 = fst run2
  /\ world (snd run1) = world (snd run2)
  /\ calls (snd run1) = calls (snd run2).
Proof.
  intros Hsame run1 run2. subst run1 run2. unfold route_to_vendor.
  destruct (get_category_for_method method) as [category | e]; [| auto].
  destruct (assoc method VENDOR_METHODS) as [impls |]; [| auto].
  unfold execute.
  set (primary := parse_vendors (get_vendor config category method (extract_symbol a))).
  set (plan := build_fallback_vendors config impls (extract_symbol a) primary).
  destruct (vendor_loop_sim b1 b2 Hsame method impls primary a plan initial_locals s s
              (conj eq_refl eq_refl)) as [Hl [Hw Hc]].
  destruct (vendor_loop b1 method impls primary a plan initial_locals s) as [l1 s1].
  destruct (vendor_loop b2 method impls primary a plan initial_locals s) as [l2 s2].
  cbn [fst snd] in Hl, Hw, Hc. subst l2. unfold final_result.
  destruct (results l1) as [| r [| r' rs]]; cbn; auto.
Qed.

Lemma exception_class_only_changes_the_log_witness :
  let run1 := route_to_vendor akshare_is_down DEFAULT_CONFIG "get_stock_data"
                (call_with "AAPL") (start 0) in
  let run2 := route_to_vendor akshare_is_rate_limited DEFAULT_CONFIG "get_stock_data"
                (call_with "AAPL") (start 0) in
  fst run1 = fst run2
  /\ world (snd run1) = world (snd run2)
  /\ calls (snd run1) = calls (snd run2).
Proof.
  refine (exception_class_only_changes_the_log akshare_is_down akshare_is_rate_limited
            DEFAULT_CONFIG "get_stock_data" (call_with "AAPL") (start 0) _).
  intros f a w. destruct f; simpl; auto.
Defined.

(** ** Splitting and joining provider lists *)

Lemma split_not_nil (sep : ascii) (s : string) : PyStr.split sep s <> [].
Proof.
  destruct s as [| a s]; simpl; [discriminate |].
  destruct (Ascii.eqb a sep); [discriminate |].
  destruct (PyStr.split sep s); discriminate.
Qed.

Lemma split_app (sep : ascii) (s t : string) :
  PyStr.split sep (s +:+ String sep t) = PyStr.split sep s ++ PyStr.split sep t.
Proof.
  induction s as [| a s IH]; simpl.
  - now rewrite Ascii.eqb_refl.
  - destruct (Ascii.eqb a sep); [now rewrite IH |].
    rewrite IH. pose proof (split_not_nil sep s) as Hn.
    destruct (PyStr.split sep s); [contradiction | reflexivity].
Qed.

Lemma parse_vendors_app (primary fallback : string) :
  parse_vendors (primary +:+ "," +:+ fallback)
  = parse_vendors primary ++ parse_vendors fallback.
Proof.
  unfold parse_vendors.
  change (primary +:+ "," +:+ fallback) with (primary +:+ String ","%char fallback).
  rewrite split_app. apply map_app.
Qed.

(** X7.  When a market-specific entry answers, the configured providers
    are those of its [primary] in their order, followed by those of its
    [fallback] in their order: joining the two with a comma in [get_vendor]
    and splitting at the commas in [route_to_vendor] loses nothing. *)
Theorem market_entry_providers_keep_their_order
    (config : Config) (category method s : string)
    (market_config : gmap string string) :
  s <> EmptyString ->
  market_vendors config !! MarketIdentifier.identify_market s = Some market_config ->
  let primary := default EmptyString (market_config !! "primary") in
  let fallback := default EmptyString (market_config !! "fallback") in
  primary <> EmptyString \/ fallback <> EmptyString ->
  parse_vendors (get_vendor config category method (Some s))
  = providers_of_entry primary fallback.
Proof.
  intros Hs Hm primary fallback Hpf.
  assert (Hl : market_layer config (Some s) = Some (concat_skip_empty primary fallback)).
  { unfold market_layer. apply truthy_iff in Hs. rewrite Hs. cbn zeta.
    change (mi_market (get_market_info s)) with (MarketIdentifier.identify_market s).
    rewrite Hm. fold primary. fold fallback. unfold concat_skip_empty.
    destruct primary as [| c1 p], fallback as [| c2 f]; cbn; try reflexivity.
    destruct Hpf; contradiction. }
  unfold get_vendor. rewrite Hl. unfold concat_skip_empty, providers_of_entry.
  destruct primary as [| c1 p], fallback as [| c2 f]; cbn [List.filter PyStr.truthy PyStr.join].
  - destruct Hpf; contradiction.
  - reflexivity.
  - now rewrite app_nil_r.
  - apply parse_vendors_app.
Qed.

Lemma market_entry_providers_keep_their_order_witness :
  parse_vendors (get_vendor DEFAULT_CONFIG "core_stock_apis" "get_stock_data"
                   (Some "600000"))
  = ["akshare"; "baostock"; "yfinance"].
Proof.
  refine (market_entry_providers_keep_their_order DEFAULT_CONFIG "core_stock_apis"
            "get_stock_data" "600000"
            {[ "primary" := "akshare"; "fallback" := "baostock,yfinance" ]}
            _ eq_refl _).
  - discriminate.
  - left. vm_compute. discriminate.
Defined.

Lemma split_length_one (sep : ascii) (s : string) :
  length (PyStr.split sep s) = 1
  <-> PyStr.contains (String sep EmptyString) s = false.
Proof.
  induction s as [| a s IH].
  - simpl. tauto.
  - cbn [PyStr.split PyStr.contains String.prefix].
    destruct (Ascii.eqb_spec a sep) as [-> | Hne].
    + destruct (ascii_dec sep sep); [| contradiction].
      pose proof (split_not_nil sep s) as Hn.
      destruct (PyStr.split sep s); [contradiction |].
      destruct s; simpl; split; intros H; discriminate || lia.
    + destruct (ascii_dec sep a) as [-> | _]; [contradiction |].
      cbn [orb]. rewrite <- IH.
      pose proof (split_not_nil sep s) as Hn.
      destruct (PyStr.split sep s); [contradiction | reflexivity].
Qed.

(** X8.  For a method other than [get_stock_data] and [get_indicators],
    the loop stops after the first accepted provider exactly when the
    configured provider string holds no comma: any comma, even a trailing
    one, turns aggregation over the whole plan on. *)
Theorem aggregation_is_decided_by_a_comma (method vendor_config : string) :
  py_in method SINGLE_RESULT_METHODS = false ->
  stop_after_first_success method (parse_vendors vendor_config)
  = negb (PyStr.contains "," vendor_config).
Proof.
  intros Hm. unfold stop_after_first_success, parse_vendors. rewrite Hm, orb_false_r.
  rewrite length_map.
  pose proof (split_length_one "," vendor_config) as H.
  destruct (PyStr.contains "," vendor_config).
  - apply Nat.eqb_neq. intros Hl. apply H in Hl. discriminate.
  - apply Nat.eqb_eq. now apply H.
Qed.

Lemma aggregation_is_decided_by_a_comma_witness :
  stop_after_first_success "get_news" (parse_vendors "akshare,") = false.
Proof.
  exact (aggregation_is_decided_by_a_comma "get_news" "akshare," eq_refl).
Defined.

(** ** The counts of the quality gate *)

Lemma scan_line_add (c : Counts) (line : string) :
  scan_line c line = add_counts c (scan_line no_counts line).
Proof.
  rewrite (scan_line_counts c line), (scan_line_counts no_counts line).
  unfold add_counts. cbn. reflexivity.
Qed.

Lemma add_counts_assoc (c1 c2 c3 : Counts) :
  add_counts (add_counts c1 c2) c3 = add_counts c1 (add_counts c2 c3).
Proof. unfold add_counts. cbn. f_equal; lia. Qed.

Lemma add_counts_comm (c1 c2 : Counts) : add_counts c1 c2 = add_counts c2 c1.
Proof. unfold add_counts. f_equal; lia. Qed.

Lemma add_no_counts (c : Counts) : add_counts c no_counts = c.
Proof. destruct c. unfold add_counts. cbn. f_equal; lia. Qed.

Lemma fold_scan_line_add (lines : list string) (c : Counts) :
  fold_left scan_line lines c = add_counts c (fold_left scan_line lines no_counts).
Proof.
  revert c. induction lines as [| line lines IH]; intros c; cbn [fold_left].
  - now rewrite add_no_counts.
  - rewrite (IH (scan_line c line)), (IH (scan_line no_counts line)).
    rewrite (scan_line_add c line). apply add_counts_assoc.
Qed.

Lemma scan_lines_app (s t : string) :
  scan_lines (s +:+ PyStr.newline +:+ t) = add_counts (scan_lines s) (scan_lines t).
Proof.
  unfold scan_lines.
  change (s +:+ PyStr.newline +:+ t) with (s +:+ String PyStr.LF t).
  rewrite split_app, fold_left_app. apply fold_scan_line_add.
Qed.

Lemma invalid_of_counts (s : string) :
  s <> EmptyString -> _is_indicator_result_invalid s = rejects (scan_lines s).
Proof.
  intros Hs. unfold _is_indicator_result_invalid, rejects.
  destruct s; [contradiction |]. cbn [PyStr.truthy negb].
  now destruct (Nat.eqb (date_line_count (scan_lines (String a s))) 0).
Qed.

Lemma app_newline_not_empty (s t : string) : s +:+ PyStr.newline +:+ t <> EmptyString.
Proof. destruct s; discriminate. Qed.

(** X9.  The counts of a report are the sums of the counts of its parts:
    for two texts put one after the other on separate lines, the date lines
    and the valid lines add up.  The verdict on the whole is therefore the
    same in either order, and a part without any date line (a header, a
    description) does not change the verdict on the rest. *)
Theorem counts_of_a_report_add_up (s t : string) :
  scan_lines (s +:+ PyStr.newline +:+ t) = add_counts (scan_lines s) (scan_lines t)
  /\ _is_indicator_result_invalid (s +:+ PyStr.newline +:+ t)
     = _is_indicator_result_invalid (t +:+ PyStr.newline +:+ s)
  /\ (date_line_count (scan_lines t) = 0 ->
      s <> EmptyString ->
      _is_indicator_result_invalid (s +:+ PyStr.newline +:+ t)
      = _is_indicator_result_invalid s
      /\ _is_indicator_result_invalid (t +:+ PyStr.newline +:+ s)
         = _is_indicator_result_invalid s).
Proof.
  split; [apply scan_lines_app |]. split.
  - rewrite !invalid_of_counts by apply app_newline_not_empty.
    now rewrite !scan_lines_app, add_counts_comm.
  - intros Ht Hs.
    assert (Hz : scan_lines t = no_counts).
    { pose proof (scan_lines_valid_le_dates t) as Hle.
      destruct (scan_lines t) as [v d]. cbn in *. subst d.
      assert (v = 0) as -> by lia. reflexivity. }
    rewrite !invalid_of_counts by (apply app_newline_not_empty || exact Hs).
    rewrite !scan_lines_app, Hz, add_no_counts.
    rewrite (add_counts_comm no_counts), add_no_counts. split; reflexivity.
Qed.

Lemma counts_of_a_report_add_up_witness :
  _is_indicator_result_invalid
    (report_4_of_10 +:+ PyStr.newline +:+ "RSI: measures momentum")
  = _is_indicator_result_invalid report_4_of_10.
Proof.
  refine (proj1 (proj2 (proj2 (counts_of_a_report_add_up report_4_of_10
                                 "RSI: measures momentum")) _ _)).
  - vm_compute. reflexivity.
  - discriminate.
Defined.

(** X10.  Whether the value of a date line parses as a number has no
    influence on the counts: a line is counted as valid data exactly when
    it is a date line whose value is not empty and holds none of the
    no-data keywords.  Hence the valid lines of a report never outnumber its
    date lines. *)
Theorem number_parsing_does_not_change_the_counts (c : Counts) (line : string) :
  scan_line c line
  = add_counts c
      {| valid_data_count :=
           if is_date_line line && negb (has_no_data_keyword (line_value line))
              && PyStr.truthy (line_value line)
           then 1 else 0;
         date_line_count := if is_date_line line then 1 else 0 |}
  /\ forall result_content,
       valid_data_count (scan_lines result_content)
       <= date_line_count (scan_lines result_content).
Proof.
  split; [| apply scan_lines_valid_le_dates].
  rewrite scan_line_counts. reflexivity.
Qed.

(** ** The handlers of the vendor modules and the router *)

Lemma lower_app (s t : string) : PyStr.lower (s +:+ t) = PyStr.lower s +:+ PyStr.lower t.
Proof.
  unfold PyStr.lower. induction s as [| a s IH]; simpl; [reflexivity | now rewrite IH].
Qed.

Lemma contains_app_r (needle before hay : string) :
  PyStr.contains needle hay = true -> PyStr.contains needle (before +:+ hay) = true.
Proof.
  intros H. induction before as [| c before IH]; [exact H |].
  change (PyStr.contains needle (String c (before +:+ hay)) = true).
  cbn [PyStr.contains]. rewrite IH. apply orb_true_r.
Qed.

Lemma existsb_contains_app_r (keywords : list string) (before hay : string) :
  existsb (fun keyword => PyStr.contains keyword hay) keywords = true ->
  existsb (fun keyword => PyStr.contains keyword (before +:+ hay)) keywords = true.
Proof.
  rewrite !existsb_exists. intros (k & Hin & Hk). exists k.
  split; [exact Hin | now apply contains_app_r].
Qed.

Lemma startswith_app (p s : string) : PyStr.startswith p (p +:+ s) = true.
Proof. apply prefix_app. Qed.

(** X11.  An error that [handle_akshare_exception] raises again is always
    sorted by the router with the network failures, whatever its text; one
    that [handle_baostock_exception] raises again is, as soon as the
    original text holds one of the router's network keywords.  The text
    either handler returns instead starts with [Error], so
    [create_fallback_response] never passes it on as a fallback result. *)
Theorem handlers_and_router_agree
    (e operation primary_error : string) (symbol : option string) :
  (forall x, handle_akshare_exception e operation symbol = Raise x ->
             classify x = NetworkFailure)
  /\ (forall x, handle_baostock_exception e operation symbol = Raise x ->
                existsb (fun keyword => PyStr.contains keyword (PyStr.lower e))
                        NETWORK_KEYWORDS = true ->
                classify x = NetworkFailure)
  /\ (forall r, handle_akshare_exception e operation symbol = Return r
                \/ handle_baostock_exception e operation symbol = Return r ->
                create_fallback_response primary_error (Some r) = primary_error).
Proof.
  split; [| split].
  - intros x. unfold handle_akshare_exception.
    destruct (existsb _ AKSHARE_NETWORK_KEYWORDS); [| discriminate].
    intros [= <-]. unfold classify. cbn [exn_class exn_msg].
    rewrite lower_app.
    replace (existsb _ NETWORK_KEYWORDS) with true; [reflexivity |].
    symmetry. apply existsb_exists. exists "network". split; [simpl; auto |].
    apply contains_prefix. reflexivity.
  - intros x. unfold handle_baostock_exception.
    destruct (existsb _ BAOSTOCK_FALLBACK_KEYWORDS); [| discriminate].
    intros [= <-] Hk. unfold classify. cbn [exn_class exn_msg].
    replace (existsb _ NETWORK_KEYWORDS) with true; [reflexivity |].
    symmetry.
    repeat rewrite lower_app.
    repeat apply existsb_contains_app_r. exact Hk.
  - intros r Hr. unfold create_fallback_response.
    assert (Hstart : PyStr.startswith "Error" r = true).
    { destruct Hr as [Hr | Hr];
        [unfold handle_akshare_exception in Hr | unfold handle_baostock_exception in Hr];
        destruct (existsb _ _); try discriminate; injection Hr as <-; reflexivity. }
    rewrite Hstart. now rewrite andb_false_r.
Qed.

Lemma handlers_and_router_agree_witness :
  classify (mkExn OtherException
              "Network error fetching stock data for 600000: Server disconnected")
  = NetworkFailure.
Proof.
  exact (proj1 (handlers_and_router_agree "Server disconnected" "fetching stock data"
                  "primary failed" (Some "600000")) _ eq_refl).
Defined.

(** ** Market support as the vendor modules check it *)

Lemma identify_market_range (symbol : string) :
  In (MarketIdentifier.identify_market symbol)
     ["A_STOCK"; "HK_STOCK"; "US_STOCK"; "UNKNOWN"].
Proof.
  unfold MarketIdentifier.identify_market.
  repeat match goal with |- context [if ?b then _ else _] => destruct b end;
    simpl; auto.
Qed.

(** X12.  [validate_market_support] of the akshare module accepts a symbol
    exactly when its market is not [UNKNOWN]; that of the baostock module
    exactly when its market is [A_STOCK].  An accepted symbol comes back
    with its market and market information; a refused one raises an error
    that names the market. *)
Theorem validate_market_support_accepts (symbol operation : string) :
  let market := MarketIdentifier.identify_market symbol in
  (market <> "UNKNOWN" ->
   akshare_validate_market_support symbol operation
   = Return (market, get_market_info symbol))
  /\ (market = "UNKNOWN" ->
      akshare_validate_market_support symbol operation
      = Raise (mkExn OtherException
                 ("Market UNKNOWN is not supported by AKShare for " +:+ operation)))
  /\ (market = "A_STOCK" ->
      baostock_validate_market_support symbol operation
      = Return (market, get_market_info symbol))
  /\ (market <> "A_STOCK" ->
      baostock_validate_market_support symbol operation
      = Raise (mkExn OtherException
                 ("Market " +:+ market +:+ " is not supported by BaoStock for "
                  +:+ operation +:+ " (A-shares only)"))).
Proof.
  intros market.
  unfold akshare_validate_market_support, baostock_validate_market_support,
    MarketIdentifier.is_market_supported.
  change (mi_market (get_market_info symbol)) with market.
  fold market. pose proof (identify_market_range symbol) as Hr. fold market in Hr.
  simpl in Hr.
  destruct Hr as [E | [E | [E | [E | []]]]]; rewrite <- E;
    repeat split; intros H; try reflexivity; try congruence; try discriminate.
Qed.

Lemma validate_market_support_accepts_witness :
  baostock_validate_market_support "0700.HK" "stock data"
  = Raise (mkExn OtherException
             "Market HK_STOCK is not supported by BaoStock for stock data (A-shares only)").
Proof.
  refine (proj2 (proj2 (proj2 (validate_market_support_accepts "0700.HK" "stock data"))) _).
  vm_compute. discriminate.
Defined.

(** ** Symbols are read without regard to case and surrounding blanks *)

Lemma isspace_upper_char (a : ascii) :
  PyStr.isspace (PyStr.upper_char a) = PyStr.isspace a.
Proof. destruct a as [[] [] [] [] [] [] [] []]; reflexivity. Qed.

Lemma upper_char_idem (a : ascii) :
  PyStr.upper_char (PyStr.upper_char a) = PyStr.upper_char a.
Proof. destruct a as [[] [] [] [] [] [] [] []]; reflexivity. Qed.

Lemma upper_lower_char (a : ascii) :
  PyStr.upper_char (PyStr.lower_char a) = PyStr.upper_char a.
Proof. destruct a as [[] [] [] [] [] [] [] []]; reflexivity. Qed.

Lemma upper_idem (s : string) : PyStr.upper (PyStr.upper s) = PyStr.upper s.
Proof.
  unfold PyStr.upper. induction s as [| a s IH]; simpl; [reflexivity |].
  now rewrite upper_char_idem, IH.
Qed.

Lemma upper_lower (s : string) : PyStr.upper (PyStr.lower s) = PyStr.upper s.
Proof.
  unfold PyStr.upper, PyStr.lower. induction s as [| a s IH]; simpl; [reflexivity |].
  now rewrite upper_lower_char, IH.
Qed.

Lemma lstrip_upper (s : string) :
  PyStr.lstrip (PyStr.upper s) = PyStr.upper (PyStr.lstrip s).
Proof.
  unfold PyStr.upper. induction s as [| a s IH]; simpl; [reflexivity |].
  rewrite isspace_upper_char. destruct (PyStr.isspace a); [exact IH | reflexivity].
Qed.

Lemma rstrip_upper (s : string) :
  PyStr.rstrip (PyStr.upper s) = PyStr.upper (PyStr.rstrip s).
Proof.
  unfold PyStr.upper. induction s as [| a s IH]; simpl; [reflexivity |].
  rewrite IH, isspace_upper_char.
  destruct (PyStr.rstrip s); simpl; [destruct (PyStr.isspace a) |]; reflexivity.
Qed.

Lemma strip_upper (s : string) : PyStr.strip (PyStr.upper s) = PyStr.upper (PyStr.strip s).
Proof. unfold PyStr.strip. now rewrite lstrip_upper, rstrip_upper. Qed.

Lemma rstrip_idem (s : string) : PyStr.rstrip (PyStr.rstrip s) = PyStr.rstrip s.
Proof.
  induction s as [| a s IH]; simpl; [reflexivity |].
  destruct (PyStr.rstrip s) as [| b r] eqn:E.
  - destruct (PyStr.isspace a) eqn:Ea; simpl; [reflexivity | now rewrite Ea].
  - cbn [PyStr.rstrip]. cbn [PyStr.rstrip] in IH. rewrite IH. reflexivity.
Qed.

Lemma lstrip_head (s : string) :
  match PyStr.lstrip s with
  | EmptyString => True
  | String a _ => PyStr.isspace a = false
  end.
Proof.
  induction s as [| a s IH]; simpl; [exact I |].
  destruct (PyStr.isspace a) eqn:E; [exact IH | exact E].
Qed.

Lemma lstrip_rstrip_lstrip (s : string) :
  PyStr.lstrip (PyStr.rstrip (PyStr.lstrip s)) = PyStr.rstrip (PyStr.lstrip s).
Proof.
  pose proof (lstrip_head s) as H. destruct (PyStr.lstrip s) as [| a t]; [reflexivity |].
  cbn [PyStr.rstrip]. destruct (PyStr.rstrip t); rewrite ?H; cbn [PyStr.lstrip];
    rewrite H; reflexivity.
Qed.

Lemma strip_idem (s : string) : PyStr.strip (PyStr.strip s) = PyStr.strip s.
Proof.
  unfold PyStr.strip. rewrite lstrip_rstrip_lstrip. apply rstrip_idem.
Qed.

Lemma normalise_strip (s : string) :
  PyStr.strip (PyStr.upper (PyStr.strip s)) = PyStr.strip (PyStr.upper s).
Proof. now rewrite <- strip_upper, strip_idem. Qed.

Lemma identify_market_normalised (s t : string) :
  PyStr.strip (PyStr.upper s) = PyStr.strip (PyStr.upper t) ->
  MarketIdentifier.identify_market s = MarketIdentifier.identify_market t.
Proof. intros H. unfold MarketIdentifier.identify_market. now rewrite H. Qed.

Lemma format_symbol_normalised (s t vendor : string) (market : option string) :
  PyStr.strip (PyStr.upper s) = PyStr.strip (PyStr.upper t) ->
  MarketIdentifier.format_symbol_for_vendor s vendor market
  = MarketIdentifier.format_symbol_for_vendor t vendor market.
Proof.
  intros H. unfold MarketIdentifier.format_symbol_for_vendor.
  rewrite H. destruct market; [reflexivity |].
  now rewrite (identify_market_normalised s t H).
Qed.

(** X13.  The market identifier reads an ASCII symbol without regard to
    the case of its letters and to the blanks around it: changing either
    changes neither the market [identify_market] finds, nor the symbol
    [format_symbol_for_vendor] builds, nor whether a provider supports the
    symbol. *)
Theorem symbols_are_read_case_and_blank_insensitively
    (symbol vendor : string) (market : option string) (variant : string) :
  isascii symbol = true ->
  In variant [PyStr.upper symbol; PyStr.lower symbol; PyStr.strip symbol;
              PyStr.strip (PyStr.upper symbol)] ->
  MarketIdentifier.identify_market variant = MarketIdentifier.identify_market symbol
  /\ MarketIdentifier.format_symbol_for_vendor variant vendor market
     = MarketIdentifier.format_symbol_for_vendor symbol vendor market
  /\ MarketIdentifier.is_market_supported variant vendor
     = MarketIdentifier.is_market_supported symbol vendor.
Proof.
  intros _ Hv.
  assert (Hn : PyStr.strip (PyStr.upper variant) = PyStr.strip (PyStr.upper symbol)).
  { simpl in Hv. destruct Hv as [<- | [<- | [<- | [<- | []]]]].
    - now rewrite upper_idem.
    - now rewrite upper_lower.
    - apply normalise_strip.
    - now rewrite normalise_strip, upper_idem. }
  split; [now apply identify_market_normalised |].
  split; [now apply format_symbol_normalised |].
  unfold MarketIdentifier.is_market_supported.
  now rewrite (identify_market_normalised _ _ Hn).
Qed.

Lemma symbols_are_read_case_and_blank_insensitively_witness :
  MarketIdentifier.format_symbol_for_vendor "0700.hk" "akshare" None
  = MarketIdentifier.format_symbol_for_vendor "0700.HK" "akshare" None.
Proof.
  refine (proj1 (proj2 (symbols_are_read_case_and_blank_insensitively
                          "0700.HK" "akshare" None "0700.hk" eq_refl _))).
  right. left. reflexivity.
Defined.

(** ** What the patterns of the market identifier match *)

Lemma append_nil_l (s : string) : EmptyString +:+ s = s.
Proof. reflexivity. Qed.

Lemma append_cons (a : ascii) (s t : string) : String a s +:+ t = String a (s +:+ t).
Proof. reflexivity. Qed.

Lemma append_nil_r (s : string) : s +:+ EmptyString = s.
Proof. induction s as [| c s IH]; [reflexivity | rewrite append_cons; now rewrite IH]. Qed.

Lemma fullmatch_Never (s : string) : Re.fullmatch Re.Never s = false.
Proof. induction s; simpl; auto. Qed.

Lemma fullmatch_Eps (s : string) : Re.fullmatch Re.Eps s = true <-> s = EmptyString.
Proof.
  destruct s; simpl; [tauto |]. rewrite fullmatch_Never. split; discriminate.
Qed.

Lemma fullmatch_Alt (r1 r2 : Re.regex) (s : string) :
  Re.fullmatch (Re.Alt r1 r2) s = Re.fullmatch r1 s || Re.fullmatch r2 s.
Proof. revert r1 r2. induction s as [| a s IH]; intros r1 r2; simpl; auto. Qed.

Lemma fullmatch_nullable (r : Re.regex) : Re.fullmatch r EmptyString = Re.nullable r.
Proof. reflexivity. Qed.

Lemma fullmatch_Cat (r1 r2 : Re.regex) (s : string) :
  Re.fullmatch (Re.Cat r1 r2) s = true
  <-> exists s1 s2, s = s1 +:+ s2 /\ Re.fullmatch r1 s1 = true /\ Re.fullmatch r2 s2 = true.
Proof.
  revert r1 r2. induction s as [| a s IH]; intros r1 r2.
  - simpl. rewrite andb_true_iff. split.
    + intros [H1 H2]. exists EmptyString, EmptyString. auto.
    + intros (s1 & s2 & Hs & H1 & H2). destruct s1; [| discriminate].
      rewrite ?append_nil_l, ?append_cons in Hs. subst s2. auto.
  - cbn [Re.fullmatch Re.deriv]. destruct (Re.nullable r1) eqn:En.
    + rewrite fullmatch_Alt, orb_true_iff, IH. split.
      * intros [(s1 & s2 & -> & H1 & H2) | H].
        -- exists (String a s1), s2. auto.
        -- exists EmptyString, (String a s). auto.
      * intros (s1 & s2 & Hs & H1 & H2). destruct s1 as [| b s1].
        -- rewrite ?append_nil_l, ?append_cons in Hs. subst s2. right. exact H2.
        -- rewrite ?append_nil_l, ?append_cons in Hs. injection Hs as <- ->. left. exists s1, s2. auto.
    + rewrite IH. split.
      * intros (s1 & s2 & -> & H1 & H2). exists (String a s1), s2. auto.
      * intros (s1 & s2 & Hs & H1 & H2). destruct s1 as [| b s1].
        -- simpl in H1. congruence.
        -- rewrite ?append_nil_l, ?append_cons in Hs. injection Hs as <- ->. exists s1, s2. auto.
Qed.

Lemma fullmatch_Rng (lo hi : ascii) (s : string) :
  Re.fullmatch (Re.Rng lo hi) s = true
  <-> exists a, s = String a EmptyString /\ PyStr.in_range lo hi a = true.
Proof.
  destruct s as [| a s]; simpl.
  - split; [discriminate | intros (a & [=] & _)].
  - destruct (PyStr.in_range lo hi a) eqn:E.
    + rewrite fullmatch_Eps. split.
      * intros ->. eauto.
      * intros (b & [= -> ->] & _). reflexivity.
    + rewrite fullmatch_Never. split; [discriminate |].
      intros (b & [= -> ->] & Hb). congruence.
Qed.

Lemma fullmatch_Rng_Cat (lo hi : ascii) (r : Re.regex) (s : string) :
  Re.fullmatch (Re.Cat (Re.Rng lo hi) r) s = true
  <-> exists a s', s = String a s' /\ PyStr.in_range lo hi a = true
                   /\ Re.fullmatch r s' = true.
Proof.
  rewrite fullmatch_Cat. split.
  - intros (s1 & s2 & -> & H1 & H2). apply fullmatch_Rng in H1 as (a & -> & Ha).
    exists a, s2. auto.
  - intros (a & s' & -> & Ha & Hr). exists (String a EmptyString), s'.
    split; [reflexivity |]. split; [| exact Hr]. apply fullmatch_Rng. eauto.
Qed.

Lemma fullmatch_Str (p s : string) : Re.fullmatch (Re.Str p) s = true <-> s = p.
Proof.
  revert s. induction p as [| c p IH]; intros s; cbn [Re.Str].
  - apply fullmatch_Eps.
  - unfold Re.Lit. rewrite fullmatch_Rng_Cat. split.
    + intros (a & s' & -> & Ha & Hs). apply IH in Hs. subst s'.
      unfold PyStr.in_range in Ha. apply andb_prop in Ha as [H1 H2].
      apply N.leb_le in H1, H2. f_equal.
      assert (N_of_ascii a = N_of_ascii c) by lia.
      rewrite <- (ascii_N_embedding a), <- (ascii_N_embedding c). congruence.
    + intros ->. exists c, p. split; [reflexivity |]. split; [| now apply IH].
      unfold PyStr.in_range. rewrite N.leb_refl. reflexivity.
Qed.

Lemma fullmatch_Times_Rng (n : nat) (lo hi : ascii) (s : string) :
  Re.fullmatch (Re.Times n (Re.Rng lo hi)) s = true
  <-> String.length s = n /\ all_in lo hi s = true.
Proof.
  revert s. induction n as [| n IH]; intros s; cbn [Re.Times].
  - rewrite fullmatch_Eps. split.
    + intros ->. auto.
    + intros [H _]. destruct s; [reflexivity | discriminate].
  - rewrite fullmatch_Rng_Cat. split.
    + intros (a & s' & -> & Ha & Hs). apply IH in Hs as [Hl Hall].
      simpl. rewrite Ha, Hall, Hl. auto.
    + intros [Hl Hall]. destruct s as [| a s']; [discriminate |].
      simpl in Hl, Hall. apply andb_prop in Hall as [Ha Hall].
      exists a, s'. split; [reflexivity |]. split; [exact Ha |].
      apply IH. split; [lia | exact Hall].
Qed.

Lemma fullmatch_Star_Rng (lo hi : ascii) (s : string) :
  Re.fullmatch (Re.Star (Re.Rng lo hi)) s = all_in lo hi s.
Proof.
  induction s as [| a s IH]; [reflexivity |].
  cbn [Re.fullmatch Re.deriv all_in Re.nullable].
  destruct (PyStr.in_range lo hi a); cbn [andb].
  - rewrite <- IH. apply eq_true_iff_eq. rewrite fullmatch_Cat. split.
    + intros (s1 & s2 & -> & H1 & H2). apply fullmatch_Eps in H1. now subst s1.
    + intros H. exists EmptyString, s. auto.
  - apply not_true_is_false. rewrite fullmatch_Cat.
    intros (s1 & s2 & _ & H1 & _). rewrite fullmatch_Never in H1. discriminate.
Qed.

Lemma fullmatch_Plus_Rng (lo hi : ascii) (s : string) :
  Re.fullmatch (Re.Plus (Re.Rng lo hi)) s = true
  <-> s <> EmptyString /\ all_in lo hi s = true.
Proof.
  unfold Re.Plus. rewrite fullmatch_Rng_Cat. split.
  - intros (a & s' & -> & Ha & Hs). rewrite fullmatch_Star_Rng in Hs.
    split; [discriminate |]. simpl. now rewrite Ha, Hs.
  - intros [Hne Hall]. destruct s as [| a s']; [contradiction |].
    simpl in Hall. apply andb_prop in Hall as [Ha Hall].
    exists a, s'. rewrite fullmatch_Star_Rng. auto.
Qed.

Lemma fullmatch_UpTo_Rng (n : nat) (lo hi : ascii) (s : string) :
  Re.fullmatch (Re.UpTo n (Re.Rng lo hi)) s = true
  <-> String.length s <= n /\ all_in lo hi s = true.
Proof.
  revert s. induction n as [| n IH]; intros s; cbn [Re.UpTo].
  - rewrite fullmatch_Eps. split.
    + intros ->. auto.
    + intros [H _]. destruct s; [reflexivity | simpl in H; lia].
  - unfold Re.Opt. rewrite fullmatch_Alt, orb_true_iff, fullmatch_Eps, fullmatch_Rng_Cat.
    split.
    + intros [-> | (a & s' & -> & Ha & Hs)]; [simpl; split; [lia | reflexivity] |].
      apply IH in Hs as [Hl Hall]. simpl. rewrite Ha, Hall. split; [lia | reflexivity].
    + intros [Hl Hall]. destruct s as [| a s']; [now left | right].
      simpl in Hl, Hall. apply andb_prop in Hall as [Ha Hall].
      exists a, s'. split; [reflexivity |]. split; [exact Ha |].
      apply IH. split; [lia | exact Hall].
Qed.

Lemma all_in_app (lo hi : ascii) (s t : string) :
  all_in lo hi (s +:+ t) = all_in lo hi s && all_in lo hi t.
Proof.
  induction s as [| a s IH]; [reflexivity |].
  rewrite append_cons. cbn [all_in]. now rewrite IH, andb_assoc.
Qed.

Lemma length_append (s t : string) :
  String.length (s +:+ t) = String.length s + String.length t.
Proof.
  induction s as [| a s IH]; [reflexivity |].
  rewrite append_cons. cbn [String.length]. now rewrite IH.
Qed.

Lemma substring_full (s : string) : String.substring 0 (String.length s) s = s.
Proof. induction s as [| c s IH]; simpl; [reflexivity | now rewrite IH]. Qed.

Lemma substring_split (k : nat) (s : string) :
  k <= String.length s ->
  s = String.substring 0 k s +:+ String.substring k (String.length s - k) s
  /\ String.length (String.substring 0 k s) = k.
Proof.
  revert s. induction k as [| k IH]; intros s Hk.
  - rewrite Nat.sub_0_r, substring_full. destruct s; split; reflexivity.
  - destruct s as [| c s]; [simpl in Hk; lia |]. simpl in Hk.
    destruct (IH s ltac:(lia)) as [He Hlen].
    cbn [String.substring String.length Nat.sub]. rewrite append_cons, Hlen.
    split; [now rewrite <- He | reflexivity].
Qed.

Lemma fullmatch_Between_Rng (n extra : nat) (lo hi : ascii) (s : string) :
  Re.fullmatch (Re.Between n extra (Re.Rng lo hi)) s = true
  <-> n <= String.length s <= n + extra /\ all_in lo hi s = true.
Proof.
  unfold Re.Between. rewrite fullmatch_Cat. split.
  - intros (s1 & s2 & -> & H1 & H2).
    apply fullmatch_Times_Rng in H1 as [Hl1 Ha1].
    apply fullmatch_UpTo_Rng in H2 as [Hl2 Ha2].
    rewrite length_append, all_in_app, Ha1, Ha2. split; [lia | reflexivity].
  - intros [Hl Hall].
    exists (String.substring 0 n s), (String.substring n (String.length s - n) s).
    destruct (substring_split n s ltac:(lia)) as [He Hlen].
    split; [exact He |].
    rewrite He, all_in_app in Hall. apply andb_prop in Hall as [Ha1 Ha2].
    split.
    + apply fullmatch_Times_Rng. auto.
    + apply fullmatch_UpTo_Rng. split; [| exact Ha2].
      assert (Hl2 : String.length s
                    = String.length (String.substring 0 n s)
                      + String.length (String.substring n (String.length s - n) s))
        by (rewrite <- length_append, <- He; reflexivity).
      lia.
Qed.

Lemma chop_newline_rstrip (s : string) : Re.chop_newline (PyStr.rstrip s) = None.
Proof.
  induction s as [| a s IH]; [reflexivity |].
  cbn [PyStr.rstrip]. destruct (PyStr.rstrip s) as [| b r].
  - destruct (PyStr.isspace a) eqn:Ea; [reflexivity |].
    cbn [Re.chop_newline]. destruct (Ascii.eqb_spec a "010") as [-> | _]; [| reflexivity].
    discriminate.
  - change (Re.chop_newline (String a (String b r)))
      with (option_map (String a) (Re.chop_newline (String b r))).
    now rewrite IH.
Qed.

Lemma match_anchored_normalised (r : Re.regex) (symbol : string) :
  Re.match_anchored r (normalised symbol) = Re.fullmatch r (normalised symbol).
Proof.
  unfold Re.match_anchored, normalised, PyStr.strip.
  rewrite chop_newline_rstrip. apply orb_false_r.
Qed.

Lemma any_match_normalised (patterns : list Re.regex) (symbol : string) :
  MarketIdentifier.any_match patterns (normalised symbol)
  = existsb (fun pattern => Re.fullmatch pattern (normalised symbol)) patterns.
Proof.
  unfold MarketIdentifier.any_match. induction patterns as [| p ps IH]; [reflexivity |].
  cbn [existsb]. now rewrite IH, match_anchored_normalised.
Qed.

Lemma prefix_split (p s : string) :
  String.prefix p s = true <-> exists rest, s = p +:+ rest.
Proof.
  split.
  - revert s. induction p as [| c p IH]; intros s H.
    + exists s. reflexivity.
    + destruct s as [| d s]; [discriminate |]. cbn [String.prefix] in H.
      destruct (ascii_dec c d) as [-> | _]; [| discriminate].
      apply IH in H as [rest ->]. exists rest. reflexivity.
  - intros [rest ->]. apply prefix_app.
Qed.

Lemma fullmatch_prefix_digits (p : string) (k : nat) (s : string) :
  Re.fullmatch (Re.Cat (Re.Str p) (Re.Times k Re.digit)) s = true
  <-> exists rest, s = p +:+ rest /\ String.length rest = k /\ all_digits rest = true.
Proof.
  rewrite fullmatch_Cat. split.
  - intros (s1 & s2 & -> & H1 & H2). apply fullmatch_Str in H1. subst s1.
    apply fullmatch_Times_Rng in H2. eauto.
  - intros (rest & -> & Hl & Hd). exists p, rest.
    split; [reflexivity |]. split; [now apply fullmatch_Str |].
    apply fullmatch_Times_Rng. auto.
Qed.

(** The six A-share patterns together. *)
Lemma A_STOCK_PATTERNS_match (symbol : string) :
  MarketIdentifier.any_match MarketIdentifier.A_STOCK_PATTERNS (normalised symbol) = true
  <-> String.length (normalised symbol) = 6
      /\ all_digits (normalised symbol) = true
      /\ MarketIdentifier.startswith_any
           (SHENZHEN_PREFIXES ++ SHANGHAI_PREFIXES ++ OTHER_A_PREFIXES)
           (normalised symbol) = true.
Proof.
  rewrite any_match_normalised. set (n := normalised symbol).
  unfold MarketIdentifier.A_STOCK_PATTERNS. cbn [existsb].
  rewrite !orb_true_iff, !fullmatch_prefix_digits, fullmatch_Cat.
  unfold MarketIdentifier.startswith_any, PyStr.startswith.
  split.
  - intros H.
    assert (Hp : exists p rest,
               In p (SHENZHEN_PREFIXES ++ SHANGHAI_PREFIXES ++ OTHER_A_PREFIXES)
               /\ n = p +:+ rest /\ String.length p + String.length rest = 6
               /\ all_digits p = true /\ all_digits rest = true).
    { destruct H as [(s1 & s2 & Hn & H1 & H2) | H].
      - cbn [Re.alts] in H1. rewrite !fullmatch_Alt, !orb_true_iff, !fullmatch_Str in H1.
        apply fullmatch_Times_Rng in H2 as [Hl Hd].
        exists s1, s2. destruct H1 as [-> | [-> | ->]]; simpl; rewrite Hl; auto 12.
      - repeat destruct H as [H | H]; try discriminate;
          destruct H as (rest & Hn & Hl & Hd);
          eexists _, rest; (split; [| split; [exact Hn |]]);
          simpl; rewrite ?Hl; auto 12. }
    destruct Hp as (p & rest & Hin & Hn & Hl & Hdp & Hdr).
    rewrite Hn, length_append. split; [exact Hl |]. split.
    + unfold all_digits in *. now rewrite all_in_app, Hdp, Hdr.
    + apply existsb_exists. exists p. split; [exact Hin | apply prefix_app].
  - intros (Hl & Hd & Hp). apply existsb_exists in Hp as (p & Hin & Hp).
    apply prefix_split in Hp as [rest Hn].
    assert (Hrest : String.length p + String.length rest = 6 /\ all_digits rest = true).
    { rewrite Hn, length_append in Hl. unfold all_digits in *.
      rewrite Hn, all_in_app in Hd. apply andb_prop in Hd as [_ Hd]. auto. }
    destruct Hrest as [Hlr Hdr].
    simpl in Hin.
    destruct Hin as [<- | [<- | [<- | [<- | [<- | [<- | [<- | [<- | []]]]]]]]];
      simpl in Hlr.
    + left. exists "000", rest. split; [exact Hn |]. split; [reflexivity |].
      apply fullmatch_Times_Rng. split; [lia | exact Hdr].
    + left. exists "002", rest. split; [exact Hn |]. split; [reflexivity |].
      apply fullmatch_Times_Rng. split; [lia | exact Hdr].
    + left. exists "003", rest. split; [exact Hn |]. split; [reflexivity |].
      apply fullmatch_Times_Rng. split; [lia | exact Hdr].
    + right. left. exists rest. repeat split; [exact Hn | lia | exact Hdr].
    + right. right. left. exists rest. repeat split; [exact Hn | lia | exact Hdr].
    + right. right. right. left. exists rest. repeat split; [exact Hn | lia | exact Hdr].
    + right. right. right. right. left. exists rest.
      repeat split; [exact Hn | lia | exact Hdr].
    + right. right. right. right. right. left. exists rest.
      repeat split; [exact Hn | lia | exact Hdr].
Qed.

Lemma identify_market_A (symbol : string) :
  MarketIdentifier.identify_market symbol = "A_STOCK"
  <-> String.length (normalised symbol) = 6
      /\ all_digits (normalised symbol) = true
      /\ MarketIdentifier.startswith_any
           (SHENZHEN_PREFIXES ++ SHANGHAI_PREFIXES ++ OTHER_A_PREFIXES)
           (normalised symbol) = true.
Proof.
  rewrite <- A_STOCK_PATTERNS_match. unfold MarketIdentifier.identify_market.
  fold (normalised symbol).
  destruct (MarketIdentifier.any_match MarketIdentifier.A_STOCK_PATTERNS
              (normalised symbol)); [tauto |].
  repeat match goal with |- context [if ?b then _ else _] => destruct b end;
    split; discriminate.
Qed.

(** X14.  For an ASCII symbol, [identify_market] answers [A_STOCK] exactly
    when the symbol, upper-cased and stripped, is six digits beginning with
    000, 002, 003, 30, 60, 68, 8 or 4. *)
Theorem a_share_symbols (symbol : string) :
  isascii symbol = true ->
  (MarketIdentifier.identify_market symbol = "A_STOCK"
   <-> String.length (normalised symbol) = 6
       /\ all_digits (normalised symbol) = true
       /\ MarketIdentifier.startswith_any
            (SHENZHEN_PREFIXES ++ SHANGHAI_PREFIXES ++ OTHER_A_PREFIXES)
            (normalised symbol) = true).
Proof. intros _. apply identify_market_A. Qed.

(** ** Hong Kong symbols *)

Lemma HK_STOCK_PATTERNS_match (symbol : string) :
  MarketIdentifier.any_match MarketIdentifier.HK_STOCK_PATTERNS (normalised symbol) = true
  <-> exists code,
        4 <= String.length code <= 5 /\ all_digits code = true
        /\ (normalised symbol = code \/ normalised symbol = code +:+ ".HK").
Proof.
  rewrite any_match_normalised. set (n := normalised symbol).
  unfold MarketIdentifier.HK_STOCK_PATTERNS. cbn [existsb].
  rewrite !orb_true_iff, fullmatch_Cat. unfold Re.digit.
  rewrite fullmatch_Between_Rng. split.
  - intros [(s1 & s2 & Hn & H1 & H2) | [[Hl Hd] | H]]; [| | discriminate].
    + apply fullmatch_Between_Rng in H1 as [Hl Hd]. apply fullmatch_Str in H2. subst s2.
      exists s1. split; [lia |]. auto.
    + exists n. split; [lia |]. auto.
  - intros (code & Hl & Hd & [Hn | Hn]).
    + right. left. rewrite Hn. split; [lia | exact Hd].
    + left. exists code, ".HK". split; [exact Hn |]. split.
      * apply fullmatch_Between_Rng. split; [lia | exact Hd].
      * now apply fullmatch_Str.
Qed.

Lemma hong_kong_is_not_a_share (symbol code : string) :
  4 <= String.length code <= 5 ->
  normalised symbol = code \/ normalised symbol = code +:+ ".HK" ->
  MarketIdentifier.any_match MarketIdentifier.A_STOCK_PATTERNS (normalised symbol) = false.
Proof.
  intros Hl Hn. apply not_true_is_false. rewrite A_STOCK_PATTERNS_match.
  intros (H6 & _). destruct Hn as [Hn | Hn]; rewrite Hn in H6.
  - lia.
  - rewrite length_append in H6. simpl in H6. lia.
Qed.

Lemma identify_market_HK (symbol : string) :
  MarketIdentifier.identify_market symbol = "HK_STOCK"
  <-> exists code,
        4 <= String.length code <= 5 /\ all_digits code = true
        /\ (normalised symbol = code \/ normalised symbol = code +:+ ".HK").
Proof.
  rewrite <- HK_STOCK_PATTERNS_match. unfold MarketIdentifier.identify_market.
  fold (normalised symbol).
  destruct (MarketIdentifier.any_match MarketIdentifier.HK_STOCK_PATTERNS
              (normalised symbol)) eqn:Ehk.
  - apply HK_STOCK_PATTERNS_match in Ehk as (code & Hl & _ & Hn).
    rewrite (hong_kong_is_not_a_share symbol code Hl Hn). tauto.
  - repeat match goal with |- context [if ?b then _ else _] => destruct b end;
      split; discriminate.
Qed.

Lemma replace_digits (old new : string) (c : ascii) (old' code : string) :
  old = String c old' -> PyStr.in_range "0" "9" c = false ->
  all_digits code = true ->
  forall tail,
    PyStr.replace_from old new 0 (code +:+ tail)
    = code +:+ PyStr.replace_from old new 0 tail.
Proof.
  intros -> Hc Hd tail. induction code as [| a code IH]; [reflexivity |].
  rewrite append_cons. cbn [all_digits all_in] in Hd.
  unfold all_digits in IH. apply andb_prop in Hd as [Ha Hd].
  cbn [PyStr.replace_from String.prefix].
  destruct (ascii_dec c a) as [-> | _]; [congruence |].
  now rewrite (IH Hd).
Qed.

Lemma zeros_digits (k : nat) :
  all_digits (PyStr.zeros k) = true /\ String.length (PyStr.zeros k) = k.
Proof. induction k as [| k [IH1 IH2]]; simpl; auto. Qed.

Lemma zfill_digits (width : nat) (code : string) :
  all_digits code = true ->
  PyStr.zfill width code = PyStr.zeros (width - String.length code) +:+ code.
Proof.
  intros Hd. unfold PyStr.zfill. destruct code as [| a code].
  - cbn [String.length]. now rewrite append_nil_r.
  - cbn [all_digits all_in] in Hd. apply andb_prop in Hd as [Ha _].
    destruct (Ascii.eqb_spec a "+") as [-> | _]; [discriminate |].
    destruct (Ascii.eqb_spec a "-") as [-> | _]; [discriminate |]. reflexivity.
Qed.

Lemma rev_app_app (s t acc : string) :
  String.rev_app (s +:+ t) acc = String.rev_app t (String.rev_app s acc).
Proof.
  revert acc. induction s as [| a s IH]; intros acc; [reflexivity |].
  rewrite append_cons. cbn [String.rev_app]. apply IH.
Qed.

Lemma rev_app_acc (s acc : string) :
  String.rev_app s acc = String.rev_app s EmptyString +:+ acc.
Proof.
  revert acc. induction s as [| a s IH]; intros acc; [reflexivity |].
  cbn [String.rev_app]. rewrite (IH (String a acc)), (IH (String a EmptyString)).
  clear IH. induction (String.rev_app s EmptyString) as [| b r IHr]; [reflexivity |].
  rewrite !append_cons. now rewrite IHr.
Qed.

Lemma endswith_app (p s : string) : PyStr.endswith p (s +:+ p) = true.
Proof.
  unfold PyStr.endswith, String.rev. rewrite rev_app_app.
  rewrite (rev_app_acc p (String.rev_app s EmptyString)). apply prefix_app.
Qed.

Lemma all_in_rev_app (lo hi : ascii) (s acc : string) :
  all_in lo hi (String.rev_app s acc) = all_in lo hi s && all_in lo hi acc.
Proof.
  revert acc. induction s as [| a s IH]; intros acc; [reflexivity |].
  cbn [String.rev_app all_in]. rewrite IH. cbn [all_in].
  destruct (PyStr.in_range lo hi a), (all_in lo hi s); reflexivity.
Qed.

Lemma endswith_HK_digits (code : string) :
  all_digits code = true -> PyStr.endswith ".HK" code = false.
Proof.
  intros Hd. unfold PyStr.endswith, String.rev.
  assert (Hr : all_digits (String.rev_app code EmptyString) = true).
  { unfold all_digits in *. now rewrite all_in_rev_app, Hd. }
  destruct (String.rev_app code EmptyString) as [| a r]; [reflexivity |].
  cbn [all_digits all_in] in Hr. apply andb_prop in Hr as [Ha _].
  cbn [String.rev_app String.prefix].
  destruct (ascii_dec "K" a) as [<- | _]; [discriminate | reflexivity].
Qed.

Lemma digits_normalised (code : string) :
  all_digits code = true -> PyStr.upper code = code.
Proof.
  intros Hd. unfold PyStr.upper. induction code as [| a code IH]; [reflexivity |].
  cbn [all_digits all_in] in Hd. apply andb_prop in Hd as [Ha Hd].
  cbn [PyStr.map_chars]. rewrite (IH Hd). f_equal.
  revert Ha. destruct a as [[] [] [] [] [] [] [] []]; vm_compute; congruence.
Qed.

(** X15.  For an ASCII symbol, [identify_market] answers [HK_STOCK]
    exactly when the symbol, upper-cased and stripped, is a code of four or
    five digits, alone or followed by [.HK].  For such a symbol the akshare
    form is the code padded with zeros to five digits, whether or not the
    suffix was given, and the yfinance form is the code followed by
    [.HK]. *)
Theorem hong_kong_symbols (symbol : string) :
  isascii symbol = true ->
  (MarketIdentifier.identify_market symbol = "HK_STOCK"
   <-> exists code,
         4 <= String.length code <= 5 /\ all_digits code = true
         /\ (normalised symbol = code \/ normalised symbol = code +:+ ".HK"))
  /\ forall code,
       4 <= String.length code <= 5 ->
       all_digits code = true ->
       normalised symbol = code \/ normalised symbol = code +:+ ".HK" ->
       MarketIdentifier.format_symbol_for_vendor symbol "akshare" None
       = PyStr.zeros (5 - String.length code) +:+ code
       /\ String.length (MarketIdentifier.format_symbol_for_vendor symbol "akshare" None) = 5
       /\ all_digits (MarketIdentifier.format_symbol_for_vendor symbol "akshare" None) = true
       /\ MarketIdentifier.format_symbol_for_vendor symbol "yfinance" None
          = code +:+ ".HK".
Proof.
  intros _. split; [apply identify_market_HK |].
  intros code Hl Hd Hn.
  assert (Hm : MarketIdentifier.identify_market symbol = "HK_STOCK")
    by (apply identify_market_HK; eauto).
  assert (Hak : MarketIdentifier.format_symbol_for_vendor symbol "akshare" None
                = PyStr.zeros (5 - String.length code) +:+ code).
  { unfold MarketIdentifier.format_symbol_for_vendor. rewrite Hm.
    fold (normalised symbol). cbn [String.eqb Ascii.eqb Bool.eqb].
    change (PyStr.zfill 5 (PyStr.replace ".HK" "" (normalised symbol))
            = PyStr.zeros (5 - String.length code) +:+ code).
    assert (Hrep : PyStr.replace ".HK" "" (normalised symbol) = code).
    { unfold PyStr.replace. destruct Hn as [-> | ->].
      - pose proof (replace_digits ".HK" "" "." "HK" code eq_refl eq_refl Hd EmptyString)
          as Hr.
        rewrite !append_nil_r in Hr. exact Hr.
      - rewrite (replace_digits ".HK" "" "." "HK" code eq_refl eq_refl Hd ".HK").
        cbn. apply append_nil_r. }
    rewrite Hrep. now apply zfill_digits. }
  split; [exact Hak |]. rewrite Hak. split; [| split].
  - rewrite length_append. destruct (zeros_digits (5 - String.length code)) as [_ ->]. lia.
  - unfold all_digits in *. rewrite all_in_app, Hd.
    destruct (zeros_digits (5 - String.length code)) as [Hz _]. unfold all_digits in Hz.
    now rewrite Hz.
  - unfold MarketIdentifier.format_symbol_for_vendor. rewrite Hm.
    fold (normalised symbol). cbn [String.eqb Ascii.eqb Bool.eqb orb].
    change ((if negb (PyStr.endswith ".HK" (normalised symbol))
             then PyStr.zfill 4 (normalised symbol) +:+ ".HK"
             else normalised symbol) = code +:+ ".HK").
    destruct Hn as [-> | ->].
    + rewrite (endswith_HK_digits code Hd). cbn [negb].
      rewrite (zfill_digits 4 code Hd).
      replace (4 - String.length code) with 0 by lia. reflexivity.
    + now rewrite endswith_app.
Qed.

Lemma hong_kong_symbols_witness :
  MarketIdentifier.format_symbol_for_vendor " 0700.hk " "akshare" None = "00700"
  /\ MarketIdentifier.format_symbol_for_vendor " 0700.hk " "yfinance" None = "0700.HK".
Proof.
  pose proof (proj2 (hong_kong_symbols " 0700.hk " eq_refl) "0700"
                ltac:(simpl; lia) eq_refl (or_intror eq_refl)) as (H1 & _ & _ & H2).
  split; [exact H1 | exact H2].
Defined.

Lemma a_share_symbols_witness : MarketIdentifier.identify_market " 600519" = "A_STOCK".
Proof.
  apply (proj2 (a_share_symbols " 600519" eq_refl)). vm_compute. auto.
Defined.

(** ** Formatted A-share symbols are not A-share symbols any more *)

Lemma upper_app (s t : string) : PyStr.upper (s +:+ t) = PyStr.upper s +:+ PyStr.upper t.
Proof.
  unfold PyStr.upper. induction s as [| a s IH]; [reflexivity |].
  rewrite append_cons. cbn [PyStr.map_chars]. now rewrite IH.
Qed.

Lemma rstrip_app (s t : string) :
  PyStr.rstrip t <> EmptyString -> PyStr.rstrip (s +:+ t) = s +:+ PyStr.rstrip t.
Proof.
  intros Ht. induction s as [| a s IH]; [reflexivity |].
  rewrite !append_cons. cbn [PyStr.rstrip]. rewrite IH.
  destruct (s +:+ PyStr.rstrip t) as [| b r] eqn:E; [| reflexivity].
  exfalso. destruct s; [rewrite append_nil_l in E; contradiction | discriminate].
Qed.

Lemma normalised_fixed (symbol : string) :
  PyStr.rstrip (normalised symbol) = normalised symbol.
Proof. unfold normalised, PyStr.strip. apply rstrip_idem. Qed.

Lemma digit_not_space (a : ascii) :
  PyStr.in_range "0" "9" a = true -> PyStr.isspace a = false.
Proof. destruct a as [[] [] [] [] [] [] [] []]; vm_compute; congruence. Qed.

Lemma digit_not_capital_or_dot (a : ascii) :
  PyStr.in_range "0" "9" a = true -> capital_or_dot a = false.
Proof. destruct a as [[] [] [] [] [] [] [] []]; vm_compute; congruence. Qed.

Lemma forall_chars_app (P : ascii -> bool) (s t : string) :
  forall_chars P (s +:+ t) = forall_chars P s && forall_chars P t.
Proof.
  induction s as [| a s IH]; [reflexivity |].
  rewrite append_cons. cbn [forall_chars]. now rewrite IH, andb_assoc.
Qed.

Lemma all_capitals_capital_or_dot (s : string) :
  all_capitals s = true -> forall_chars capital_or_dot s = true.
Proof.
  induction s as [| a s IH]; [reflexivity |]. cbn [all_capitals all_in forall_chars].
  intros H. apply andb_prop in H as [Ha Hs]. unfold capital_or_dot. rewrite Ha.
  now apply IH.
Qed.

Section FormattedAShares.

Variable symbol : string.
Hypothesis Ha : MarketIdentifier.identify_market symbol = "A_STOCK".

Lemma a_share_code : String.length (normalised symbol) = 6 /\ all_digits (normalised symbol) = true.
Proof. apply identify_market_A in Ha as (Hl & Hd & _). auto. Qed.

Lemma a_share_code_head :
  exists a n', (normalised symbol) = String a n' /\ PyStr.in_range "0" "9" a = true.
Proof.
  destruct a_share_code as [Hl Hd]. destruct (normalised symbol) as [| a n'] eqn:E; [discriminate |].
  cbn [all_digits all_in] in Hd. apply andb_prop in Hd as [Hd _]. eauto.
Qed.

(** The code followed by an upper-case suffix, and an upper-case prefix
    followed by the code, come out of [upper().strip()] unchanged. *)
Lemma normalised_code_suffix (suffix : string) :
  PyStr.upper suffix = suffix -> PyStr.rstrip suffix = suffix -> suffix <> EmptyString ->
  normalised ((normalised symbol) +:+ suffix) = (normalised symbol) +:+ suffix.
Proof.
  intros Hu Hr Hne. destruct a_share_code as [_ Hd].
  destruct a_share_code_head as (a & n' & En & Hdig).
  unfold normalised at 1. rewrite upper_app, Hu, (digits_normalised (normalised symbol) Hd).
  unfold PyStr.strip. rewrite En, append_cons. cbn [PyStr.lstrip].
  rewrite (digit_not_space a Hdig). rewrite <- append_cons, <- En.
  rewrite rstrip_app; rewrite Hr; [reflexivity | exact Hne].
Qed.

Lemma normalised_prefix_code (prefix : string) (c : ascii) (prefix' : string) :
  PyStr.upper prefix = String c prefix' -> PyStr.isspace c = false ->
  normalised (prefix +:+ (normalised symbol)) = PyStr.upper prefix +:+ (normalised symbol).
Proof.
  intros Hu Hc. destruct a_share_code as [Hl Hd].
  unfold normalised at 1. rewrite upper_app, (digits_normalised (normalised symbol) Hd), Hu.
  unfold PyStr.strip. rewrite append_cons. cbn [PyStr.lstrip]. rewrite Hc.
  rewrite <- append_cons. rewrite rstrip_app; rewrite normalised_fixed.
  - reflexivity.
  - destruct (normalised symbol); [discriminate | discriminate].
Qed.

Lemma long_symbol_is_neither_A_nor_HK (x : string) :
  String.length (normalised x) = 9 ->
  MarketIdentifier.any_match MarketIdentifier.A_STOCK_PATTERNS (normalised x) = false
  /\ MarketIdentifier.any_match MarketIdentifier.HK_STOCK_PATTERNS (normalised x) = false.
Proof.
  intros H9. split; apply not_true_is_false.
  - rewrite A_STOCK_PATTERNS_match. intros (H6 & _). lia.
  - rewrite HK_STOCK_PATTERNS_match. intros (code & Hl & _ & [Hn | Hn]);
      rewrite Hn in H9; [lia |]. rewrite length_append in H9. simpl in H9. lia.
Qed.

Lemma code_with_suffix_is_US (suffix' : string) :
  suffix' <> EmptyString -> all_capitals suffix' = true ->
  PyStr.rstrip ("." +:+ suffix') = "." +:+ suffix' ->
  PyStr.upper ("." +:+ suffix') = "." +:+ suffix' ->
  String.length suffix' = 2 ->
  MarketIdentifier.identify_market ((normalised symbol) +:+ "." +:+ suffix') = "US_STOCK".
Proof.
  intros Hne Hcap Hr Hu H2. destruct a_share_code as [Hl Hd].
  assert (Hfix : normalised ((normalised symbol) +:+ "." +:+ suffix') = (normalised symbol) +:+ "." +:+ suffix')
    by (apply normalised_code_suffix; [exact Hu | exact Hr | discriminate]).
  assert (H9 : String.length (normalised ((normalised symbol) +:+ "." +:+ suffix')) = 9).
  { rewrite Hfix, length_append, Hl. cbn [String.append String.length].
    change ("." +:+ suffix') with (String "."%char suffix'). cbn [String.length]. lia. }
  destruct (long_symbol_is_neither_A_nor_HK _ H9) as [HA HHK].
  unfold MarketIdentifier.identify_market.
  fold (normalised ((normalised symbol) +:+ "." +:+ suffix')). rewrite HA, HHK.
  replace (MarketIdentifier.any_match MarketIdentifier.US_STOCK_PATTERNS
             (normalised ((normalised symbol) +:+ "." +:+ suffix'))) with true; [reflexivity |].
  symmetry. rewrite any_match_normalised, Hfix.
  unfold MarketIdentifier.US_STOCK_PATTERNS. cbn [existsb].
  rewrite !orb_true_iff. right. right. left.
  apply fullmatch_Cat. exists (normalised symbol), ("." +:+ suffix'). split; [reflexivity |]. split.
  - apply fullmatch_Plus_Rng. split; [| exact Hd]. destruct (normalised symbol); discriminate.
  - unfold Re.Lit. apply fullmatch_Rng_Cat. exists "."%char, suffix'.
    split; [reflexivity |]. split; [reflexivity |].
    apply fullmatch_Plus_Rng. auto.
Qed.

Lemma prefixed_code_is_UNKNOWN (prefix : string) :
  In prefix ["sz."; "sh."] ->
  MarketIdentifier.identify_market (prefix +:+ (normalised symbol)) = "UNKNOWN".
Proof.
  intros Hp. destruct a_share_code as [Hl Hd].
  destruct a_share_code_head as (a & n' & En & Hdig).
  assert (Hup : exists c2, PyStr.upper prefix = String "S" (String c2 ".")).
  { simpl in Hp. destruct Hp as [<- | [<- | []]]; eexists; reflexivity. }
  destruct Hup as [c2 Hup].
  assert (Hfix : normalised (prefix +:+ (normalised symbol)) = String "S" (String c2 ".") +:+ (normalised symbol)).
  { rewrite <- Hup. eapply normalised_prefix_code; [exact Hup | reflexivity]. }
  assert (H9 : String.length (normalised (prefix +:+ (normalised symbol))) = 9).
  { rewrite Hfix, length_append, Hl. reflexivity. }
  destruct (long_symbol_is_neither_A_nor_HK _ H9) as [HA HHK].
  unfold MarketIdentifier.identify_market.
  fold (normalised (prefix +:+ (normalised symbol))). rewrite HA, HHK.
  replace (MarketIdentifier.any_match MarketIdentifier.US_STOCK_PATTERNS
             (normalised (prefix +:+ (normalised symbol)))) with false; [reflexivity |].
  symmetry. apply not_true_is_false.
  rewrite any_match_normalised. unfold MarketIdentifier.US_STOCK_PATTERNS.
  cbn [existsb]. rewrite !orb_true_iff. unfold Re.AZ, Re.digit.
  intros [H | [H | [H | H]]]; [| | | discriminate].
  - apply fullmatch_Between_Rng in H as [Hlen _]. lia.
  - apply fullmatch_Cat in H as (s1 & s2 & Hx & H1 & H2).
    apply fullmatch_Plus_Rng in H1 as [_ H1].
    unfold Re.Lit in H2. apply fullmatch_Rng_Cat in H2 as (d & s3 & -> & Hdot & H3).
    apply fullmatch_Plus_Rng in H3 as [_ H3].
    assert (Hall : forall_chars capital_or_dot (normalised (prefix +:+ (normalised symbol))) = true).
    { rewrite Hx, forall_chars_app. cbn [forall_chars].
      rewrite (all_capitals_capital_or_dot s1 H1), (all_capitals_capital_or_dot s3 H3).
      unfold capital_or_dot at 1.
      replace (Ascii.eqb d ".") with true; [now rewrite orb_true_r |].
      symmetry. apply Ascii.eqb_eq.
      unfold PyStr.in_range in Hdot. apply andb_prop in Hdot as [Hd1 Hd2].
      apply N.leb_le in Hd1, Hd2.
      rewrite <- (ascii_N_embedding d), <- (ascii_N_embedding "."). f_equal. lia. }
    rewrite Hfix, forall_chars_app, En in Hall. cbn [forall_chars] in Hall.
    rewrite (digit_not_capital_or_dot a Hdig) in Hall.
    rewrite !andb_false_r in Hall. discriminate.
  - apply fullmatch_Cat in H as (s1 & s2 & Hx & H1 & _).
    apply fullmatch_Plus_Rng in H1 as [Hne H1].
    destruct s1 as [| b s1]; [contradiction |].
    rewrite Hfix in Hx. rewrite !append_cons in Hx. injection Hx as <- _.
    cbn [all_in] in H1. discriminate.
Qed.

End FormattedAShares.

(** X16.  The form [format_symbol_for_vendor] gives an A-share code of the
    Shenzhen or Shanghai exchange is not read as an A-share again: handed
    back to [identify_market], the yfinance and alpha_vantage form (the code
    with [.SZ] or [.SS]) is a US stock and the baostock form (the code after
    [sz.] or [sh.]) is of unknown market. *)
Theorem formatted_a_share_is_read_differently (symbol : string) :
  MarketIdentifier.identify_market symbol = "A_STOCK" ->
  MarketIdentifier.startswith_any (SHENZHEN_PREFIXES ++ SHANGHAI_PREFIXES)
    (normalised symbol) = true ->
  MarketIdentifier.identify_market
    (MarketIdentifier.format_symbol_for_vendor symbol "yfinance" None) = "US_STOCK"
  /\ MarketIdentifier.identify_market
       (MarketIdentifier.format_symbol_for_vendor symbol "alpha_vantage" None) = "US_STOCK"
  /\ MarketIdentifier.identify_market
       (MarketIdentifier.format_symbol_for_vendor symbol "baostock" None) = "UNKNOWN".
Proof.
  intros Ha Hp.
  unfold MarketIdentifier.startswith_any in Hp. rewrite existsb_app, orb_true_iff in Hp.
  fold (MarketIdentifier.startswith_any SHENZHEN_PREFIXES (normalised symbol)) in Hp.
  fold (MarketIdentifier.startswith_any SHANGHAI_PREFIXES (normalised symbol)) in Hp.
  unfold MarketIdentifier.format_symbol_for_vendor. rewrite Ha.
  fold (normalised symbol). cbn [String.eqb Ascii.eqb Bool.eqb orb].
  change ["000"; "002"; "003"; "30"] with SHENZHEN_PREFIXES.
  change ["60"; "68"] with SHANGHAI_PREFIXES.
  destruct (MarketIdentifier.startswith_any SHENZHEN_PREFIXES (normalised symbol)).
  - split; [| split].
    + apply (code_with_suffix_is_US symbol Ha "SZ"); try reflexivity. discriminate.
    + apply (code_with_suffix_is_US symbol Ha "SZ"); try reflexivity. discriminate.
    + apply (prefixed_code_is_UNKNOWN symbol Ha "sz."). simpl. auto.
  - destruct Hp as [Hp | Hp]; [discriminate |]. rewrite Hp. split; [| split].
    + apply (code_with_suffix_is_US symbol Ha "SS"); try reflexivity. discriminate.
    + apply (code_with_suffix_is_US symbol Ha "SS"); try reflexivity. discriminate.
    + apply (prefixed_code_is_UNKNOWN symbol Ha "sh."). simpl. auto.
Qed.

Lemma formatted_a_share_is_read_differently_witness :
  MarketIdentifier.identify_market
    (MarketIdentifier.format_symbol_for_vendor "000001" "yfinance" None) = "US_STOCK".
Proof.
  exact (proj1 (formatted_a_share_is_read_differently "000001" eq_refl eq_refl)).
Defined.

(** ** The default configuration *)

(** X17.  With the vendor settings of [default_config.py], the tool-level
    and category-level settings are consulted only for a call without a
    symbol or with a symbol of unknown market: for every symbol of a known
    market, whatever the method and its category, the providers are those of
    the market's entry and the call is market-scoped. *)
Theorem default_market_entries_shadow_tool_settings (category method symbol : string) :
  MarketIdentifier.identify_market symbol <> "UNKNOWN" ->
  let market := MarketIdentifier.identify_market symbol in
  parse_vendors (get_vendor DEFAULT_CONFIG category method (Some symbol))
  = (if String.eqb market "A_STOCK" then ["akshare"; "baostock"; "yfinance"]
     else if String.eqb market "HK_STOCK" then ["akshare"; "yfinance"]
     else ["akshare"; "yfinance"; "alpha_vantage"])
  /\ is_market_scoped DEFAULT_CONFIG (Some symbol) = true.
Proof.
  intros Hm market.
  assert (Hs : PyStr.truthy symbol = true).
  { destruct symbol; [exfalso; apply Hm; reflexivity | reflexivity]. }
  pose proof (identify_market_range symbol) as Hr. fold market in Hr, Hm.
  unfold get_vendor, market_layer, is_market_scoped. rewrite Hs. cbn zeta.
  change (mi_market (get_market_info symbol)) with market.
  simpl in Hr. destruct Hr as [E | [E | [E | [E | []]]]]; rewrite <- E in *.
  - split; vm_compute; reflexivity.
  - split; vm_compute; reflexivity.
  - split; vm_compute; reflexivity.
  - contradiction.
Qed.

Lemma default_market_entries_shadow_tool_settings_witness :
  parse_vendors (get_vendor DEFAULT_CONFIG "technical_indicators" "get_indicators"
                   (Some "AAPL"))
  = ["akshare"; "yfinance"; "alpha_vantage"].
Proof.
  refine (proj1 (default_market_entries_shadow_tool_settings "technical_indicators"
                   "get_indicators" "AAPL" _)).
  vm_compute. discriminate.
Defined.

(** ** Every line made of a date and a value is a date line *)

Lemma lstrip_rstrip_comm (v : string) :
  PyStr.lstrip (PyStr.rstrip v) = PyStr.rstrip (PyStr.lstrip v).
Proof.
  induction v as [| a v IH]; [reflexivity |].
  cbn [PyStr.lstrip PyStr.rstrip]. destruct (PyStr.isspace a) eqn:Ea.
  - rewrite <- IH. destruct (PyStr.rstrip v) as [| b r]; [reflexivity |].
    cbn [PyStr.lstrip]. now rewrite Ea.
  - cbn [PyStr.rstrip]. destruct (PyStr.rstrip v) as [| b r];
      rewrite ?Ea; cbn [PyStr.lstrip]; rewrite Ea; reflexivity.
Qed.

Lemma rstrip_cons_nonspace (a : ascii) (v : string) :
  PyStr.isspace a = false -> PyStr.rstrip (String a v) = String a (PyStr.rstrip v).
Proof.
  intros Ea. cbn [PyStr.rstrip]. destruct (PyStr.rstrip v); [now rewrite Ea | reflexivity].
Qed.

Lemma join_split (sep : ascii) (s : string) :
  PyStr.join (String sep EmptyString) (PyStr.split sep s) = s.
Proof.
  induction s as [| a s IH]; [reflexivity |].
  cbn [PyStr.split]. pose proof (split_not_nil sep s) as Hn.
  destruct (Ascii.eqb_spec a sep) as [-> | Hne].
  - destruct (PyStr.split sep s) as [| x xs]; [contradiction |].
    cbn [PyStr.join]. cbn [PyStr.join] in IH. rewrite IH. reflexivity.
  - destruct (PyStr.split sep s) as [| x xs]; [contradiction |].
    cbn [PyStr.join] in *. destruct xs as [| y ys].
    + now rewrite IH.
    + rewrite append_cons. now rewrite IH.
Qed.

Lemma split_without_separator (sep : ascii) (P : ascii -> bool) (s : string) :
  P sep = false -> forall_chars P s = true -> PyStr.split sep s = [s].
Proof.
  intros Hsep. induction s as [| a s IH]; [reflexivity |].
  cbn [forall_chars PyStr.split]. intros H. apply andb_prop in H as [Ha Hs].
  destruct (Ascii.eqb_spec a sep) as [-> | _]; [congruence |].
  now rewrite (IH Hs).
Qed.

Lemma in_range_weaken (lo hi lo' hi' a : ascii) :
  (N_of_ascii lo' <= N_of_ascii lo)%N -> (N_of_ascii hi <= N_of_ascii hi')%N ->
  PyStr.in_range lo hi a = true -> PyStr.in_range lo' hi' a = true.
Proof.
  unfold PyStr.in_range. intros H1 H2 H. apply andb_prop in H as [Ha Hb].
  apply N.leb_le in Ha, Hb. apply andb_true_intro. split; apply N.leb_le; lia.
Qed.

Lemma in_range_singleton (c a : ascii) : PyStr.in_range c c a = true -> a = c.
Proof.
  unfold PyStr.in_range. intros H. apply andb_prop in H as [H1 H2].
  apply N.leb_le in H1, H2.
  rewrite <- (ascii_N_embedding a), <- (ascii_N_embedding c). f_equal. lia.
Qed.

Lemma digit_is_date_char (a : ascii) :
  PyStr.in_range "0" "9" a = true -> date_char a = true.
Proof. intros H. unfold date_char. now rewrite H. Qed.

Lemma all_digits_date_chars (s : string) :
  all_digits s = true -> forall_chars date_char s = true.
Proof.
  induction s as [| a s IH]; [reflexivity |]. cbn [all_digits all_in forall_chars].
  intros H. apply andb_prop in H as [Ha Hs]. rewrite (digit_is_date_char a Ha).
  now apply IH.
Qed.

(** A string that matches one of the alternatives for the month or for the
    day is one or two characters, digits or a leading blank, and ends with a
    digit. *)
Lemma two_class_match (l1 h1 l2 h2 : ascii) (s : string) :
  Re.fullmatch (Re.Cat (Re.Rng l1 h1) (Re.Rng l2 h2)) s = true ->
  exists a b, s = String a (String b EmptyString)
              /\ PyStr.in_range l1 h1 a = true /\ PyStr.in_range l2 h2 b = true.
Proof.
  intros H. apply fullmatch_Rng_Cat in H as (a & s' & -> & Ha & H).
  apply fullmatch_Rng in H as (b & -> & Hb). eauto.
Qed.

Lemma month_or_day_shape (s : string) :
  Re.fullmatch
    (Re.alts [Re.Cat (Re.Lit "1") (Re.Rng "0" "2"); Re.Cat (Re.Lit "0") (Re.Rng "1" "9");
              Re.Rng "1" "9"]) s = true
  \/ Re.fullmatch
       (Re.alts [Re.Cat (Re.Lit "3") (Re.Rng "0" "1"); Re.Cat (Re.Rng "1" "2") Re.digit;
                 Re.Cat (Re.Lit "0") (Re.Rng "1" "9"); Re.Rng "1" "9";
                 Re.Cat (Re.Lit " ") (Re.Rng "1" "9")]) s = true ->
  forall_chars date_char s = true /\ PyStr.rstrip s = s /\ s <> EmptyString.
Proof.
  assert (Htwo : forall a b, date_char a = true -> PyStr.in_range "0" "9" b = true ->
            forall_chars date_char (String a (String b EmptyString)) = true
            /\ PyStr.rstrip (String a (String b EmptyString)) = String a (String b EmptyString)
            /\ String a (String b EmptyString) <> EmptyString).
  { intros a b Ha Hb. cbn [forall_chars PyStr.rstrip].
    rewrite Ha, (digit_is_date_char b Hb), (digit_not_space b Hb). repeat split. discriminate. }
  assert (Hone : forall b, PyStr.in_range "0" "9" b = true ->
            forall_chars date_char (String b EmptyString) = true
            /\ PyStr.rstrip (String b EmptyString) = String b EmptyString
            /\ String b EmptyString <> EmptyString).
  { intros b Hb. cbn [forall_chars PyStr.rstrip].
    rewrite (digit_is_date_char b Hb), (digit_not_space b Hb). repeat split. discriminate. }
  assert (Hdig : forall lo hi b,
            (N_of_ascii "0" <= N_of_ascii lo)%N -> (N_of_ascii hi <= N_of_ascii "9")%N ->
            PyStr.in_range lo hi b = true -> PyStr.in_range "0" "9" b = true)
    by (intros lo hi b; apply in_range_weaken).
  cbn [Re.alts]. unfold Re.Lit, Re.digit. rewrite !fullmatch_Alt, !orb_true_iff.
  intros [H | H].
  - destruct H as [H | [H | H]].
    + apply two_class_match in H as (a & b & -> & Ha & Hb). apply Htwo.
      * apply digit_is_date_char. eapply Hdig; [| | exact Ha]; vm_compute; discriminate.
      * eapply Hdig; [| | exact Hb]; vm_compute; discriminate.
    + apply two_class_match in H as (a & b & -> & Ha & Hb). apply Htwo.
      * apply digit_is_date_char. eapply Hdig; [| | exact Ha]; vm_compute; discriminate.
      * eapply Hdig; [| | exact Hb]; vm_compute; discriminate.
    + apply fullmatch_Rng in H as (b & -> & Hb). apply Hone.
      eapply Hdig; [| | exact Hb]; vm_compute; discriminate.
  - destruct H as [H | [H | [H | [H | H]]]].
    + apply two_class_match in H as (a & b & -> & Ha & Hb). apply Htwo.
      * apply digit_is_date_char. eapply Hdig; [| | exact Ha]; vm_compute; discriminate.
      * eapply Hdig; [| | exact Hb]; vm_compute; discriminate.
    + apply two_class_match in H as (a & b & -> & Ha & Hb). apply Htwo.
      * apply digit_is_date_char. eapply Hdig; [| | exact Ha]; vm_compute; discriminate.
      * exact Hb.
    + apply two_class_match in H as (a & b & -> & Ha & Hb). apply Htwo.
      * apply digit_is_date_char. eapply Hdig; [| | exact Ha]; vm_compute; discriminate.
      * eapply Hdig; [| | exact Hb]; vm_compute; discriminate.
    + apply fullmatch_Rng in H as (b & -> & Hb). apply Hone.
      eapply Hdig; [| | exact Hb]; vm_compute; discriminate.
    + apply two_class_match in H as (a & b & -> & Ha & Hb). apply Htwo.
      * apply in_range_singleton in Ha. subst a. reflexivity.
      * eapply Hdig; [| | exact Hb]; vm_compute; discriminate.
Qed.

(** What [strptime] accepts starts with a digit, ends with a digit and
    holds digits, dashes and blanks only. *)
Lemma strptime_shape (d : string) :
  Datetime.strptime_ymd d = true ->
  (exists a d', d = String a d' /\ PyStr.in_range "0" "9" a = true)
  /\ forall_chars date_char d = true
  /\ PyStr.rstrip d = d.
Proof.
  unfold Datetime.strptime_ymd. intros H. apply andb_prop in H as [H _].
  unfold Datetime.ymd_regex in H.
  apply fullmatch_Cat in H as (y & s1 & -> & Hy & H).
  unfold Re.digit in Hy. apply fullmatch_Times_Rng in Hy as [Hly Hdy].
  unfold Re.Lit in H. apply fullmatch_Rng_Cat in H as (c1 & s2 & -> & Hc1 & H).
  apply in_range_singleton in Hc1. subst c1.
  apply fullmatch_Cat in H as (m & s3 & -> & Hm & H).
  apply fullmatch_Rng_Cat in H as (c2 & dd & -> & Hc2 & Hd).
  apply in_range_singleton in Hc2. subst c2.
  destruct (month_or_day_shape m (or_introl Hm)) as (Hmc & _ & _).
  destruct (month_or_day_shape dd (or_intror Hd)) as (Hdc & Hdr & Hdne).
  split; [| split].
  - destruct y as [| a y']; [discriminate |]. cbn [all_in] in Hdy.
    apply andb_prop in Hdy as [Ha _]. exists a. eexists. split; [reflexivity | exact Ha].
  - rewrite forall_chars_app. cbn [forall_chars]. rewrite forall_chars_app.
    cbn [forall_chars]. rewrite (all_digits_date_chars y Hdy), Hmc, Hdc. reflexivity.
  - rewrite rstrip_app.
    + f_equal. rewrite rstrip_cons_nonspace by reflexivity. f_equal.
      rewrite rstrip_app; [| rewrite rstrip_cons_nonspace by reflexivity; discriminate].
      f_equal. rewrite rstrip_cons_nonspace by reflexivity. now rewrite Hdr.
    + rewrite rstrip_cons_nonspace by reflexivity. discriminate.
Qed.

Lemma date_chars_hold_no_colon (d : string) :
  forall_chars date_char d = true -> PyStr.split ":" d = [d].
Proof. apply split_without_separator. reflexivity. Qed.

(** X18.  Every line made of a date that [strptime] accepts and that is ten
    characters long, a colon and a value is counted as a date line; it is
    counted as valid data exactly when the value, stripped, is not empty and
    holds none of the no-data keywords. *)
Theorem date_and_value_line_is_counted (c : Counts) (d v : string) :
  Datetime.strptime_ymd d = true ->
  String.length d = 10 ->
  scan_line c (d +:+ ":" +:+ v)
  = add_counts c
      {| valid_data_count :=
           if negb (has_no_data_keyword (PyStr.strip v)) && PyStr.truthy (PyStr.strip v)
           then 1 else 0;
         date_line_count := 1 |}.
Proof.
  intros Hd Hl. destruct (strptime_shape d Hd) as ((a & d' & Ed & Ha) & Hchars & Hr).
  assert (Hstrip : PyStr.strip (d +:+ ":" +:+ v) = d +:+ String ":" (PyStr.rstrip v)).
  { unfold PyStr.strip. rewrite Ed, append_cons. cbn [PyStr.lstrip].
    rewrite (digit_not_space a Ha). rewrite <- append_cons, <- Ed.
    change (":" +:+ v) with (String ":"%char v).
    rewrite rstrip_app; rewrite rstrip_cons_nonspace by reflexivity;
      [reflexivity | discriminate]. }
  assert (Hsplit : PyStr.split ":" (PyStr.strip (d +:+ ":" +:+ v))
                   = d :: PyStr.split ":" (PyStr.rstrip v)).
  { rewrite Hstrip, split_app, (date_chars_hold_no_colon d Hchars). reflexivity. }
  assert (Hd_strip : PyStr.strip d = d).
  { unfold PyStr.strip. rewrite Ed. cbn [PyStr.lstrip]. rewrite (digit_not_space a Ha).
    now rewrite <- Ed. }
  rewrite scan_line_counts. cbv zeta. rewrite Hsplit. cbn [hd tl].
  rewrite Hd_strip, Hl, Hd, join_split.
  assert (Hcontains : PyStr.contains ":" (PyStr.strip (d +:+ ":" +:+ v)) = true).
  { rewrite Hstrip. change (String ":"%char (PyStr.rstrip v)) with (":" +:+ PyStr.rstrip v).
    apply contains_app. }
  rewrite Hcontains. cbn [Nat.eqb andb].
  assert (Hv : PyStr.strip (PyStr.rstrip v) = PyStr.strip v).
  { unfold PyStr.strip. now rewrite lstrip_rstrip_comm, rstrip_idem. }
  rewrite Hv. unfold add_counts, has_no_data_keyword. cbn. reflexivity.
Qed.

Lemma date_and_value_line_is_counted_witness :
  scan_line no_counts "2024-02-10: N/A: Not a trading day"
  = {| valid_data_count := 0; date_line_count := 1 |}.
Proof.
  exact (date_and_value_line_is_counted no_counts "2024-02-10" " N/A: Not a trading day"
           eq_refl eq_refl).
Defined.
